(** * MixerChatConnection: the chat connection of the Mixer interactivity plugin

    A shallow embedding of [Source/MixerInteractivity/Private/MixerChatConnection.cpp].

    - Message objects ([FChatMessageMixerImpl]) live in an arena addressed by
      index; a [TSharedPtr] to a message is an [option nat], the empty pointer
      being [None].  The intrusive links [NextLink] and [PrevLink] are such
      pointers, so aliasing between the history chain and the objects it
      reaches is explicit.
    - [int32] members are integers of [Z]; arithmetic on them wraps
      ([wrap32]).
    - A method that fails a [check], dereferences an empty pointer or walks a
      cyclic chain for ever has no result ([None]).
    - What a method does to its collaborators (socket, log, chat interface)
      is recorded as a list of [Effect]s. *)

From Stdlib Require Import ZArith String List Lia Bool.
From stdpp Require Import base option list gmap strings.

Local Open Scope Z_scope.

#[local] Set Warnings "-register-all,-clear-no-such-hyp".

(** ** Machine integers *)

Definition wrap32 (z : Z) : Z := (z + 2147483648) mod 4294967296 - 2147483648.

Definition InInt32 (z : Z) : Prop := -2147483648 <= z <= 2147483647.

(** ** The JSON tree handed over by the engine's reader

    A getter succeeds when the field is present and holds a value of the
    requested type.  Numbers are the integers; the [int32] getter also wants
    the value in range.  The engine converts between some of the types and
    compares [FString]s without regard to case; here a value has the type
    it was written with and strings are compared as they are. *)

Inductive FJsonValue : Type :=
| JsonNull
| JsonBoolean (b : bool)
| JsonNumber (n : Z)
| JsonString (s : string)
| JsonArray (elements : list FJsonValue)
| JsonObject (fields : list (string * FJsonValue)).

Definition FJsonObject : Type := list (string * FJsonValue).

Fixpoint TryGetField (JsonObj : FJsonObject) (FieldName : string) : option FJsonValue :=
  match JsonObj with
  | [] => None
  | (k, v) :: rest => if String.eqb k FieldName then Some v else TryGetField rest FieldName
  end.

Definition TryGetStringField (JsonObj : FJsonObject) (FieldName : string) : option string :=
  match TryGetField JsonObj FieldName with
  | Some (JsonString s) => Some s
  | _ => None
  end.

Definition TryGetNumberField (JsonObj : FJsonObject) (FieldName : string) : option Z :=
  match TryGetField JsonObj FieldName with
  | Some (JsonNumber n) =>
      if (-2147483648 <=? n) && (n <=? 2147483647) then Some n else None
  | _ => None
  end.

Definition TryGetBoolField (JsonObj : FJsonObject) (FieldName : string) : option bool :=
  match TryGetField JsonObj FieldName with
  | Some (JsonBoolean b) => Some b
  | _ => None
  end.

Definition TryGetObjectField (JsonObj : FJsonObject) (FieldName : string) : option FJsonObject :=
  match TryGetField JsonObj FieldName with
  | Some (JsonObject o) => Some o
  | _ => None
  end.

Definition TryGetArrayField (JsonObj : FJsonObject) (FieldName : string)
  : option (list FJsonValue) :=
  match TryGetField JsonObj FieldName with
  | Some (JsonArray a) => Some a
  | _ => None
  end.

Definition TryGetObject (v : FJsonValue) : option FJsonObject :=
  match v with JsonObject o => Some o | _ => None end.

(** [AsObject] of a value that is no object is an object without fields. *)
Definition AsObject (v : FJsonValue) : FJsonObject :=
  match v with JsonObject o => o | _ => [] end.

(** ** String constants *)

Module MixerChatStringConstants.
Module MessageTypes.
Definition Method : string := "method".
Definition Reply : string := "reply".
Definition Event : string := "event".
End MessageTypes.
Module MethodNames.
Definition Auth : string := "auth".
Definition Msg : string := "msg".
Definition Whisper : string := "whisper".
Definition History : string := "history".
End MethodNames.
Module EventTypes.
Definition Welcome : string := "WelcomeEvent".
Definition ChatMessage : string := "ChatMessage".
Definition UserJoin : string := "UserJoin".
Definition UserLeave : string := "UserLeave".
Definition DeleteMessage : string := "DeleteMessage".
Definition ClearMessages : string := "ClearMessages".
Definition PurgeMessage : string := "PurgeMessage".
End EventTypes.
Module FieldNames.
Definition Type_ : string := "type".
Definition Event : string := "event".
Definition Data : string := "data".
Definition Message : string := "message".
Definition UserNameNoUnderscore : string := "username".
Definition UserNameWithUnderscore : string := "user_name".
Definition Id : string := "id".
Definition Meta : string := "meta".
Definition Me : string := "me".
Definition Whisper : string := "whisper".
Definition Method : string := "method".
Definition Arguments : string := "arguments".
Definition Error : string := "error".
Definition Text : string := "text".
Definition Endpoints : string := "endpoints".
Definition AuthKey : string := "authkey".
Definition UserId : string := "user_id".
Definition UserLevel : string := "user_level".
End FieldNames.
End MixerChatStringConstants.

Import MixerChatStringConstants.

(** ** Users and messages *)

(** The four words of an [FGuid], as one number. *)
Definition FGuid : Type := N.

(** [FMixerUser], declared in the public header of the plugin: the members
    the connection reads and writes. *)
Record FMixerUser : Type := {
  Name : string;
  Id : Z;
  Level : Z
}.

(** [FMixerLocalUser] derives from [FMixerUser]; the connection reads its
    [Name] and [Id] only. *)
Definition FMixerLocalUser : Type := FMixerUser.

(** [FUniqueNetIdMixer]: the net id made of a Mixer user id. *)
Record FUniqueNetIdMixer : Type := {
  MixerId : Z
}.

(** [struct FMixerChatUser : public FMixerUser], with its private member
    [NetId]. *)
Record FMixerChatUser : Type := {
  FMixerChatUser_FMixerUser :> FMixerUser;
  NetId : FUniqueNetIdMixer
}.

Definition GetUniqueNetId (u : FMixerChatUser) : FUniqueNetIdMixer := NetId u.

(** The constructor [FMixerChatUser(InName, InId)].  Its initialiser list
    builds [NetId] from the member [Id], and only then does its body assign
    [InName], [InId] and 0 to [Name], [Id] and [Level]: [NetId] is the net id
    of [Id] as the constructor of the base [FMixerUser] left it.  That
    constructor is declared outside this file; [FMixerUser_Id] stands for
    the value it leaves in [Id]. *)
Definition NewChatUser (FMixerUser_Id : Z) (InName : string) (InId : Z) : FMixerChatUser :=
  {| FMixerChatUser_FMixerUser := {| Name := InName; Id := InId; Level := 0 |};
     NetId := {| MixerId := FMixerUser_Id |} |}.

(** The sender of a message is an object shared with the user cache.  A
    message reads its name and id only, which are never written after
    construction, so the message holds the two by value
    ([GetNickname], [GetSenderId]).  [GetUserId], the net id of the sender,
    is read by no method of the connection and is left out, and so is
    [Timestamp] (the wall clock at construction). *)
Record FChatMessageMixerImpl : Type := {
  GetMessageId : FGuid;
  GetSenderId : Z;
  GetNickname : string;
  GetBody : string;
  IsWhisper : bool;
  IsAction : bool;
  IsModerated : bool;
  NextLink : option nat;
  PrevLink : option nat
}.

Definition set_NextLink (p : option nat) (m : FChatMessageMixerImpl) : FChatMessageMixerImpl :=
  {| GetMessageId := GetMessageId m; GetSenderId := GetSenderId m;
     GetNickname := GetNickname m; GetBody := GetBody m;
     IsWhisper := IsWhisper m; IsAction := IsAction m; IsModerated := IsModerated m;
     NextLink := p; PrevLink := PrevLink m |}.

Definition set_PrevLink (p : option nat) (m : FChatMessageMixerImpl) : FChatMessageMixerImpl :=
  {| GetMessageId := GetMessageId m; GetSenderId := GetSenderId m;
     GetNickname := GetNickname m; GetBody := GetBody m;
     IsWhisper := IsWhisper m; IsAction := IsAction m; IsModerated := IsModerated m;
     NextLink := NextLink m; PrevLink := p |}.

Definition FlagAsDeleted (m : FChatMessageMixerImpl) : FChatMessageMixerImpl :=
  {| GetMessageId := GetMessageId m; GetSenderId := GetSenderId m;
     GetNickname := GetNickname m; GetBody := EmptyString;
     IsWhisper := IsWhisper m; IsAction := IsAction m; IsModerated := true;
     NextLink := NextLink m; PrevLink := PrevLink m |}.

Definition AppendBodyFragment (InBodyFragment : string) (m : FChatMessageMixerImpl)
  : FChatMessageMixerImpl :=
  {| GetMessageId := GetMessageId m; GetSenderId := GetSenderId m;
     GetNickname := GetNickname m; GetBody := GetBody m ++ InBodyFragment;
     IsWhisper := IsWhisper m; IsAction := IsAction m; IsModerated := IsModerated m;
     NextLink := NextLink m; PrevLink := PrevLink m |}.

Definition FlagAsWhisper (m : FChatMessageMixerImpl) : FChatMessageMixerImpl :=
  {| GetMessageId := GetMessageId m; GetSenderId := GetSenderId m;
     GetNickname := GetNickname m; GetBody := GetBody m;
     IsWhisper := true; IsAction := IsAction m; IsModerated := IsModerated m;
     NextLink := NextLink m; PrevLink := PrevLink m |}.

Definition FlagAsAction (m : FChatMessageMixerImpl) : FChatMessageMixerImpl :=
  if IsAction m then m
  else
    {| GetMessageId := GetMessageId m; GetSenderId := GetSenderId m;
       GetNickname := GetNickname m;
       GetBody := GetNickname m ++ " " ++ GetBody m;
       IsWhisper := IsWhisper m; IsAction := true; IsModerated := IsModerated m;
       NextLink := NextLink m; PrevLink := PrevLink m |}.

(** The constructor: empty body, flags down, no links. *)
Definition NewChatMessage (InMessageId : FGuid) (InFromUser : FMixerChatUser)
  : FChatMessageMixerImpl :=
  {| GetMessageId := InMessageId; GetSenderId := Id InFromUser;
     GetNickname := Name InFromUser; GetBody := EmptyString;
     IsWhisper := false; IsAction := false; IsModerated := false;
     NextLink := None; PrevLink := None |}.

(** ** The chat history members of the connection *)

Record FChatHistory : Type := {
  Messages : list FChatMessageMixerImpl;
  ChatHistoryNewest : option nat;
  ChatHistoryOldest : option nat;
  ChatHistoryNum : Z;
  ChatHistoryMax : Z
}.

Definition set_Messages (ms : list FChatMessageMixerImpl) (h : FChatHistory) : FChatHistory :=
  {| Messages := ms; ChatHistoryNewest := ChatHistoryNewest h;
     ChatHistoryOldest := ChatHistoryOldest h; ChatHistoryNum := ChatHistoryNum h;
     ChatHistoryMax := ChatHistoryMax h |}.

Definition set_ChatHistoryNewest (p : option nat) (h : FChatHistory) : FChatHistory :=
  {| Messages := Messages h; ChatHistoryNewest := p;
     ChatHistoryOldest := ChatHistoryOldest h; ChatHistoryNum := ChatHistoryNum h;
     ChatHistoryMax := ChatHistoryMax h |}.

Definition set_ChatHistoryOldest (p : option nat) (h : FChatHistory) : FChatHistory :=
  {| Messages := Messages h; ChatHistoryNewest := ChatHistoryNewest h;
     ChatHistoryOldest := p; ChatHistoryNum := ChatHistoryNum h;
     ChatHistoryMax := ChatHistoryMax h |}.

Definition set_ChatHistoryNum (n : Z) (h : FChatHistory) : FChatHistory :=
  {| Messages := Messages h; ChatHistoryNewest := ChatHistoryNewest h;
     ChatHistoryOldest := ChatHistoryOldest h; ChatHistoryNum := n;
     ChatHistoryMax := ChatHistoryMax h |}.

Definition set_ChatHistoryMax (n : Z) (h : FChatHistory) : FChatHistory :=
  {| Messages := Messages h; ChatHistoryNewest := ChatHistoryNewest h;
     ChatHistoryOldest := ChatHistoryOldest h; ChatHistoryNum := ChatHistoryNum h;
     ChatHistoryMax := n |}.

(** [MakeShared<FChatMessageMixerImpl>]: a new object at the next free address. *)
Definition MakeShared (m : FChatMessageMixerImpl) (h : FChatHistory) : nat * FChatHistory :=
  (length (Messages h), set_Messages (Messages h ++ [m]) h).

(** A write through a pointer to a message: [p->field = ...]. *)
Definition UpdMessage (p : nat) (f : FChatMessageMixerImpl -> FChatMessageMixerImpl)
    (h : FChatHistory) : option FChatHistory :=
  m ← Messages h !! p;
  Some (set_Messages (<[p := f m]> (Messages h)) h).

(** The same through a pointer that may be empty, guarded by [IsValid()]. *)
Definition UpdIfValid (p : option nat) (f : FChatMessageMixerImpl -> FChatMessageMixerImpl)
    (h : FChatHistory) : option FChatHistory :=
  match p with
  | Some a => UpdMessage a f h
  | None => Some h
  end.

Definition AddMessageToChatHistory (ChatMessage : nat) (h : FChatHistory)
  : option FChatHistory :=
  m ← Messages h !! ChatMessage;
  if bool_decide (0 < ChatHistoryMax h) && negb (IsWhisper m) then
    h ← UpdMessage ChatMessage (set_NextLink (ChatHistoryNewest h)) h;
    h ← UpdIfValid (ChatHistoryNewest h) (set_PrevLink (Some ChatMessage)) h;
    let h := set_ChatHistoryNewest (Some ChatMessage) h in
    let h := set_ChatHistoryNum (wrap32 (ChatHistoryNum h + 1)) h in
    match ChatHistoryOldest h with
    | None => Some (set_ChatHistoryOldest (Some ChatMessage) h)
    | Some Oldest =>
        if bool_decide (ChatHistoryMax h < ChatHistoryNum h) then
          o ← Messages h !! Oldest;
          let h := set_ChatHistoryOldest (PrevLink o) h in
          h ← match ChatHistoryOldest h with
              | Some NewOldest =>
                  n ← Messages h !! NewOldest;
                  (* check(ChatHistoryOldest->NextLink.IsValid()) *)
                  Evicted ← NextLink n;
                  h ← UpdMessage Evicted (set_PrevLink None) h;
                  UpdMessage NewOldest (set_NextLink None) h
              | None => Some h
              end;
          Some (set_ChatHistoryNum (wrap32 (ChatHistoryNum h - 1)) h)
        else Some h
    end
  else Some h.

(** One turn of the loop of [DeleteFromChatHistoryIf] on a message the
    predicate accepted. *)
Definition DeleteFromChatHistory (ChatMessage : nat) (h : FChatHistory)
  : option FChatHistory :=
  h ← UpdMessage ChatMessage FlagAsDeleted h;
  m ← Messages h !! ChatMessage;
  let h := if decide (Some ChatMessage = ChatHistoryNewest h)
           then set_ChatHistoryNewest (NextLink m) h else h in
  let h := if decide (Some ChatMessage = ChatHistoryOldest h)
           then set_ChatHistoryOldest (PrevLink m) h else h in
  h ← UpdIfValid (NextLink m) (set_PrevLink (PrevLink m)) h;
  m ← Messages h !! ChatMessage;
  h ← UpdIfValid (PrevLink m) (set_NextLink (NextLink m)) h;
  h ← UpdMessage ChatMessage (set_NextLink None) h;
  h ← UpdMessage ChatMessage (set_PrevLink None) h;
  Some (set_ChatHistoryNum (wrap32 (ChatHistoryNum h - 1)) h).

(** The [while (ChatMessage.IsValid())] loop.  The second component of the
    result lists the messages the predicate was called on, in call order.
    [fuel] bounds the number of turns. *)
Fixpoint DeleteLoop (fuel : nat) (Predicate : FChatMessageMixerImpl -> bool)
    (ChatMessage : option nat) (h : FChatHistory) : option (FChatHistory * list nat) :=
  match ChatMessage with
  | None => Some (h, [])
  | Some c =>
      match fuel with
      | O => None
      | S fuel' =>
          m ← Messages h !! c;
          let NextMessage := NextLink m in
          h ← (if Predicate m then DeleteFromChatHistory c h else Some h);
          r ← DeleteLoop fuel' Predicate NextMessage h;
          Some (r.1, c :: r.2)
      end
  end.

(** A chain of distinct objects is no longer than the arena; a walk that
    needs more turns than that goes round a cycle and never returns. *)
Definition DeleteFromChatHistoryIf (Predicate : FChatMessageMixerImpl -> bool)
    (h : FChatHistory) : option (FChatHistory * list nat) :=
  DeleteLoop (length (Messages h)) Predicate (ChatHistoryNewest h) h.

Fixpoint GetMessageHistoryLoop (fuel : nat) (NumMessages : Z) (ChatMessage : option nat)
    (OutMessages : list nat) (h : FChatHistory) : option (list nat) :=
  match ChatMessage with
  | None => Some OutMessages
  | Some c =>
      if bool_decide (NumMessages = -1)
         || bool_decide (Z.of_nat (length OutMessages) < NumMessages)
      then
        match fuel with
        | O => None
        | S fuel' =>
            m ← Messages h !! c;
            GetMessageHistoryLoop fuel' NumMessages (NextLink m) (OutMessages ++ [c]) h
        end
      else Some OutMessages
  end.

Definition GetMessageHistory (NumMessages : Z) (OutMessages : list nat) (h : FChatHistory)
  : option (list nat) :=
  GetMessageHistoryLoop (length (Messages h)) NumMessages (ChatHistoryNewest h) OutMessages h.

(** ** The shape of a well-formed history *)

(** The first of [l], or [next] when there is none; the last of [l], or
    [prev]. *)
Definition HeadOr (l : list nat) (next : option nat) : option nat :=
  match l with [] => next | b :: _ => Some b end.

Definition LastOr (l : list nat) (prev : option nat) : option nat :=
  match last l with Some b => Some b | None => prev end.

(** [Seg ms prev l next]: the objects of [l] are chained in this order by
    their links, the first one having [prev] before it and the last one
    [next] after it. *)
Fixpoint Seg (ms : list FChatMessageMixerImpl) (prev : option nat) (l : list nat)
    (next : option nat) : Prop :=
  match l with
  | [] => True
  | a :: t =>
      ∃ m, ms !! a = Some m ∧ PrevLink m = prev ∧ NextLink m = HeadOr t next
           ∧ Seg ms (Some a) t next
  end.

Definition Linked (ms : list FChatMessageMixerImpl) (l : list nat) : Prop :=
  NoDup l ∧ Seg ms None l None.

(** [l] is the chain of the history, newest first. *)
Definition HistoryChain (h : FChatHistory) (l : list nat) : Prop :=
  Linked (Messages h) l
  ∧ ChatHistoryNewest h = head l
  ∧ ChatHistoryOldest h = last l
  ∧ ChatHistoryNum h = Z.of_nat (length l).

(** The invariant of the history: the count is the number of linked
    objects and does not exceed the maximum; both ends are empty exactly when
    the count is zero (by [head] and [last] of the chain); neighbours point at
    each other (by [Seg]). *)
Definition HistoryInvariant (h : FChatHistory) : Prop :=
  ∃ l, HistoryChain h l ∧ ChatHistoryNum h <= ChatHistoryMax h.

(** Everything of a message but its links. *)
Definition Content (m : FChatMessageMixerImpl) : FChatMessageMixerImpl :=
  set_NextLink None (set_PrevLink None m).

(** Two arenas hold the same messages up to links. *)
Definition SameContents (ms ms' : list FChatMessageMixerImpl) : Prop :=
  ∀ b, Content <$> ms' !! b = Content <$> ms !! b.


(** A sequence of calls of [AddMessageToChatHistory], one per message of
    [pushed], in this order. *)
Fixpoint AddMessagesToChatHistory (pushed : list nat) (h : FChatHistory) : option FChatHistory :=
  match pushed with
  | [] => Some h
  | a :: rest => h' ← AddMessageToChatHistory a h; AddMessagesToChatHistory rest h'
  end.

Definition IsWhisperAt (ms : list FChatMessageMixerImpl) (a : nat) : bool :=
  match ms !! a with Some m => IsWhisper m | None => false end.

Definition NotWhisperAt (ms : list FChatMessageMixerImpl) (a : nat) : bool :=
  negb (IsWhisperAt ms a).

(** The scenario of a history with room for three messages and four
    messages to push, with ids 1 to 4 at addresses 0 to 3. *)
Definition ScenarioUser : FMixerChatUser := NewChatUser 0 "viewer" 7.

Definition ScenarioHistory : FChatHistory :=
  {| Messages := [NewChatMessage 1%N ScenarioUser; NewChatMessage 2%N ScenarioUser;
                  NewChatMessage 3%N ScenarioUser; NewChatMessage 4%N ScenarioUser];
     ChatHistoryNewest := None; ChatHistoryOldest := None;
     ChatHistoryNum := 0; ChatHistoryMax := 3 |}.

(** The ids of the messages at the given addresses. *)
Definition MessageIdsAt (ms : list FChatMessageMixerImpl) (l : list nat) : list FGuid :=
  omap (λ a, GetMessageId <$> ms !! a) l.

(** What [Predicate] answers for the message at an address. *)
Definition PredicateAt (Predicate : FChatMessageMixerImpl -> bool)
    (ms : list FChatMessageMixerImpl) (a : nat) : bool :=
  match ms !! a with Some m => Predicate m | None => false end.

(** A deleted message: flagged, and with no links left. *)
Definition Tombstone (m : FChatMessageMixerImpl) : FChatMessageMixerImpl :=
  set_PrevLink None (set_NextLink None (FlagAsDeleted m)).

(** ** The connection *)

(** A pointer to one of the connection's handler methods
    ([FServerMessageHandler]); the null pointer is [None]. *)
Inductive FServerMessageHandler : Type :=
| Ptr_HandleWelcomeEvent
| Ptr_HandleChatMessageEvent
| Ptr_HandleUserJoinEvent
| Ptr_HandleUserLeaveEvent
| Ptr_HandleDeleteMessageEvent
| Ptr_HandleClearMessagesEvent
| Ptr_HandlePurgeMessageEvent
| Ptr_HandleAuthReply
| Ptr_HandleHistoryReply.

#[global] Instance FServerMessageHandler_eq_dec : EqDecision FServerMessageHandler.
Proof. solve_decision. Defined.

Record IWebSocket : Type := {
  IsConnected : bool
}.

(** The members the modelled methods read or write.  The room and channel
    ids, the endpoints, the auth key and the rejoin flag are used by the
    discovery and socket life-cycle methods only.  [CachedUsers] is keyed by
    [FUniqueNetIdMixer(raw id)], written here as the raw id. *)
Record FMixerChatConnection : Type := {
  History : FChatHistory;
  CachedUsers : gmap Z FMixerChatUser;
  ReplyHandlers : gmap Z (option FServerMessageHandler);
  MessageId : Z;
  bIsReady : bool;
  WebSocket : option IWebSocket
}.

Definition set_History (h : FChatHistory) (s : FMixerChatConnection) : FMixerChatConnection :=
  {| History := h; CachedUsers := CachedUsers s; ReplyHandlers := ReplyHandlers s;
     MessageId := MessageId s; bIsReady := bIsReady s; WebSocket := WebSocket s |}.

Definition set_CachedUsers (u : gmap Z FMixerChatUser) (s : FMixerChatConnection)
  : FMixerChatConnection :=
  {| History := History s; CachedUsers := u; ReplyHandlers := ReplyHandlers s;
     MessageId := MessageId s; bIsReady := bIsReady s; WebSocket := WebSocket s |}.

Definition set_ReplyHandlers (r : gmap Z (option FServerMessageHandler))
    (s : FMixerChatConnection) : FMixerChatConnection :=
  {| History := History s; CachedUsers := CachedUsers s; ReplyHandlers := r;
     MessageId := MessageId s; bIsReady := bIsReady s; WebSocket := WebSocket s |}.

Definition set_MessageId (n : Z) (s : FMixerChatConnection) : FMixerChatConnection :=
  {| History := History s; CachedUsers := CachedUsers s; ReplyHandlers := ReplyHandlers s;
     MessageId := n; bIsReady := bIsReady s; WebSocket := WebSocket s |}.

Definition set_bIsReady (b : bool) (s : FMixerChatConnection) : FMixerChatConnection :=
  {| History := History s; CachedUsers := CachedUsers s; ReplyHandlers := ReplyHandlers s;
     MessageId := MessageId s; bIsReady := b; WebSocket := WebSocket s |}.

(** ** What the connection does to its collaborators *)

Module ELogVerbosity.
Inductive Type_ : Type := Error | Warning | Log | Verbose.
End ELogVerbosity.

(** The lines written to [LogMixerChat] by the modelled methods. *)
Inductive LogLine : Type :=
| MissingRequiredField (FieldName : string)
| FailedToHandleChatPacket
| UnexpectedReply (ReplyingToMessageId : Z)
| EventTypeNotHandled (EventType : string)
| WelcomedByChatServer
| IdNotAGuidChatEvent (IdString : string)
| IdNotAGuidDeleteMessageEvent (IdString : string)
| MissingUserLevel
| IsJoining (UserName : string)
| IsExiting (UserName : string)
| PrivateMessageFrom (Nickname Body : string)
| ChatMessageFrom (Nickname Body : string)
| SendBeforeConnectionEstablished
| SendWhenConnectedAnonymously
| AuthenticatingAsUser (UserName : string)
| AuthenticatingAnonymously.

Inductive Effect : Type :=
| UE_LOG (Verbosity : ELogVerbosity.Type_) (Line : LogLine)
| WebSocket_Send (Payload : FJsonValue)
| ConnectAttemptFinished (bSuccess : bool) (ErrorMessage : string)
| TriggerOnChatRoomMemberJoinDelegates (MemberId : FUniqueNetIdMixer)
| TriggerOnChatRoomMemberExitDelegates (MemberId : FUniqueNetIdMixer)
| TriggerOnChatPrivateMessageReceivedDelegates (ChatMessage : nat)
| TriggerOnChatRoomMessageReceivedDelegates (ChatMessage : nat)
| ExitRoomWithReason (bWasClean : bool) (Reason : string).

(** A method of the connection: from the state before the call to its
    result, the state after it and what it did meanwhile, or to nothing when
    the call does not return. *)
Definition Op (A : Type) : Type :=
  FMixerChatConnection → option (A * FMixerChatConnection * list Effect).

#[global] Instance Op_ret : MRet Op := λ A a s, Some (a, s, []).

#[global] Instance Op_bind : MBind Op := λ A B f x s,
  match x s with
  | None => None
  | Some (a, s1, e1) =>
      match f a s1 with
      | None => None
      | Some (b, s2, e2) => Some (b, s2, e1 ++ e2)
      end
  end.

Definition GetState : Op FMixerChatConnection := λ s, Some (s, s, []).

Definition Modify (f : FMixerChatConnection → FMixerChatConnection) : Op unit :=
  λ s, Some (tt, f s, []).

Definition Emit (e : Effect) : Op unit := λ s, Some (tt, s, [e]).

Definition Abort {A : Type} : Op A := λ _, None.

(** [check(b)] *)
Definition check (b : bool) : Op unit := if b then mret tt else Abort.

(** A method that touches the history members only. *)
Definition OnHistory {A : Type} (f : FChatHistory → option (A * FChatHistory)) : Op A :=
  λ s, match f (History s) with
       | Some (a, h) => Some (a, set_History h s, [])
       | None => None
       end.

Definition OnHistory_ (f : FChatHistory → option FChatHistory) : Op unit :=
  OnHistory (λ h, h' ← f h; Some (tt, h')).

(** Reading a message through a pointer. *)
Definition ReadMessage (p : nat) : Op FChatMessageMixerImpl :=
  OnHistory (λ h, m ← Messages h !! p; Some (m, h)).

(** [GET_JSON_FIELD_RETURN_FAILURE]: the rest of the method runs with the
    value of the field; without the field the method logs and returns
    [failure] at once. *)
Definition GET_JSON_FIELD_RETURN_FAILURE {T A : Type}
    (TryGet : FJsonObject → string → option T)
    (JsonObj : FJsonObject) (JsonNameConstant : string) (failure : A)
    (rest : T → Op A) : Op A :=
  match TryGet JsonObj JsonNameConstant with
  | Some UEName => rest UEName
  | None => Emit (UE_LOG ELogVerbosity.Error (MissingRequiredField JsonNameConstant));; mret failure
  end.

Definition GET_JSON_STRING_RETURN_FAILURE {A : Type} :=
  @GET_JSON_FIELD_RETURN_FAILURE string A TryGetStringField.
Definition GET_JSON_INT_RETURN_FAILURE {A : Type} :=
  @GET_JSON_FIELD_RETURN_FAILURE Z A TryGetNumberField.
Definition GET_JSON_OBJECT_RETURN_FAILURE {A : Type} :=
  @GET_JSON_FIELD_RETURN_FAILURE FJsonObject A TryGetObjectField.
Definition GET_JSON_ARRAY_RETURN_FAILURE {A : Type} :=
  @GET_JSON_FIELD_RETURN_FAILURE (list FJsonValue) A TryGetArrayField.

(** The object [WriteRemoteMethodPacket] asks the JSON writer to write. *)
Definition WriteRemoteMethodPacket (MethodName : string) (MessageId : Z)
    (Args : list FJsonValue) : FJsonValue :=
  JsonObject
    [(FieldNames.Type_, JsonString MessageTypes.Method);
     (FieldNames.Method, JsonString MethodName);
     (FieldNames.Arguments, JsonArray Args);
     (FieldNames.Id, JsonNumber MessageId)].

Definition SendMethodPacket (Payload : FJsonValue) (Handler : option FServerMessageHandler)
  : Op unit :=
  s ← GetState;
  check (bool_decide (ReplyHandlers s !! MessageId s = None));;
  Modify (set_ReplyHandlers (<[MessageId s := Handler]> (ReplyHandlers s)));;
  Modify (set_MessageId (wrap32 (MessageId s + 1)));;
  match WebSocket s with
  | Some _ => Emit (WebSocket_Send Payload)
  | None => Abort
  end.

Definition SendHistory (MessageCount : Z) : Op unit :=
  s ← GetState;
  let MethodPacket :=
    WriteRemoteMethodPacket MethodNames.History (MessageId s) [JsonNumber MessageCount] in
  SendMethodPacket MethodPacket (Some Ptr_HandleHistoryReply).

(** [SendAuth]: [User] is the signed-in user, or the null pointer. *)
Definition SendAuth (ChannelId : Z) (User : option FMixerLocalUser) (AuthKey : string)
  : Op unit :=
  s ← GetState;
  MethodPacket ←
    (match User with
     | Some u =>
         if negb (String.eqb AuthKey EmptyString) then
           Emit (UE_LOG ELogVerbosity.Log (AuthenticatingAsUser (Name u)));;
           mret (WriteRemoteMethodPacket MethodNames.Auth (MessageId s)
                   [JsonNumber ChannelId; JsonNumber (Id u); JsonString AuthKey])
         else
           Emit (UE_LOG ELogVerbosity.Log AuthenticatingAnonymously);;
           mret (WriteRemoteMethodPacket MethodNames.Auth (MessageId s) [JsonNumber ChannelId])
     | None =>
         Emit (UE_LOG ELogVerbosity.Log AuthenticatingAnonymously);;
         mret (WriteRemoteMethodPacket MethodNames.Auth (MessageId s) [JsonNumber ChannelId])
     end : Op FJsonValue);
  SendMethodPacket MethodPacket (Some Ptr_HandleAuthReply).

Definition set_Level (l : Z) (u : FMixerChatUser) : FMixerChatUser :=
  {| FMixerChatUser_FMixerUser := {| Name := Name u; Id := Id u; Level := l |};
     NetId := NetId u |}.

Definition HandleWelcomeEvent (JsonObj : FJsonObject) : Op bool :=
  Emit (UE_LOG ELogVerbosity.Log WelcomedByChatServer);;
  mret true.

Definition HandleChatMessageEventMessageArrayEntry (JsonObj : FJsonObject)
    (ChatMessage : nat) : Op bool :=
  GET_JSON_STRING_RETURN_FAILURE JsonObj FieldNames.Type_ false (λ FragmentType,
  GET_JSON_STRING_RETURN_FAILURE JsonObj FieldNames.Text false (λ FragmentText,
  OnHistory_ (UpdMessage ChatMessage (AppendBodyFragment FragmentText));;
  mret true)).

(** The loop over the fragments of a message. *)
Fixpoint HandleChatMessageEventMessageFragments (MessageFragmentArray : list FJsonValue)
    (ChatMessage : nat) : Op unit :=
  match MessageFragmentArray with
  | [] => mret tt
  | Fragment :: rest =>
      match TryGetObject Fragment with
      | Some FragmentObj =>
          HandleChatMessageEventMessageArrayEntry FragmentObj ChatMessage;; mret tt
      | None => mret tt
      end;;
      HandleChatMessageEventMessageFragments rest ChatMessage
  end.

Definition HandleChatMessageEventMessageObject (JsonObj : FJsonObject) (ChatMessage : nat)
  : Op bool :=
  GET_JSON_ARRAY_RETURN_FAILURE JsonObj FieldNames.Message false (λ MessageFragmentArray,
  HandleChatMessageEventMessageFragments MessageFragmentArray ChatMessage;;
  (* These are not required. *)
  let '(bIsWhisper, bIsAction) :=
    match TryGetObjectField JsonObj FieldNames.Meta with
    | Some Metadata =>
        (default false (TryGetBoolField JsonObj FieldNames.Whisper),
         default false (TryGetBoolField JsonObj FieldNames.Me))
    | None => (false, false)
    end in
  (if bIsWhisper then OnHistory_ (UpdMessage ChatMessage FlagAsWhisper) else mret tt);;
  (if bIsAction then OnHistory_ (UpdMessage ChatMessage FlagAsAction) else mret tt);;
  mret true).

Section Connection.

(** [Id] as the constructor of [FMixerUser] leaves it (see [NewChatUser]),
    [FGuid::Parse] of the engine and [IsAnonymous] of the header. *)
Variable FMixerUser_Id : Z.
Variable FGuid_Parse : string → option FGuid.
Variable IsAnonymous : FMixerChatConnection → bool.

(** The second component is [OutChatMessage]. *)
Definition HandleChatMessageEventInternal (JsonObj : FJsonObject)
  : Op (bool * option nat) :=
  GET_JSON_STRING_RETURN_FAILURE JsonObj FieldNames.UserNameWithUnderscore (false, None)
    (λ FromUserName,
  GET_JSON_INT_RETURN_FAILURE JsonObj FieldNames.UserId (false, None) (λ FromUserIdRaw,
  GET_JSON_OBJECT_RETURN_FAILURE JsonObj FieldNames.Message (false, None) (λ MessageJson,
  GET_JSON_STRING_RETURN_FAILURE JsonObj FieldNames.Id (false, None) (λ IdString,
  match FGuid_Parse IdString with
  | None =>
      Emit (UE_LOG ELogVerbosity.Error (IdNotAGuidChatEvent IdString));;
      mret (false, None)
  | Some MessageId =>
      s ← GetState;
      bSendJoinEvent ←
        (match CachedUsers s !! FromUserIdRaw with
         | None =>
             let NewUser := NewChatUser FMixerUser_Id FromUserName FromUserIdRaw in
             Modify (set_CachedUsers (<[FromUserIdRaw := NewUser]> (CachedUsers s)));;
             (* We haven't seen this user before - send a just-in-time join event,
                but wait until after we have resolved the user level *)
             mret true
         | Some _ => mret false
         end : Op bool);
      match TryGetNumberField JsonObj FieldNames.UserLevel with
      | Some UserLevel =>
          s ← GetState;
          Modify (set_CachedUsers (alter (set_Level UserLevel) FromUserIdRaw (CachedUsers s)))
      | None => Emit (UE_LOG ELogVerbosity.Warning MissingUserLevel)
      end;;
      s ← GetState;
      match CachedUsers s !! FromUserIdRaw with
      | None => Abort (* check(FromUserObject) *)
      | Some FromUserObject =>
          (if (bSendJoinEvent : bool) then
             Emit (UE_LOG ELogVerbosity.Log (IsJoining (Name FromUserObject)));;
             Emit (TriggerOnChatRoomMemberJoinDelegates (GetUniqueNetId FromUserObject))
           else mret tt);;
          OutChatMessage ← OnHistory (λ h,
            Some (MakeShared (NewChatMessage MessageId FromUserObject) h));
          bHandled ← HandleChatMessageEventMessageObject MessageJson OutChatMessage;
          mret (bHandled, Some OutChatMessage)
      end
  end)))).

Definition HandleChatMessageEvent (JsonObj : FJsonObject) : Op bool :=
  r ← HandleChatMessageEventInternal JsonObj;
  let '(bHandled, ChatMessage) := (r : bool * option nat) in
  (if bHandled then
     match ChatMessage with
     | None => Abort (* check(ChatMessage.IsValid()) *)
     | Some ChatMessage =>
         m ← ReadMessage ChatMessage;
         if IsWhisper (m : FChatMessageMixerImpl) then
           Emit (UE_LOG ELogVerbosity.Verbose (PrivateMessageFrom (GetNickname m) (GetBody m)));;
           Emit (TriggerOnChatPrivateMessageReceivedDelegates ChatMessage)
         else
           Emit (UE_LOG ELogVerbosity.Verbose (ChatMessageFrom (GetNickname m) (GetBody m)));;
           OnHistory_ (AddMessageToChatHistory ChatMessage);;
           Emit (TriggerOnChatRoomMessageReceivedDelegates ChatMessage)
     end
   else mret tt);;
  mret bHandled.

Definition HandleUserJoinEvent (JsonObj : FJsonObject) : Op bool :=
  GET_JSON_INT_RETURN_FAILURE JsonObj FieldNames.Id false (λ JoiningUserIdRaw,
  s ← GetState;
  (* If the user was already in the cache then we triggered a join event at the
     point of addition.  Don't send another. *)
  match CachedUsers s !! JoiningUserIdRaw with
  | None =>
      GET_JSON_STRING_RETURN_FAILURE JsonObj FieldNames.UserNameNoUnderscore false
        (λ JoiningUserName,
      let CachedUser := NewChatUser FMixerUser_Id JoiningUserName JoiningUserIdRaw in
      Modify (set_CachedUsers (<[JoiningUserIdRaw := CachedUser]> (CachedUsers s)));;
      Emit (UE_LOG ELogVerbosity.Log (IsJoining (Name CachedUser)));;
      Emit (TriggerOnChatRoomMemberJoinDelegates (GetUniqueNetId CachedUser));;
      mret true)
  | Some _ => mret true
  end).

Definition HandleUserLeaveEvent (JsonObj : FJsonObject) : Op bool :=
  GET_JSON_INT_RETURN_FAILURE JsonObj FieldNames.Id false (λ LeavingUserIdRaw,
  s ← GetState;
  (* If we never cached the user then we never triggered a join event, in which
     case we shouldn't trigger leave either. *)
  match CachedUsers s !! LeavingUserIdRaw with
  | Some LeavingUser =>
      Modify (set_CachedUsers (delete LeavingUserIdRaw (CachedUsers s)));;
      Emit (UE_LOG ELogVerbosity.Log (IsExiting (Name LeavingUser)));;
      Emit (TriggerOnChatRoomMemberExitDelegates (GetUniqueNetId LeavingUser));;
      mret true
  | None => mret true
  end).

Definition HandleDeleteMessageEvent (JsonObj : FJsonObject) : Op bool :=
  GET_JSON_STRING_RETURN_FAILURE JsonObj FieldNames.Id false (λ IdString,
  match FGuid_Parse IdString with
  | None =>
      Emit (UE_LOG ELogVerbosity.Error (IdNotAGuidDeleteMessageEvent IdString));;
      mret false
  | Some MessageId =>
      OnHistory_ (λ h,
        fst <$> DeleteFromChatHistoryIf
                  (λ ChatMessage, bool_decide (GetMessageId ChatMessage = MessageId)) h);;
      mret true
  end).

Definition HandleClearMessagesEvent (JsonObj : FJsonObject) : Op bool :=
  OnHistory_ (λ h, fst <$> DeleteFromChatHistoryIf (λ _, true) h);;
  s ← GetState;
  check (bool_decide (ChatHistoryNum (History s) = 0));;
  check (bool_decide (ChatHistoryNewest (History s) = None));;
  check (bool_decide (ChatHistoryOldest (History s) = None));;
  mret true.

Definition HandlePurgeMessageEvent (JsonObj : FJsonObject) : Op bool :=
  GET_JSON_INT_RETURN_FAILURE JsonObj FieldNames.UserId false (λ UserId,
  OnHistory_ (λ h,
    fst <$> DeleteFromChatHistoryIf
              (λ ChatMessage, bool_decide (GetSenderId ChatMessage = UserId)) h);;
  mret true).

Definition SendChatMessage (MessageBody : string) : Op bool :=
  s ← GetState;
  if negb (bIsReady s) then
    Emit (UE_LOG ELogVerbosity.Warning SendBeforeConnectionEstablished);;
    mret false
  else if IsAnonymous s then
    Emit (UE_LOG ELogVerbosity.Warning SendWhenConnectedAnonymously);;
    mret false
  else
    check (bool_decide (is_Some (WebSocket s)));;
    check (from_option IsConnected false (WebSocket s));;
    let MethodPacket :=
      WriteRemoteMethodPacket MethodNames.Msg (MessageId s) [JsonString MessageBody] in
    SendMethodPacket MethodPacket None;;
    mret true.

Definition SendWhisper (ToUser MessageBody : string) : Op bool :=
  s ← GetState;
  if negb (bIsReady s) then
    Emit (UE_LOG ELogVerbosity.Warning SendBeforeConnectionEstablished);;
    mret false
  else if IsAnonymous s then
    Emit (UE_LOG ELogVerbosity.Warning SendWhenConnectedAnonymously);;
    mret false
  else
    let MethodPacket :=
      WriteRemoteMethodPacket MethodNames.Whisper (MessageId s)
        [JsonString ToUser; JsonString MessageBody] in
    SendMethodPacket MethodPacket None;;
    mret true.

Definition HandleAuthReply (JsonObj : FJsonObject) : Op bool :=
  match TryGetObjectField JsonObj FieldNames.Error with
  | Some ErrorObj =>
      let ErrorMessage :=
        default EmptyString (TryGetStringField ErrorObj FieldNames.Message) in
      Emit (ConnectAttemptFinished false ErrorMessage);;
      mret false
  | None =>
      Modify (set_bIsReady true);;
      s ← GetState;
      (if bool_decide (0 < ChatHistoryMax (History s))
       then SendHistory (Z.min (ChatHistoryMax (History s)) 100)
       else mret tt);;
      (* Maybe we have some interest in roles? *)
      Emit (ConnectAttemptFinished true EmptyString);;
      mret true
  end.

(** One turn of the loop of [HandleHistoryReply] over the entries the server
    reported. *)
Definition HandleHistoryEntry (HistoryEntry : FJsonValue) : Op unit :=
  r ← HandleChatMessageEventInternal (AsObject HistoryEntry);
  match (r : bool * option nat) with
  | (true, Some ChatMessage) =>
      m ← ReadMessage ChatMessage;
      check (negb (IsWhisper (m : FChatMessageMixerImpl)));;
      OnHistory_ (AddMessageToChatHistory ChatMessage)
  | (true, None) => Abort
  | (false, _) => mret tt
  end.

Fixpoint HandleHistoryEntries (Data : list FJsonValue) : Op unit :=
  match Data with
  | [] => mret tt
  | HistoryEntry :: rest =>
      HandleHistoryEntry HistoryEntry;;
      HandleHistoryEntries rest
  end.

(** The search of [HandleHistoryReply] for the oldest local message among
    those the server reported: the count of messages looked at and where the
    search stopped. *)
Fixpoint FindDupe (fuel : nat) (IdToCheckForDupes : FGuid)
    (ServerHistoryMessage : option nat) (DupeCount : Z) (h : FChatHistory)
  : option (Z * option nat) :=
  match ServerHistoryMessage with
  | None => Some (DupeCount, None)
  | Some c =>
      match fuel with
      | O => None
      | S fuel' =>
          m ← Messages h !! c;
          let DupeCount := wrap32 (DupeCount + 1) in
          if bool_decide (GetMessageId m = IdToCheckForDupes)
          then Some (DupeCount, Some c)
          else FindDupe fuel' IdToCheckForDupes (NextLink m) DupeCount h
      end
  end.

(** The relinking at the end of [HandleHistoryReply]. *)
Definition RelinkLocalHistory (LocalHistoryNewest LocalHistoryOldest : option nat)
    (LocalHistoryNum LocalHistoryMax : Z) (h : FChatHistory) : option FChatHistory :=
  match ChatHistoryNewest h with
  | None =>
      Some (set_ChatHistoryOldest LocalHistoryOldest
              (set_ChatHistoryNewest LocalHistoryNewest h))
  | Some ServerNewest =>
      match LocalHistoryOldest with
      | Some LocalOldest =>
          lo ← Messages h !! LocalOldest;
          let IdToCheckForDupes := GetMessageId lo in
          r ← FindDupe (length (Messages h)) IdToCheckForDupes (ChatHistoryNewest h) 0 h;
          let '(DupeCount, ServerHistoryMessage) := r in
          h ← match ServerHistoryMessage with
              | Some Dupe =>
                  d ← Messages h !! Dupe;
                  h ← UpdMessage LocalOldest (set_NextLink (NextLink d)) h;
                  d ← Messages h !! Dupe;
                  h ← UpdIfValid (NextLink d) (set_PrevLink (Some LocalOldest)) h;
                  Some (set_ChatHistoryNum (wrap32 (ChatHistoryNum h - DupeCount)) h)
              | None =>
                  h ← UpdMessage LocalOldest (set_NextLink (ChatHistoryNewest h)) h;
                  UpdMessage ServerNewest (set_PrevLink (Some LocalOldest)) h
              end;
          let h := set_ChatHistoryNewest LocalHistoryNewest h in
          let h := set_ChatHistoryNum (wrap32 (ChatHistoryNum h + LocalHistoryNum)) h in
          Some (set_ChatHistoryMax LocalHistoryMax h)
      | None => Some h
      end
  end.

Definition HandleHistoryReply (JsonObj : FJsonObject) : Op bool :=
  GET_JSON_ARRAY_RETURN_FAILURE JsonObj FieldNames.Data false (λ Data,
  (* Stash the current history and then clear member pointers. *)
  s ← GetState;
  let LocalHistoryNewest := ChatHistoryNewest (History s) in
  let LocalHistoryOldest := ChatHistoryOldest (History s) in
  let LocalHistoryNum := ChatHistoryNum (History s) in
  let LocalHistoryMax := ChatHistoryMax (History s) in
  OnHistory_ (λ h,
    Some (set_ChatHistoryMax (wrap32 (LocalHistoryMax - LocalHistoryNum))
            (set_ChatHistoryNum 0
               (set_ChatHistoryOldest None (set_ChatHistoryNewest None h)))));;
  HandleHistoryEntries Data;;
  (* Relink the history we'd already accumulated. *)
  OnHistory_ (RelinkLocalHistory LocalHistoryNewest LocalHistoryOldest
                LocalHistoryNum LocalHistoryMax);;
  mret true).

(** [(this->*Handler)(JsonObj)] *)
Definition CallHandler (Handler : FServerMessageHandler) (JsonObj : FJsonObject) : Op bool :=
  match Handler with
  | Ptr_HandleWelcomeEvent => HandleWelcomeEvent JsonObj
  | Ptr_HandleChatMessageEvent => HandleChatMessageEvent JsonObj
  | Ptr_HandleUserJoinEvent => HandleUserJoinEvent JsonObj
  | Ptr_HandleUserLeaveEvent => HandleUserLeaveEvent JsonObj
  | Ptr_HandleDeleteMessageEvent => HandleDeleteMessageEvent JsonObj
  | Ptr_HandleClearMessagesEvent => HandleClearMessagesEvent JsonObj
  | Ptr_HandlePurgeMessageEvent => HandlePurgeMessageEvent JsonObj
  | Ptr_HandleAuthReply => HandleAuthReply JsonObj
  | Ptr_HandleHistoryReply => HandleHistoryReply JsonObj
  end.

Definition EventHandlers : list (string * FServerMessageHandler) :=
  [(EventTypes.Welcome, Ptr_HandleWelcomeEvent);
   (EventTypes.ChatMessage, Ptr_HandleChatMessageEvent);
   (EventTypes.UserJoin, Ptr_HandleUserJoinEvent);
   (EventTypes.UserLeave, Ptr_HandleUserLeaveEvent);
   (EventTypes.DeleteMessage, Ptr_HandleDeleteMessageEvent);
   (EventTypes.ClearMessages, Ptr_HandleClearMessagesEvent);
   (EventTypes.PurgeMessage, Ptr_HandlePurgeMessageEvent)].

Definition GetEventHandler (EventType : string) : option FServerMessageHandler :=
  (list_to_map EventHandlers : gmap string FServerMessageHandler) !! EventType.

Definition OnChatPacketInternal (JsonObj : FJsonObject) : Op bool :=
  GET_JSON_STRING_RETURN_FAILURE JsonObj FieldNames.Type_ false (λ MessageType,
  if String.eqb MessageType MessageTypes.Reply then
    GET_JSON_INT_RETURN_FAILURE JsonObj FieldNames.Id false (λ ReplyingToMessageId,
    s ← GetState;
    match ReplyHandlers s !! ReplyingToMessageId with
    | Some Handler =>
        Modify (set_ReplyHandlers (delete ReplyingToMessageId (ReplyHandlers s)));;
        match Handler with
        | Some Handler => CallHandler Handler JsonObj ≫= (λ _, mret tt)
        | None => mret tt
        end;;
        mret true
    | None =>
        Emit (UE_LOG ELogVerbosity.Error (UnexpectedReply ReplyingToMessageId));;
        mret false
    end)
  else if String.eqb MessageType MessageTypes.Event then
    GET_JSON_STRING_RETURN_FAILURE JsonObj FieldNames.Event false (λ EventType,
    GET_JSON_OBJECT_RETURN_FAILURE JsonObj FieldNames.Data false (λ Data,
    match GetEventHandler EventType with
    | Some Handler =>
        CallHandler Handler Data ≫= (λ _, mret true)
    | None =>
        Emit (UE_LOG ELogVerbosity.Warning (EventTypeNotHandled EventType));;
        mret false
    end))
  else mret false).

(** [OnChatPacket]: [JsonObj] is what the engine's reader made of the packet,
    if anything. *)
Definition OnChatPacket (JsonObj : option FJsonObject) : Op unit :=
  bHandled ← match JsonObj with
             | Some JsonObj => OnChatPacketInternal JsonObj
             | None => mret false
             end;
  if (bHandled : bool) then mret tt else Emit (UE_LOG ELogVerbosity.Error FailedToHandleChatPacket).

End Connection.

(** ** Notions used to state the properties of the connection *)

(** Every id with a pending reply handler was issued before the next id to
    issue. *)
Definition PendingBelow (s : FMixerChatConnection) : Prop :=
  ∀ k, is_Some (ReplyHandlers s !! k) → k < MessageId s.

(** Whatever way the method returns, the states before and after it are
    related by [R] and every effect of it satisfies [P]. *)
Definition Respects {A : Type}
    (R : FMixerChatConnection → FMixerChatConnection → Prop)
    (P : Effect → Prop) (o : Op A) : Prop :=
  ∀ s a s' e, o s = Some (a, s', e) → R s s' ∧ Forall P e.

(** The members of the message router and of the socket are as before. *)
Definition SameRouting (s s' : FMixerChatConnection) : Prop :=
  ReplyHandlers s' = ReplyHandlers s ∧ MessageId s' = MessageId s
  ∧ bIsReady s' = bIsReady s ∧ WebSocket s' = WebSocket s.

(** The members of the history are as before, and so is every message that
    existed; new message objects may have been made. *)
Definition SameHistory (s s' : FMixerChatConnection) : Prop :=
  ChatHistoryNewest (History s') = ChatHistoryNewest (History s)
  ∧ ChatHistoryOldest (History s') = ChatHistoryOldest (History s)
  ∧ ChatHistoryNum (History s') = ChatHistoryNum (History s)
  ∧ ChatHistoryMax (History s') = ChatHistoryMax (History s)
  ∧ Messages (History s) `prefix_of` Messages (History s').

(** The net ids that the room-member notifications among the effects
    carry. *)
Definition JoinsOf (e : list Effect) : list FUniqueNetIdMixer :=
  omap (λ x, match x with TriggerOnChatRoomMemberJoinDelegates u => Some u | _ => None end) e.


(** What was sent on the socket. *)
Definition SentOf (e : list Effect) : list FJsonValue :=
  omap (λ x, match x with WebSocket_Send p => Some p | _ => None end) e.

(** The lines logged as errors. *)
Definition ErrorsOf (e : list Effect) : list LogLine :=
  omap (λ x, match x with UE_LOG ELogVerbosity.Error l => Some l | _ => None end) e.

(** An effect that ends the connection or the attempt to connect. *)
Definition IsTermination (x : Effect) : Prop :=
  match x with
  | ConnectAttemptFinished false _ => True
  | ExitRoomWithReason _ _ => True
  | _ => False
  end.

(** An effect that stays inside the process: a log line or a notification
    of a message or of a member; nothing sent and no connection attempt or
    room ended. *)
Definition IsLogOrNotification (x : Effect) : Prop :=
  match x with
  | WebSocket_Send _ | ConnectAttemptFinished _ _ | ExitRoomWithReason _ _ => False
  | _ => True
  end.

(** An effect other than the notification of a member joining. *)
Definition IsNoJoin (x : Effect) : Prop :=
  match x with TriggerOnChatRoomMemberJoinDelegates _ => False | _ => True end.





(** The net id every [FMixerChatUser] is constructed with. *)
Definition NetIdOfNewChatUser (FMixerUser_Id : Z) : FUniqueNetIdMixer :=
  {| MixerId := FMixerUser_Id |}.


(** The user cache is as before. *)
Definition SameUsers (s s' : FMixerChatConnection) : Prop :=
  CachedUsers s' = CachedUsers s.

(** An effect that is a line of the log. *)
Definition IsLogLine (x : Effect) : Prop :=
  match x with UE_LOG _ _ => True | _ => False end.

(** *** What the handlers make of a chat message, as functions of the payload *)

(** The message after one fragment of the payload. *)
Definition AppendFragment (m : FChatMessageMixerImpl) (Fragment : FJsonValue)
  : FChatMessageMixerImpl :=
  match TryGetObject Fragment with
  | Some FragmentObj =>
      match TryGetStringField FragmentObj FieldNames.Type_,
            TryGetStringField FragmentObj FieldNames.Text with
      | Some _, Some FragmentText => AppendBodyFragment FragmentText m
      | _, _ => m
      end
  | None => m
  end.

(** The whisper and action flags read by
    [HandleChatMessageEventMessageObject]. *)
Definition MetaFlags (JsonObj : FJsonObject) : bool * bool :=
  match TryGetObjectField JsonObj FieldNames.Meta with
  | Some Metadata =>
      (default false (TryGetBoolField JsonObj FieldNames.Whisper),
       default false (TryGetBoolField JsonObj FieldNames.Me))
  | None => (false, false)
  end.

(** The message [m0] after [HandleChatMessageEventMessageObject]. *)
Definition ParsedChatMessage (JsonObj : FJsonObject) (m0 : FChatMessageMixerImpl)
  : FChatMessageMixerImpl :=
  match TryGetArrayField JsonObj FieldNames.Message with
  | None => m0
  | Some MessageFragmentArray =>
      let m := foldl AppendFragment m0 MessageFragmentArray in
      let m := if (MetaFlags JsonObj).1 then FlagAsWhisper m else m in
      if (MetaFlags JsonObj).2 then FlagAsAction m else m
  end.

(** The user cache after a chat message of the user [FromUserIdRaw] named
    [FromUserName], with the level the payload gives, if any. *)
Definition UsersAfterSighting (FMixerUser_Id : Z) (Users : gmap Z FMixerChatUser)
    (FromUserName : string) (FromUserIdRaw : Z) (UserLevel : option Z)
  : gmap Z FMixerChatUser :=
  let Users1 :=
    match Users !! FromUserIdRaw with
    | None => <[FromUserIdRaw := NewChatUser FMixerUser_Id FromUserName FromUserIdRaw]> Users
    | Some _ => Users
    end in
  match UserLevel with
  | Some l => alter (set_Level l) FromUserIdRaw Users1
  | None => Users1
  end.

(** The required fields of a chat message payload, when all are there and
    the id is a guid: sender name, sender id, message object, message id. *)
Definition ChatMessageFields (FGuid_Parse : string → option FGuid) (JsonObj : FJsonObject)
  : option (string * Z * FJsonObject * FGuid) :=
  FromUserName ← TryGetStringField JsonObj FieldNames.UserNameWithUnderscore;
  FromUserIdRaw ← TryGetNumberField JsonObj FieldNames.UserId;
  MessageJson ← TryGetObjectField JsonObj FieldNames.Message;
  IdString ← TryGetStringField JsonObj FieldNames.Id;
  MessageId ← FGuid_Parse IdString;
  Some (FromUserName, FromUserIdRaw, MessageJson, MessageId).

(** The state with the last message object replaced. *)
Definition WithLast (ms : list FChatMessageMixerImpl) (m : FChatMessageMixerImpl)
    (s : FMixerChatConnection) : FMixerChatConnection :=
  set_History (set_Messages (ms ++ [m]) (History s)) s.

(** What a history entry reports, when [HandleChatMessageEventInternal]
    accepts it: the id of its message and its whisper flag. *)
Definition ReportedMessage (FGuid_Parse : string → option FGuid) (HistoryEntry : FJsonValue)
  : option (FGuid * bool) :=
  match ChatMessageFields FGuid_Parse (AsObject HistoryEntry) with
  | Some (_, _, MessageJson, MessageId) =>
      match TryGetArrayField MessageJson FieldNames.Message with
      | Some _ => Some (MessageId, (MetaFlags MessageJson).1)
      | None => None
      end
  | None => None
  end.

(** The ids of the messages a history reply reports, oldest first. *)
Definition ReportedIds (FGuid_Parse : string → option FGuid) (Data : list FJsonValue)
  : list FGuid :=
  omap (λ x, fst <$> ReportedMessage FGuid_Parse x) Data.

Definition NoWhisperReported (FGuid_Parse : string → option FGuid) (Data : list FJsonValue)
  : Prop :=
  ∀ x id w, x ∈ Data → ReportedMessage FGuid_Parse x = Some (id, w) → w = false.

(** ** Fixtures for the examples *)

(** [Id] of a new [FMixerUser], for the examples. *)
Definition ExampleFMixerUserId : Z := 0.

(** A parser that knows the ids of three messages. *)
Definition ExampleGuidParse (s : string) : option FGuid :=
  if String.eqb s "m1" then Some 1%N
  else if String.eqb s "m2" then Some 2%N
  else if String.eqb s "m3" then Some 3%N
  else None.

Definition ExampleIsAnonymous (s : FMixerChatConnection) : bool := false.

(** A connection whose socket is open, with an empty history of the given
    size and nothing cached. *)
Definition ExampleConnection (Max : Z) : FMixerChatConnection :=
  {| History := {| Messages := []; ChatHistoryNewest := None; ChatHistoryOldest := None;
                   ChatHistoryNum := 0; ChatHistoryMax := Max |};
     CachedUsers := ∅; ReplyHandlers := ∅; MessageId := 0; bIsReady := false;
     WebSocket := Some {| IsConnected := true |} |}.

(** The payload of a chat message with one fragment of text. *)
Definition ExampleChatMessage (IdString : string) (UserId : Z) (UserName Text : string)
  : FJsonObject :=
  [(FieldNames.UserNameWithUnderscore, JsonString UserName);
   (FieldNames.UserId, JsonNumber UserId);
   (FieldNames.Message,
     JsonObject [(FieldNames.Message,
                   JsonArray [JsonObject [(FieldNames.Type_, JsonString "text");
                                          (FieldNames.Text, JsonString Text)]])]);
   (FieldNames.Id, JsonString IdString)].

(** The payload of a chat message with the given fragments. *)
Definition ExampleChatMessageWithFragments (IdString : string) (UserId : Z)
    (UserName : string) (Fragments : list FJsonValue) : FJsonObject :=
  [(FieldNames.UserNameWithUnderscore, JsonString UserName);
   (FieldNames.UserId, JsonNumber UserId);
   (FieldNames.Message, JsonObject [(FieldNames.Message, JsonArray Fragments)]);
   (FieldNames.Id, JsonString IdString)].

Definition ExampleEvent (EventType : string) (Data : FJsonObject) : FJsonObject :=
  [(FieldNames.Type_, JsonString MessageTypes.Event);
   (FieldNames.Event, JsonString EventType);
   (FieldNames.Data, JsonObject Data)].

Definition ExampleReply (ReplyingToMessageId : Z) (Fields : FJsonObject) : FJsonObject :=
  (FieldNames.Type_, JsonString MessageTypes.Reply)
  :: (FieldNames.Id, JsonNumber ReplyingToMessageId) :: Fields.

(** The state a method leaves, or the state it started from when it does not
    return. *)
Definition StateAfter {A : Type} (o : Op A) (s : FMixerChatConnection)
  : FMixerChatConnection :=
  match o s with Some (_, s', _) => s' | None => s end.

(** Whatever way the method returns, it returns [v]. *)
Definition ReturnsOnly {A : Type} (v : A) (o : Op A) : Prop :=
  ∀ s a s' e, o s = Some (a, s', e) → a = v.

(** The payload of a chat message whose message object has no fragments
    array. *)
Definition ExampleChatMessageWithoutFragments : FJsonObject :=
  [(FieldNames.UserNameWithUnderscore, JsonString "bob");
   (FieldNames.UserId, JsonNumber 7);
   (FieldNames.Message, JsonObject []);
   (FieldNames.Id, JsonString "m1")].

(** A history reply with the given entries. *)
Definition ExampleHistory (Entries : list FJsonValue) : FJsonObject :=
  [(FieldNames.Data, JsonArray Entries)].

(** A connection with room for [Max] messages that has received the chat
    message [m1] of user 7. *)
Definition ExampleConnectionWithMessage (Max : Z) : FMixerChatConnection :=
  StateAfter
    (OnChatPacket ExampleFMixerUserId ExampleGuidParse
       (Some (ExampleEvent EventTypes.ChatMessage (ExampleChatMessage "m1" 7 "bob" "hi"))))
    (ExampleConnection Max).
(** ** Notions used to state further properties *)

(** [h'] is the history [h], whose chain is [l], after the deletion of the
    linked messages that [Predicate] accepts: the others are linked in their
    order, the history is well formed and as large as before, an accepted
    message is flagged as deleted and has no links, a rejected one keeps its
    content, and a message outside the chain is as it was. *)
Definition DeletedWhere (Predicate : FChatMessageMixerImpl → bool)
    (h : FChatHistory) (l : list nat) (h' : FChatHistory) : Prop :=
  HistoryChain h' (List.filter (λ a, negb (PredicateAt Predicate (Messages h) a)) l)
  ∧ HistoryInvariant h'
  ∧ ChatHistoryMax h' = ChatHistoryMax h
  ∧ (∀ a m, a ∈ l → Messages h !! a = Some m → Predicate m = true →
            Messages h' !! a = Some (Tombstone m))
  ∧ (∀ a m, a ∈ l → Messages h !! a = Some m → Predicate m = false →
            Content <$> Messages h' !! a = Some (Content m))
  ∧ (∀ b, b ∉ l → Messages h' !! b = Messages h !! b).

(** The text a fragment of a message contributes to the body: its [text],
    when it is an object with a string [type] and a string [text]. *)
Definition FragmentText (Fragment : FJsonValue) : string :=
  match TryGetObject Fragment with
  | Some FragmentObj =>
      match TryGetStringField FragmentObj FieldNames.Type_,
            TryGetStringField FragmentObj FieldNames.Text with
      | Some _, Some FragmentText => FragmentText
      | _, _ => EmptyString
      end
  | None => EmptyString
  end.

(** The texts of the fragments, one after the other. *)
Definition MessageText (MessageFragmentArray : list FJsonValue) : string :=
  foldr (λ Fragment rest, FragmentText Fragment ++ rest)%string EmptyString
        MessageFragmentArray.

(** The messages whose reception was notified, as private messages and as
    messages of the room. *)
Definition PrivateMessagesOf (e : list Effect) : list nat :=
  omap (λ x, match x with
             | TriggerOnChatPrivateMessageReceivedDelegates m => Some m
             | _ => None
             end) e.

Definition RoomMessagesOf (e : list Effect) : list nat :=
  omap (λ x, match x with
             | TriggerOnChatRoomMessageReceivedDelegates m => Some m
             | _ => None
             end) e.

(** Every cached user is cached under its own id. *)
Definition UsersKeyed (s : FMixerChatConnection) : Prop :=
  ∀ k (u : FMixerChatUser), CachedUsers s !! k = Some u → Id u = k.

(** [--ChatHistoryNum], [k] times. *)
Fixpoint Decrements (k : nat) (n : Z) : Z :=
  match k with
  | O => n
  | S k' => Decrements k' (wrap32 (n - 1))
  end.

(** ** The life cycle of the connection

    The methods that bring the connection up and down go through the http
    module, the web sockets module, the user settings and the platform's
    random numbers.  What these give back is an argument of the method
    here: the response of the http request, the result of
    [ProcessRequest], the value of the authorization header, the index
    [FMath::RandRange] picks, the socket [CreateWebSocket] makes and the
    current user. *)

(** What [HttpResponse] holds when it is valid: the response code and what
    [FJsonSerializer::Deserialize] makes of the content, when it makes a
    valid object of it. *)
Record FHttpResponse : Type := {
  GetResponseCode : Z;
  GetContentAsJson : option FJsonObject
}.

(** The urls requested:
    [https://mixer.com/api/v1/channels/%s] of the room id and
    [https://mixer.com/api/v1/chats/%d?fields=id] of the channel id. *)
Inductive FHttpUrl : Type :=
| ChannelsUrl (RoomId : string)
| ChatsUrl (ChannelId : Z).

(** The members of the connection, those of [FMixerChatConnection] above
    ([Chat]) and those that only the life cycle uses. *)
Record FMixerChatSession : Type := {
  Chat : FMixerChatConnection;
  RoomId : string;
  ChannelId : Z;
  AuthKey : string;
  Endpoints : list string;
  bRejoinOnDisconnect : bool
}.

Definition set_Chat (c : FMixerChatConnection) (S : FMixerChatSession) : FMixerChatSession :=
  {| Chat := c; RoomId := RoomId S; ChannelId := ChannelId S; AuthKey := AuthKey S;
     Endpoints := Endpoints S; bRejoinOnDisconnect := bRejoinOnDisconnect S |}.

Definition set_ChannelId (n : Z) (S : FMixerChatSession) : FMixerChatSession :=
  {| Chat := Chat S; RoomId := RoomId S; ChannelId := n; AuthKey := AuthKey S;
     Endpoints := Endpoints S; bRejoinOnDisconnect := bRejoinOnDisconnect S |}.

Definition set_AuthKey (k : string) (S : FMixerChatSession) : FMixerChatSession :=
  {| Chat := Chat S; RoomId := RoomId S; ChannelId := ChannelId S; AuthKey := k;
     Endpoints := Endpoints S; bRejoinOnDisconnect := bRejoinOnDisconnect S |}.

Definition set_Endpoints (l : list string) (S : FMixerChatSession) : FMixerChatSession :=
  {| Chat := Chat S; RoomId := RoomId S; ChannelId := ChannelId S; AuthKey := AuthKey S;
     Endpoints := l; bRejoinOnDisconnect := bRejoinOnDisconnect S |}.

Definition set_WebSocket (w : option IWebSocket) (s : FMixerChatConnection)
  : FMixerChatConnection :=
  {| History := History s; CachedUsers := CachedUsers s; ReplyHandlers := ReplyHandlers s;
     MessageId := MessageId s; bIsReady := bIsReady s; WebSocket := w |}.

(** The lines the life cycle methods write to [LogMixerChat]. *)
Inductive SessionLogLine : Type :=
| WebsocketsNotAvailable
| NoAuthTokenFound
| FailedToConnectChatWebSocket (ErrorMessage : string)
| ChatWebsocketClosed (Reason : string)
| AttemptingAutomaticReconnect
| OpeningWebSocket (SelectedEndpoint : string).

(** What the life cycle methods do to their collaborators: what the methods
    above do, and requests, sockets made, and calls on the socket. *)
Inductive SessionEffect : Type :=
| ChatEffect (e : Effect)
| UE_LOG_Session (Verbosity : ELogVerbosity.Type_) (Line : SessionLogLine)
| ProcessRequest (Url : FHttpUrl) (Authorization : option string)
| CreateWebSocket (SelectedEndpoint : string) (Protocols : list string)
| WebSocket_AddRaw
| WebSocket_RemoveAll
| WebSocket_Connect
| WebSocket_Close.

Definition SessionOp (A : Type) : Type :=
  FMixerChatSession → option (A * FMixerChatSession * list SessionEffect).

#[global] Instance SessionOp_ret : MRet SessionOp := λ A a S, Some (a, S, []).

#[global] Instance SessionOp_bind : MBind SessionOp := λ A B f x S,
  match x S with
  | None => None
  | Some (a, S1, e1) =>
      match f a S1 with
      | None => None
      | Some (b, S2, e2) => Some (b, S2, e1 ++ e2)
      end
  end.

Definition GetSession : SessionOp FMixerChatSession := λ S, Some (S, S, []).

Definition ModifySession (f : FMixerChatSession → FMixerChatSession) : SessionOp unit :=
  λ S, Some (tt, f S, []).

Definition EmitSession (e : SessionEffect) : SessionOp unit := λ S, Some (tt, S, [e]).

Definition AbortSession {A : Type} : SessionOp A := λ _, None.

(** A method of the members above, run on them. *)
Definition OnChat {A : Type} (o : Op A) : SessionOp A :=
  λ S, match o (Chat S) with
       | Some (a, c, e) => Some (a, set_Chat c S, ChatEffect <$> e)
       | None => None
       end.

Section LifeCycle.

(** [WITH_WEBSOCKETS] of the build, [EHttpResponseCodes::IsOk] and
    [FJsonValue::AsString] of the engine. *)
Variable WITH_WEBSOCKETS : bool.
Variable IsOk : Z → bool.
Variable AsString : FJsonValue → string.

(** [ProcessRequestResult] is what [ProcessRequest] returns. *)
Definition Init (ProcessRequestResult : bool) : SessionOp bool :=
  if WITH_WEBSOCKETS then
    S ← GetSession;
    EmitSession (ProcessRequest (ChannelsUrl (RoomId S)) None);;
    mret ProcessRequestResult
  else
    EmitSession (UE_LOG_Session ELogVerbosity.Warning WebsocketsNotAvailable);;
    mret false.

Definition JoinDiscoveredChatChannel (AuthZHeaderValue : string)
    (ProcessRequestResult : bool) : SessionOp unit :=
  S ← GetSession;
  (* Setting Authorization header to an empty string will just fail rather than
     perform anonymous auth. *)
  Authorization ←
    (if bool_decide (0 < String.length AuthZHeaderValue)%nat
     then mret (Some AuthZHeaderValue)
     else EmitSession (UE_LOG_Session ELogVerbosity.Warning NoAuthTokenFound);;
          mret None : SessionOp (option string));
  EmitSession (ProcessRequest (ChatsUrl (ChannelId S)) Authorization);;
  if negb ProcessRequestResult then
    EmitSession (ChatEffect (ConnectAttemptFinished false
      "Failed to send request for chat web socket connection info."))
  else mret tt.

Definition OnGetChannelInfoForRoomIdComplete (HttpResponse : option FHttpResponse)
    (bSucceeded : bool) (AuthZHeaderValue : string) (ProcessRequestResult : bool)
  : SessionOp unit :=
  match HttpResponse with
  | Some Response =>
      if bSucceeded && IsOk (GetResponseCode Response) then
        match GetContentAsJson Response with
        | Some ResponseObject =>
            match TryGetNumberField ResponseObject FieldNames.Id with
            | Some n => ModifySession (set_ChannelId n)
            | None => mret tt
            end
        | None => mret tt
        end
      else mret tt
  | None => mret tt
  end;;
  S ← GetSession;
  if bool_decide (ChannelId S ≠ 0) then
    JoinDiscoveredChatChannel AuthZHeaderValue ProcessRequestResult
  else
    EmitSession (ChatEffect (ConnectAttemptFinished false
      "Could not find Mixer chat channel for room id.")).

(** [SelectedIndex] is what [FMath::RandRange(0, Endpoints.Num() - 1)]
    returns and [CreatedSocket] what [CreateWebSocket] returns; an index
    outside [Endpoints] fails the range check of the array. *)
Definition OpenWebSocket (SelectedIndex : Z) (CreatedSocket : option IWebSocket)
  : SessionOp unit :=
  (* Shouldn't ever get this far if we don't have a websocket implementation. *)
  (if WITH_WEBSOCKETS then mret tt else AbortSession);;
  S ← GetSession;
  match (if bool_decide (0 <= SelectedIndex)
         then Endpoints S !! Z.to_nat SelectedIndex else None) with
  | None => AbortSession
  | Some SelectedEndpoint =>
      EmitSession (UE_LOG_Session ELogVerbosity.Verbose (OpeningWebSocket SelectedEndpoint));;
      (* Explicitly list protocols for the benefit of Xbox *)
      EmitSession (CreateWebSocket SelectedEndpoint ["wss"; "ws"]);;
      ModifySession (λ S, set_Chat (set_WebSocket CreatedSocket (Chat S)) S);;
      match CreatedSocket with
      | Some _ => EmitSession WebSocket_AddRaw;; EmitSession WebSocket_Connect
      | None => mret tt
      end
  end.

Definition CloseWebSocket : SessionOp unit :=
  S ← GetSession;
  match WebSocket (Chat S) with
  | Some ws =>
      ModifySession (λ S, set_Chat (set_bIsReady false (Chat S)) S);;
      EmitSession WebSocket_RemoveAll;;
      (if IsConnected ws then EmitSession WebSocket_Close else mret tt);;
      ModifySession (λ S, set_Chat (set_WebSocket None (Chat S)) S)
  | None => mret tt
  end.

Definition OnDiscoverChatServersComplete (HttpResponse : option FHttpResponse)
    (bSucceeded : bool) (SelectedIndex : Z) (CreatedSocket : option IWebSocket)
  : SessionOp unit :=
  match HttpResponse with
  | Some Response =>
      if bSucceeded && IsOk (GetResponseCode Response) then
        match GetContentAsJson Response with
        | Some ResponseObject =>
            match TryGetArrayField ResponseObject FieldNames.Endpoints with
            | Some JsonEndpoints =>
                ModifySession (λ S, set_Endpoints (Endpoints S ++ (AsString <$> JsonEndpoints)) S);;
                match TryGetStringField ResponseObject FieldNames.AuthKey with
                | Some k => ModifySession (set_AuthKey k)
                | None => mret tt
                end;;
                OpenWebSocket SelectedIndex CreatedSocket
            | None => mret tt
            end
        | None => mret tt
        end
      else mret tt
  | None => mret tt
  end;;
  (* Should have a web socket going by now. *)
  S ← GetSession;
  match WebSocket (Chat S) with
  | None =>
      EmitSession (ChatEffect (ConnectAttemptFinished false "Failed to create web socket"))
  | Some _ => mret tt
  end.

(** [CurrentUser] is the user the module knows, if any. *)
Definition OnChatSocketConnected (CurrentUser : option FMixerLocalUser) : SessionOp unit :=
  S ← GetSession;
  OnChat (SendAuth (ChannelId S) CurrentUser (AuthKey S)).

Definition OnChatConnectionError (ErrorMessage : string) : SessionOp unit :=
  EmitSession (UE_LOG_Session ELogVerbosity.Warning
                 (FailedToConnectChatWebSocket ErrorMessage));;
  EmitSession (ChatEffect (ConnectAttemptFinished false ErrorMessage)).

Definition OnChatSocketClosed (StatusCode : Z) (Reason : string) (bWasClean : bool)
    (SelectedIndex : Z) (CreatedSocket : option IWebSocket) : SessionOp unit :=
  (* This should be a remote close since we unhook event handlers before closing
     on our end. *)
  EmitSession (UE_LOG_Session ELogVerbosity.Warning (ChatWebsocketClosed Reason));;
  S ← GetSession;
  let bWasReady := bIsReady (Chat S) in
  CloseWebSocket;;
  if bRejoinOnDisconnect S then
    EmitSession (UE_LOG_Session ELogVerbosity.Warning AttemptingAutomaticReconnect);;
    OpenWebSocket SelectedIndex CreatedSocket
  else if bWasReady then
    EmitSession (ChatEffect (ExitRoomWithReason bWasClean Reason))
  else
    EmitSession (ChatEffect (ConnectAttemptFinished false Reason)).

(** [OnChatPacket] as the handler of the socket's messages. *)
Definition OnMessage (FMixerUser_Id : Z) (FGuid_Parse : string → option FGuid)
    (JsonObj : option FJsonObject) : SessionOp unit :=
  OnChat (OnChatPacket FMixerUser_Id FGuid_Parse JsonObj).

End LifeCycle.

(** What a life cycle method did through the methods of [Chat] and to the
    chat interface. *)
Definition ChatEffectsOf (e : list SessionEffect) : list Effect :=
  omap (λ x, match x with ChatEffect c => Some c | _ => None end) e.

(** The object of a response that the completion handlers read: the request
    succeeded, the response is valid and its code is ok, and its content is
    a JSON object. *)
Definition UsableResponse (IsOk : Z → bool) (HttpResponse : option FHttpResponse)
    (bSucceeded : bool) : option FJsonObject :=
  match HttpResponse with
  | Some Response =>
      if bSucceeded && IsOk (GetResponseCode Response)
      then GetContentAsJson Response
      else None
  | None => None
  end.
(** ** Arithmetic *)

Lemma wrap32_id (z : Z) : InInt32 z → wrap32 z = z.
Proof.
  unfold InInt32, wrap32. intros Hz.
  rewrite Z.mod_small by lia. lia.
Qed.

(** ** Lemmas on chains *)

Lemma HeadOr_None l : HeadOr l None = head l.
Proof. by destruct l. Qed.

Lemma LastOr_None l : LastOr l None = last l.
Proof. unfold LastOr. by destruct (last l). Qed.

Lemma HeadOr_app l1 l2 nx : HeadOr (l1 ++ l2) nx = HeadOr l1 (HeadOr l2 nx).
Proof. by destruct l1. Qed.

Lemma LastOr_cons a l prev : LastOr (a :: l) prev = LastOr l (Some a).
Proof. unfold LastOr. destruct l
    as [|b t]; [done|]. rewrite last_cons. by destruct (last (b :: t)). Qed.

Lemma LastOr_snoc l a prev : LastOr (l ++ [a]) prev = Some a.
Proof. unfold LastOr. by rewrite last_snoc. Qed.

Lemma Seg_frame ms ms' prev l nx :
  (∀ a, a ∈ l → ms' !! a = ms !! a) → Seg ms prev l nx → Seg ms' prev l nx.
Proof.
  revert prev. induction l as [|a t IH]; intros prev Hfr; simpl; [done|].
  intros (m & Hm & Hp & Hn & Ht).
  exists m. split_and!; try done.
  - rewrite Hfr; [done|]. by left.
  - apply IH; [|done]. intros b Hb. apply Hfr. by right.
Qed.

Lemma Seg_lookup ms prev l nx a :
  Seg ms prev l nx → a ∈ l → is_Some (ms !! a).
Proof.
  revert prev. induction l as [|b t IH]; intros prev; simpl.
  - intros _ H. by apply elem_of_nil in H.
  - intros (m & Hm & _ & _ & Ht) [->|Hin]%elem_of_cons; eauto.
Qed.

Lemma Seg_lt ms prev l nx a :
  Seg ms prev l nx → a ∈ l → (a < length ms)%nat.
Proof.
  intros Hs Ha. destruct (Seg_lookup _ _ _ _ _ Hs Ha) as [m Hm].
  by eapply lookup_lt_Some.
Qed.

Lemma Linked_length ms l : Linked ms l → (length l <= length ms)%nat.
Proof.
  intros [Hnd Hs].
  assert (Hsub : l ⊆ seq 0 (length ms)).
  { intros a Ha. apply elem_of_seq. split; [lia|].
    simpl. eapply Seg_lt; eauto. }
  apply (NoDup_submseteq _ _ Hnd) in Hsub.
  apply submseteq_length in Hsub. by rewrite length_seq in Hsub.
Qed.

(** A write to an object outside the chain keeps the chain. *)
Lemma Seg_insert_notin ms prev l nx b m :
  b ∉ l → Seg ms prev l nx → Seg (<[b := m]> ms) prev l nx.
Proof.
  intros Hb. apply Seg_frame. intros a Ha.
  apply list_lookup_insert_ne. intros ->. done.
Qed.

(** A chain splits into two chains, each ending where the other begins. *)
Lemma Seg_app ms prev l1 l2 nx :
  Seg ms prev (l1 ++ l2) nx ↔
  Seg ms prev l1 (HeadOr l2 nx) ∧ Seg ms (LastOr l1 prev) l2 nx.
Proof.
  revert prev. induction l1 as [|a t IH]; intros prev.
  - simpl. unfold LastOr. simpl. tauto.
  - simpl. rewrite LastOr_cons, HeadOr_app. split.
    + intros (m & Hm & Hp & Hn & Ht). apply IH in Ht as [Ht1 Ht2].
      split; [|done]. by exists m.
    + intros [(m & Hm & Hp & Hn & Ht1) Ht2].
      exists m. split_and!; try done. apply IH. done.
Qed.

Lemma Seg_first ms prev a t nx :
  Seg ms prev (a :: t) nx →
  ∃ m, ms !! a = Some m ∧ PrevLink m = prev ∧ NextLink m = HeadOr t nx.
Proof. intros (m & ? & ? & ? & _). eauto. Qed.

Lemma Seg_last ms prev l p nx :
  Seg ms prev (l ++ [p]) nx →
  ∃ m, ms !! p = Some m ∧ PrevLink m = LastOr l prev ∧ NextLink m = nx.
Proof. intros [_ (m & ? & ? & ? & _)]%Seg_app. eauto. Qed.

(** Re-pointing the [PrevLink] of the first object. *)
Lemma Seg_set_prev ms prev q a t nx m :
  a ∉ t → ms !! a = Some m → Seg ms prev (a :: t) nx →
  Seg (<[a := set_PrevLink q m]> ms) q (a :: t) nx.
Proof.
  intros Ha Hm (m' & Hm' & Hp & Hn & Ht). simpl.
  assert (m' = m) as -> by congruence.
  exists (set_PrevLink q m). split_and!; try done.
  - apply list_lookup_insert_eq. by eapply lookup_lt_Some.
  - by apply Seg_insert_notin.
Qed.

(** Re-pointing the [NextLink] of the last object. *)
Lemma Seg_set_next ms prev q l p nx m :
  p ∉ l → ms !! p = Some m → Seg ms prev (l ++ [p]) nx →
  Seg (<[p := set_NextLink q m]> ms) prev (l ++ [p]) q.
Proof.
  intros Hp Hm [Hl (m' & Hm' & Hpr & Hn & _)]%Seg_app. simpl in Hl.
  assert (m' = m) as -> by congruence.
  apply Seg_app. simpl. split.
  - by apply Seg_insert_notin.
  - exists (set_NextLink q m). split_and!; try done.
    apply list_lookup_insert_eq. by eapply lookup_lt_Some.
Qed.

(** Cutting the chain before its last object. *)
Lemma Seg_cut_last ms prev l p o mp mo :
  NoDup (l ++ [p; o]) →
  Seg ms prev (l ++ [p; o]) None →
  ms !! p = Some mp → ms !! o = Some mo →
  Seg (<[p := set_NextLink None mp]> (<[o := set_PrevLink None mo]> ms)) prev (l ++ [p]) None.
Proof.
  intros Hnd Hs Hp Ho.
  change [p; o] with ([p] ++ [o]) in Hs, Hnd. rewrite app_assoc in Hs, Hnd.
  apply NoDup_app in Hnd as (Hnd & Hdis & _).
  assert (o ∉ l ++ [p]) by (intros Hin; apply (Hdis o Hin); by left).
  assert (p ≠ o) by set_solver.
  apply Seg_app in Hs as [Hs _].
  apply NoDup_app in Hnd as (_ & Hdis' & _).
  eapply Seg_set_next.
  - intros Hin. apply (Hdis' p Hin). by left.
  - by rewrite list_lookup_insert_ne.
  - by apply Seg_insert_notin.
Qed.

(** Joining two chains: the last object of the first gets the second chain
    after it; the first object of the second already has it before. *)
Lemma Seg_join ms prev l1 o l2 nx nx' mo :
  NoDup (l1 ++ o :: l2) →
  Seg ms prev (l1 ++ [o]) nx' →
  ms !! o = Some mo →
  Seg ms (Some o) l2 nx →
  Seg (<[o := set_NextLink (HeadOr l2 nx) mo]> ms) prev (l1 ++ o :: l2) nx.
Proof.
  intros Hnd Hs Ho Hq.
  apply NoDup_app in Hnd as (_ & Hdis & Hnd2). apply NoDup_cons in Hnd2 as [Hol2 _].
  assert (o ∉ l1) by (intros Hin; apply (Hdis o Hin); by left).
  change (o :: l2) with ([o] ++ l2). rewrite app_assoc. apply Seg_app. split.
  - eapply Seg_set_next; eauto.
  - rewrite LastOr_snoc. by apply Seg_insert_notin.
Qed.

Lemma Content_set_NextLink p m : Content (set_NextLink p m) = Content m.
Proof. done. Qed.
Lemma Content_set_PrevLink p m : Content (set_PrevLink p m) = Content m.
Proof. done. Qed.

Lemma UpdMessage_Some p f h m :
  Messages h !! p = Some m →
  UpdMessage p f h = Some (set_Messages (<[p := f m]> (Messages h)) h).
Proof. intros Hm. unfold UpdMessage. by rewrite Hm. Qed.

Lemma last_snoc_inv {A} (l : list A) (o : A) :
  last l = Some o → ∃ l', l = l' ++ [o].
Proof. intros H. apply last_Some in H. done. Qed.


Lemma SameContents_refl ms : SameContents ms ms.
Proof. done. Qed.

Lemma SameContents_trans ms1 ms2 ms3 :
  SameContents ms1 ms2 → SameContents ms2 ms3 → SameContents ms1 ms3.
Proof. intros H1 H2 b. by rewrite H2, H1. Qed.

Lemma SameContents_insert ms p m m' :
  ms !! p = Some m → Content m' = Content m → SameContents ms (<[p := m']> ms).
Proof.
  intros Hm Hc b. destruct (decide (b = p)) as [->|].
  - rewrite list_lookup_insert_eq by (by eapply lookup_lt_Some).
    rewrite Hm. simpl. by rewrite Hc.
  - by rewrite list_lookup_insert_ne.
Qed.

Lemma SameContents_length ms ms' : SameContents ms ms' → length ms' = length ms.
Proof.
  intros H.
  destruct (decide (length ms' < length ms)%nat) as [Hlt|Hge].
  - specialize (H (length ms')). rewrite (lookup_ge_None_2 ms') in H by lia.
    destruct (lookup_lt_is_Some_2 ms (length ms') Hlt) as [x Hx].
    rewrite Hx in H. done.
  - destruct (decide (length ms < length ms')%nat) as [Hlt|Hge']; [|lia].
    specialize (H (length ms)). rewrite (lookup_ge_None_2 ms) in H by lia.
    destruct (lookup_lt_is_Some_2 ms' (length ms) Hlt) as [x Hx].
    rewrite Hx in H. done.
Qed.

Lemma Seg_push ms a m n t mn :
  NoDup (a :: n :: t) → ms !! a = Some m → PrevLink m = None →
  Seg ms None (n :: t) None → ms !! n = Some mn →
  Seg (<[n := set_PrevLink (Some a) mn]> (<[a := set_NextLink (Some n) m]> ms))
      None (a :: n :: t) None.
Proof.
  intros Hnd Hm Hp Hs Hn.
  apply NoDup_cons in Hnd as [Ha Hnd]. apply NoDup_cons in Hnd as [Hnt Hnd'].
  assert (a ≠ n) by set_solver.
  change (Seg ?h None (a :: ?r) None) with
    (∃ m0, h !! a = Some m0 ∧ PrevLink m0 = None ∧ NextLink m0 = HeadOr r None
           ∧ Seg h (Some a) r None).
  exists (set_NextLink (Some n) m). split_and!; try done.
  - rewrite list_lookup_insert_ne by done.
    apply list_lookup_insert_eq. by eapply lookup_lt_Some.
  - eapply Seg_set_prev; [done| |].
    + by rewrite list_lookup_insert_ne.
    + by apply Seg_insert_notin.
Qed.

(** The last two objects of a chain point at each other. *)
Lemma Seg_last_two ms prev l p o nx :
  Seg ms prev (l ++ [p; o]) nx →
  ∃ mp mo, ms !! p = Some mp ∧ NextLink mp = Some o
         ∧ ms !! o = Some mo ∧ PrevLink mo = Some p.
Proof.
  intros [_ Hs]%Seg_app. 
  destruct Hs as (mp & Hp & _ & Hn & mo & Ho & Hpo & _). eauto 10.
Qed.

Lemma snoc_two {A} (x y : A) (l : list A) :
  ∃ l' p o, x :: y :: l = l' ++ [p; o].
Proof.
  revert x y. induction l as [|z l IH]; intros x y.
  - by exists [], x, y.
  - destruct (IH y z) as (l' & p & o & ->). by exists (x :: l'), p, o.
Qed.

Lemma AddMessageToChatHistory_chain h l a m :
  HistoryChain h l →
  ChatHistoryNum h <= ChatHistoryMax h → ChatHistoryMax h < 2147483647 →
  0 < ChatHistoryMax h →
  Messages h !! a = Some m → a ∉ l → PrevLink m = None → IsWhisper m = false →
  ∃ h', AddMessageToChatHistory a h = Some h'
    ∧ HistoryChain h' (take (Z.to_nat (ChatHistoryMax h)) (a :: l))
    ∧ ChatHistoryMax h' = ChatHistoryMax h
    ∧ SameContents (Messages h) (Messages h')
    ∧ (∀ b, b ≠ a → b ∉ l → Messages h' !! b = Messages h !! b).
Proof.
  intros ([Hnd Hseg] & Hnew & Hold & Hnum) Hle Hmax Hpos Hm Ha Hprev Hw.
  destruct h as [ms nw ol num mx]; simpl in *.
  unfold AddMessageToChatHistory; simpl. rewrite Hm; simpl.
  rewrite bool_decide_true by done. rewrite Hw; simpl.
  rewrite (UpdMessage_Some _ _ _ m) by done. simpl.
  destruct l as [|n t].
  - simpl in *. subst nw ol num. simpl.
    eexists; split; [reflexivity|]. simpl.
    replace (Z.to_nat mx) with (S (Z.to_nat (mx - 1))) by lia. simpl. rewrite take_nil.
    unfold HistoryChain, Linked; simpl. split_and!; try done.
    + apply NoDup_singleton.
    + eexists; split_and!; [apply list_lookup_insert_eq; by eapply lookup_lt_Some|done..].
    + by eapply SameContents_insert.
    + intros b ??. by rewrite list_lookup_insert_ne.
  - assert (Hnd' : NoDup (a :: n :: t)) by (by apply NoDup_cons).
    assert (a ≠ n) by set_solver.
    pose proof Hseg as (mn & Hmn & _).
    simpl in Hnew. subst nw. simpl.
    rewrite (UpdMessage_Some _ _ _ mn) by (simpl; by rewrite list_lookup_insert_ne).
    simpl.
    pose proof (Seg_push ms a m n t mn Hnd' Hm Hprev Hseg Hmn) as Hpush.
    set (ms2 := <[n:=set_PrevLink (Some a) mn]> (<[a:=set_NextLink (Some n) m]> ms)) in *.
    assert (Hsc2 : SameContents ms ms2).
    { apply (SameContents_trans _ (<[a:=set_NextLink (Some n) m]> ms))
        ; [by eapply SameContents_insert|].
      eapply SameContents_insert; [by rewrite list_lookup_insert_ne|done]. }
    assert (Hfr2 : ∀ b, b ≠ a → b ∉ n :: t → ms2 !! b = ms !! b).
    { intros b ? Hb. unfold ms2. rewrite !list_lookup_insert_ne; set_solver. }
    rewrite Hold. 
    destruct (last (n :: t)) as [o|] eqn:Hlast; [|by apply last_None in Hlast].
    subst num. rewrite wrap32_id by (unfold InInt32; lia).
    case_bool_decide as Hfull.
    + (* the history is full: the oldest message is evicted *)
      assert (Hlen : Z.of_nat (length (n :: t)) = mx) by lia.
      destruct (snoc_two a n t) as (l' & p & o' & Hl').
      assert (o' = o) as ->.
      { assert (Hx : last (a :: n :: t) = Some o) by (by rewrite last_cons, Hlast).
        rewrite Hl' in Hx. change [p; o'] with ([p] ++ [o']) in Hx.
        rewrite app_assoc, last_snoc in Hx. congruence. }
      rewrite Hl' in Hpush, Hnd'.
      destruct (Seg_last_two _ _ _ _ _ _ Hpush) as (mp & mo & Hp & Hpn & Ho & Hop).
      assert (p ≠ o).
      { intros ->. apply NoDup_app in Hnd' as (_ & _ & Hx). apply NoDup_cons in Hx. set_solver. }
      rewrite Ho. simpl. rewrite Hop. simpl. rewrite Hp. simpl. rewrite Hpn. simpl.
      rewrite (UpdMessage_Some _ _ _ mo) by done. simpl.
      rewrite (UpdMessage_Some _ _ _ mp) by (simpl; by rewrite list_lookup_insert_ne).
      simpl.
      eexists; split; [reflexivity|].
      assert (Htake : take (Z.to_nat mx) (a :: n :: t) = l' ++ [p]).
      { rewrite Hl'. change [p; o] with ([p] ++ [o]). rewrite app_assoc.
        apply take_app_length'. apply (f_equal length) in Hl'.
        rewrite length_app in *. simpl in *. lia. }
      rewrite Htake.
      assert (Hin : ∀ b, b ∈ l' ++ [p; o] ↔ b ∈ a :: n :: t) by (by rewrite Hl').
      unfold HistoryChain, Linked; simpl. split_and!; try done.
      * change [p; o] with ([p] ++ [o]) in Hnd'. rewrite app_assoc in Hnd'.
        by apply NoDup_app in Hnd' as (? & _ & _).
      * by apply Seg_cut_last.
      * destruct l'; simpl in *; congruence.
      * by rewrite last_snoc.
      * apply (f_equal length) in Hl'. rewrite !length_app in *. simpl in *.
        rewrite wrap32_id by (unfold InInt32; lia). lia.
      * eapply SameContents_trans; [exact Hsc2|].
        apply (SameContents_trans _ (<[o:=set_PrevLink None mo]> ms2));
          [by eapply SameContents_insert|].
        eapply SameContents_insert; [by rewrite list_lookup_insert_ne|done].
      * intros b Hba Hb.
        assert (b ≠ p ∧ b ≠ o) as [??].
        { assert (Hx : ∀ x, x ∈ a :: n :: t → x ≠ a → x ∈ n :: t) by set_solver.
          split; intros ->; apply Hb, Hx; try done; apply Hin; set_solver. }
        rewrite !list_lookup_insert_ne by done. by apply Hfr2.
    + (* room left *)
      eexists; split; [reflexivity|].
      rewrite take_ge by (simpl in *; lia).
      unfold HistoryChain, Linked; simpl.
      split_and!; first [done | by rewrite last_cons, Hlast | lia].
Qed.

Lemma AddMessageToChatHistory_noop h a m :
  Messages h !! a = Some m →
  ChatHistoryMax h <= 0 ∨ IsWhisper m = true →
  AddMessageToChatHistory a h = Some h.
Proof.
  intros Hm Hc. unfold AddMessageToChatHistory. rewrite Hm. simpl.
  destruct Hc as [Hc| ->].
  - by rewrite bool_decide_false by lia.
  - by rewrite andb_false_r.
Qed.

Lemma GetMessageHistoryLoop_chain ms h fuel prev l out :
  Messages h = ms → Seg ms prev l None → (length l <= fuel)%nat →
  GetMessageHistoryLoop fuel (-1) (head l) out h = Some (out ++ l).
Proof.
  intros <-. revert fuel prev out. induction l as [|a t IH]; intros fuel prev out Hs Hf.
  - destruct fuel; simpl; by rewrite app_nil_r.
  - destruct Hs as (m & Hm & _ & Hn & Ht). simpl in Hf.
    destruct fuel as [|fuel]; [lia|]. simpl.
    rewrite Hm. simpl. rewrite Hn, HeadOr_None.
    rewrite (IH fuel (Some a)) by (done || lia).
    by rewrite <- app_assoc.
Qed.

Lemma GetMessageHistory_chain h l out :
  HistoryChain h l → GetMessageHistory (-1) out h = Some (out ++ l).
Proof.
  intros (Hl & Hn & _). unfold GetMessageHistory. rewrite Hn.
  eapply GetMessageHistoryLoop_chain; [done|apply Hl|by apply Linked_length].
Qed.

Lemma take_app_take {A} (n : nat) (x y : list A) :
  take n (x ++ take n y) = take n (x ++ y).
Proof.
  destruct (decide (length x <= n)%nat).
  - rewrite !take_app. rewrite take_take. f_equal. f_equal. lia.
  - rewrite !take_app. replace (n - length x)%nat with 0%nat by lia. by rewrite !take_0.
Qed.

Lemma IsWhisperAt_SameContents ms ms' a :
  SameContents ms ms' → IsWhisperAt ms' a = IsWhisperAt ms a.
Proof.
  intros H. specialize (H a). unfold IsWhisperAt.
  destruct (ms' !! a) as [m'|], (ms !! a) as [m|]; simpl in H; try done.
  assert (Hx : Content m' = Content m) by congruence.
  by apply (f_equal IsWhisper) in Hx.
Qed.

Lemma AddMessagesToChatHistory_chain pushed : ∀ h l,
  HistoryChain h l →
  ChatHistoryNum h <= ChatHistoryMax h → ChatHistoryMax h < 2147483647 →
  0 < ChatHistoryMax h →
  NoDup pushed →
  (∀ a, a ∈ pushed → (a ∉ l) ∧ (∃ m, Messages h !! a = Some m ∧ PrevLink m = None)) →
  ∃ h', AddMessagesToChatHistory pushed h = Some h'
    ∧ HistoryChain h' (take (Z.to_nat (ChatHistoryMax h))
                         (reverse (List.filter (NotWhisperAt (Messages h)) pushed) ++ l))
    ∧ ChatHistoryMax h' = ChatHistoryMax h
    ∧ SameContents (Messages h) (Messages h')
    ∧ (∀ b, b ∉ pushed → b ∉ l → Messages h' !! b = Messages h !! b).
Proof.
  induction pushed as [|a rest IH]; intros h l Hc Hle Hmax Hpos Hnd Hfresh.
  - exists h. simpl. split_and!; try done.
    rewrite take_ge; [done|]. destruct Hc as (_ & _ & _ & Hn). lia.
  - apply NoDup_cons in Hnd as [Ha Hnd].
    destruct (Hfresh a) as (Hal & m & Hm & Hp); [by left|].
    simpl. destruct (IsWhisper m) eqn:Hw.
    + rewrite (AddMessageToChatHistory_noop h a m) by auto. simpl.
      destruct (IH h l) as (h' & -> & Hc' & Hmx & Hsc & Hfr); try done.
      { intros b Hb. apply Hfresh. by right. }
      exists h'. split_and!; try done.
      * unfold NotWhisperAt at 1, IsWhisperAt at 1. rewrite Hm, Hw. simpl. done.
      * intros b Hb. apply Hfr. set_solver.
    + destruct (AddMessageToChatHistory_chain h l a m) as (h1 & -> & Hc1 & Hmx1 & Hsc1 & Hfr1);
        try done.
      simpl.
      assert (Hn1 : ChatHistoryNum h1 <= ChatHistoryMax h1).
      { destruct Hc1 as (_ & _ & _ & ->). rewrite length_take. lia. }
      destruct (IH h1 (take (Z.to_nat (ChatHistoryMax h)) (a :: l)))
        as (h' & -> & Hc' & Hmx & Hsc & Hfr); try done; try lia.
      { intros b Hb. split.
        - intros Hin%elem_of_take. destruct Hin as (i & Hin & _). 
          apply list_elem_of_lookup_2 in Hin.
          apply elem_of_cons in Hin as [->|Hin]; [done|].
          destruct (Hfresh b) as [Hbl _]; [by right|]. done.
        - destruct (Hfresh b) as (Hbl & mb & Hmb & Hpb); [by right|].
          exists mb. split; [|done]. rewrite Hfr1; [done| |done]. intros ->. done. }
      exists h'. split_and!; try done.
      * rewrite Hmx1 in Hc'. rewrite take_app_take in Hc'.
        unfold NotWhisperAt at 1, IsWhisperAt at 1. rewrite Hm, Hw. simpl.
        rewrite reverse_cons, <- app_assoc. simpl.
        erewrite (List.filter_ext (NotWhisperAt (Messages h))); [exact Hc'|].
        intros b. unfold NotWhisperAt. f_equal. symmetry. by apply IsWhisperAt_SameContents.
      * lia.
      * by eapply SameContents_trans.
      * intros b Hb Hbl. rewrite Hfr; [apply Hfr1; set_solver|set_solver|].
        intros Hin%elem_of_take. destruct Hin as (i & Hin & _).
        apply list_elem_of_lookup_2 in Hin. set_solver.
Qed.

Lemma AddMessagesToChatHistory_noop pushed h :
  ChatHistoryMax h <= 0 →
  (∀ a, a ∈ pushed → is_Some (Messages h !! a)) →
  AddMessagesToChatHistory pushed h = Some h.
Proof.
  intros Hmax. induction pushed as [|a rest IH]; intros Hex; [done|].
  simpl. destruct (Hex a) as [m Hm]; [by left|].
  rewrite (AddMessageToChatHistory_noop h a m) by auto. simpl.
  apply IH. intros b Hb. apply Hex. by right.
Qed.

Lemma HistoryChain_nil_inv h l :
  HistoryChain h l → ChatHistoryNum h <= 0 → l = [].
Proof.
  intros (_ & _ & _ & Hn) Hle. destruct l; [done|]. simpl in Hn. lia.
Qed.

Lemma UpdIfValid_set_prev h prev q l nx :
  NoDup l → Seg (Messages h) prev l nx →
  ∃ ms', UpdIfValid (head l) (set_PrevLink q) h = Some (set_Messages ms' h)
    ∧ Seg ms' q l nx
    ∧ SameContents (Messages h) ms'
    ∧ (∀ b, head l ≠ Some b → ms' !! b = Messages h !! b).
Proof.
  intros Hnd Hs. destruct l as [|a t]; simpl.
  - exists (Messages h). by destruct h.
  - pose proof Hs as (m & Hm & _).
    apply NoDup_cons in Hnd as [Ha _].
    rewrite (UpdMessage_Some _ _ _ m) by done.
    eexists; split; [reflexivity|]. split_and!.
    + by eapply Seg_set_prev.
    + by eapply SameContents_insert.
    + intros b Hb. apply list_lookup_insert_ne. congruence.
Qed.

Lemma UpdIfValid_set_next h prev q l nx :
  NoDup l → Seg (Messages h) prev l nx →
  ∃ ms', UpdIfValid (last l) (set_NextLink q) h = Some (set_Messages ms' h)
    ∧ Seg ms' prev l q
    ∧ SameContents (Messages h) ms'
    ∧ (∀ b, last l ≠ Some b → ms' !! b = Messages h !! b).
Proof.
  intros Hnd Hs. destruct (last l) as [p|] eqn:Hlast; simpl.
  - apply last_Some in Hlast as [l' ->].
    destruct (Seg_last _ _ _ _ _ Hs) as (m & Hm & _).
    apply NoDup_app in Hnd as (_ & Hdis & _).
    assert (p ∉ l') by (intros Hin; apply (Hdis p Hin); by left).
    rewrite (UpdMessage_Some _ _ _ m) by done.
    eexists; split; [reflexivity|]. split_and!.
    + by eapply Seg_set_next.
    + by eapply SameContents_insert.
    + intros b Hb. apply list_lookup_insert_ne. congruence.
  - apply last_None in Hlast as ->. exists (Messages h). by destruct h.
Qed.

Lemma head_app_cons_eq (l1 l2 : list nat) c :
  NoDup (l1 ++ c :: l2) → (Some c = head (l1 ++ c :: l2) ↔ l1 = []).
Proof.
  intros Hnd. split; [|by intros ->].
  destruct l1 as [|a t]; [done|]. simpl. intros [= <-].
  apply NoDup_cons in Hnd as [Hx _]. set_solver.
Qed.

Lemma last_app_cons_eq (l1 l2 : list nat) c :
  NoDup (l1 ++ c :: l2) → (Some c = last (l1 ++ c :: l2) ↔ l2 = []).
Proof.
  intros Hnd. split; [|intros ->; by rewrite last_snoc].
  destruct l2 as [|a t] using rev_ind; [done|]. clear IHt.
  change (c :: t ++ [a]) with ((c :: t) ++ [a]). rewrite app_assoc, last_snoc.
  intros [= <-]. apply NoDup_app in Hnd as (_ & _ & Hx).
  apply NoDup_cons in Hx as [Hx _]. set_solver.
Qed.

Lemma newest_after_unlink (l1 l2 : list nat) c :
  NoDup (l1 ++ c :: l2) →
  (if decide (Some c = head (l1 ++ c :: l2)) then head l2 else head (l1 ++ c :: l2))
  = head (l1 ++ l2).
Proof.
  intros Hnd. destruct (decide _) as [E|E].
  - apply head_app_cons_eq in E as ->; done.
  - destruct l1; [|done]. by destruct E.
Qed.

Lemma oldest_after_unlink (l1 l2 : list nat) c :
  NoDup (l1 ++ c :: l2) →
  (if decide (Some c = last (l1 ++ c :: l2)) then last l1 else last (l1 ++ c :: l2))
  = last (l1 ++ l2).
Proof.
  intros Hnd. destruct (decide _) as [E|E].
  - apply last_app_cons_eq in E as ->; [|done]. by rewrite app_nil_r.
  - rewrite !last_app. rewrite last_cons.
    destruct (last l2) eqn:Hl; [done|]. apply last_None in Hl as ->.
    destruct E. by rewrite last_snoc.
Qed.

Lemma DeleteFromChatHistory_unlink h l1 c l2 :
  HistoryChain h (l1 ++ c :: l2) → InInt32 (ChatHistoryNum h) →
  ∃ h' m, DeleteFromChatHistory c h = Some h'
    ∧ Messages h !! c = Some m
    ∧ NextLink m = head l2
    ∧ HistoryChain h' (l1 ++ l2)
    ∧ ChatHistoryMax h' = ChatHistoryMax h
    ∧ Messages h' !! c = Some (set_PrevLink None (set_NextLink None (FlagAsDeleted m)))
    ∧ (∀ b, b ≠ c → Content <$> Messages h' !! b = Content <$> Messages h !! b)
    ∧ (∀ b, b ∉ l1 ++ c :: l2 → Messages h' !! b = Messages h !! b).
Proof.
  intros ([Hnd Hseg] & Hnew & Hold & Hnum) Hrange.
  destruct h as [ms nw ol num mx]; simpl in *.
  pose proof Hseg as [Hs1 Hs2]%Seg_app.
  pose proof Hs2 as (m & Hm & Hmp & Hmn & Hs3). simpl in Hs1.
  rewrite LastOr_None in Hmp. rewrite HeadOr_None in Hmn.
  pose proof Hnd as (Hnd1 & Hdis & Hnd2)%NoDup_app.
  apply NoDup_cons in Hnd2 as [Hc2 Hnd2].
  assert (Hc1 : c ∉ l1) by (intros Hin; apply (Hdis c Hin); by left).
  assert (Hdis12 : ∀ x, x ∈ l1 → x ∉ l2).
  { intros x Hx Hx2. apply (Hdis x Hx). by right. }
  unfold DeleteFromChatHistory.
  rewrite (UpdMessage_Some _ _ _ m) by done. simpl.
  rewrite list_lookup_insert_eq by (by eapply lookup_lt_Some). simpl.
  rewrite Hmn, Hmp.
  set (ms1 := <[c:=FlagAsDeleted m]> ms).
  assert (Hfr1 : ∀ b, b ≠ c → ms1 !! b = ms !! b).
  { intros b Hb. unfold ms1. by rewrite list_lookup_insert_ne. }
  assert (Hs3' : Seg ms1 (Some c) l2 None) by (by apply Seg_insert_notin).
  assert (Hs1' : Seg ms1 None l1 (Some c)) by (by apply Seg_insert_notin).
  match goal with |- context [UpdIfValid (head l2) _ ?hh] => set (h1 := hh) end.
  assert (Hh1 : h1 = Build_FChatHistory ms1 (head (l1 ++ l2)) (last (l1 ++ l2)) num mx).
  { subst h1 nw ol.
    pose proof (newest_after_unlink l1 l2 c Hnd) as Hn.
    pose proof (oldest_after_unlink l1 l2 c Hnd) as Ho.
    destruct (decide (Some c = head _)); simpl;
      destruct (decide (Some c = last _)); simpl; unfold set_ChatHistoryOldest,
      set_ChatHistoryNewest, set_Messages; simpl; by rewrite Hn, Ho. }
  clearbody h1. subst h1.
  match goal with |- context [UpdIfValid (head l2) _ ?hh] => set (h1 := hh) end.
  destruct (UpdIfValid_set_prev h1 (Some c) (last l1) l2 None) as (ms2 & Hu2 & Hs2' & Hsc2 & Hfr2);
    [done|done|].
  rewrite Hu2. simpl.
  assert (Hc2' : ms2 !! c = Some (FlagAsDeleted m)).
  { rewrite Hfr2; [apply list_lookup_insert_eq; by eapply lookup_lt_Some|].
    destruct l2; [done|]. simpl. intros [= ->]. set_solver. }
  rewrite Hc2'. simpl. rewrite Hmn, Hmp.
  match goal with |- context [UpdIfValid (last l1) _ ?hh] => set (h2 := hh) end.
  destruct (UpdIfValid_set_next h2 None (head l2) l1 (Some c)) as (ms3 & Hu3 & Hs3'' & Hsc3 & Hfr3);
    [done| |].
  { simpl. eapply Seg_frame; [|exact Hs1']. intros b Hb. apply Hfr2.
    destruct l2; [done|]. simpl. intros [= ->]. eapply Hdis12; [done|by left]. }
  rewrite Hu3. simpl.
  assert (Hc3 : ms3 !! c = Some (FlagAsDeleted m)).
  { rewrite Hfr3; [done|]. simpl. intros Hl. apply last_Some in Hl as [l' ->]. set_solver. }
  rewrite (UpdMessage_Some _ _ _ (FlagAsDeleted m)) by done. simpl.
  rewrite (UpdMessage_Some _ _ _ (set_NextLink None (FlagAsDeleted m)))
    by (simpl; apply list_lookup_insert_eq; by eapply lookup_lt_Some).
  simpl.
  eexists _, m. split; [reflexivity|].
  assert (Hlen : length ms3 = length ms).
  { rewrite (SameContents_length _ _ Hsc3). simpl.
    rewrite (SameContents_length _ _ Hsc2). simpl. unfold ms1. by rewrite length_insert. }
  assert (Hnotlast : ∀ b, b ∉ l1 → last l1 ≠ Some b).
  { intros b Hb Hl. apply last_Some in Hl as [l' ->]. set_solver. }
  assert (Hnothead : ∀ b, b ∉ l2 → head l2 ≠ Some b).
  { intros b Hb Hl. destruct l2; [done|]. simpl in Hl. set_solver. }
  unfold HistoryChain, Linked. simpl. split_and!; try done.
  - apply NoDup_app. split_and!; try done.
  - apply Seg_app. split.
    + rewrite HeadOr_None. do 2 (apply Seg_insert_notin; [done|]). done.
    + rewrite LastOr_None. do 2 (apply Seg_insert_notin; [done|]).
      eapply Seg_frame; [|exact Hs2']. intros b Hb. apply Hfr3, Hnotlast.
      intros Hb1. by eapply Hdis12.
  - rewrite wrap32_id by (unfold InInt32 in *; lia).
    rewrite Hnum, !length_app. simpl. lia.
  - rewrite list_lookup_insert_eq; [done|]. rewrite length_insert, Hlen. by eapply lookup_lt_Some.
  - intros b Hb. rewrite !list_lookup_insert_ne by done.
    rewrite (Hsc3 b). simpl. rewrite (Hsc2 b). simpl. by rewrite Hfr1.
  - intros b Hb. assert (b ≠ c ∧ (b ∉ l1) ∧ (b ∉ l2)) as (? & ? & ?) by set_solver.
    rewrite !list_lookup_insert_ne by done.
    rewrite Hfr3 by auto. simpl. rewrite Hfr2 by auto. simpl. by apply Hfr1.
Qed.
Lemma PredicateAt_SameContent P ms ms' b :
  (∀ m m', Content m = Content m' → P m = P m') →
  Content <$> ms' !! b = Content <$> ms !! b →
  PredicateAt P ms' b = PredicateAt P ms b.
Proof.
  intros HP H. unfold PredicateAt.
  destruct (ms' !! b) as [m'|], (ms !! b) as [m|]; simpl in H; try done.
  apply HP. congruence.
Qed.

Lemma Tombstone_Content m m' : Content m = Content m' → Tombstone m = Tombstone m'.
Proof.
  destruct m, m'. unfold Content, Tombstone, FlagAsDeleted, set_PrevLink, set_NextLink.
  simpl. intros [=]. by subst.
Qed.

Lemma DeleteLoop_chain P l2 : ∀ l1 h fuel,
  (∀ m m', Content m = Content m' → P m = P m') →
  HistoryChain h (l1 ++ l2) → ChatHistoryNum h <= 2147483647 →
  (length l2 <= fuel)%nat →
  ∃ h', DeleteLoop fuel P (head l2) h = Some (h', l2)
    ∧ HistoryChain h' (l1 ++ List.filter (λ a, negb (PredicateAt P (Messages h) a)) l2)
    ∧ ChatHistoryMax h' = ChatHistoryMax h
    ∧ (∀ b, b ∉ l1 ++ l2 → Messages h' !! b = Messages h !! b)
    ∧ (∀ b m, b ∈ l2 → Messages h !! b = Some m → P m = true →
              Messages h' !! b = Some (Tombstone m))
    ∧ (∀ b, (b ∈ l2 → PredicateAt P (Messages h) b = false) →
            Content <$> Messages h' !! b = Content <$> Messages h !! b).
Proof.
  induction l2 as [|c t IH]; intros l1 h fuel HP Hc Hnum Hfuel.
  - exists h. rewrite app_nil_r in *. destruct fuel; simpl; split_and!; try done.
    all: intros b m Hb; by apply elem_of_nil in Hb.
  - destruct fuel as [|fuel]; [simpl in Hfuel; lia|]. simpl in Hfuel.
    assert (Hrange : InInt32 (ChatHistoryNum h)).
    { destruct Hc as (_ & _ & _ & Hn). unfold InInt32. lia. }
    pose proof Hc as ([Hnd Hseg] & _).
    pose proof Hseg as [_ (m & Hm & _ & Hmn & _)]%Seg_app. rewrite HeadOr_None in Hmn.
    pose proof Hnd as (_ & Hdis & Hndc)%NoDup_app. apply NoDup_cons in Hndc as [Hct _].
    assert (Hcl1 : c ∉ l1) by (intros Hin; apply (Hdis c Hin); by left).
    simpl. rewrite Hm. simpl. rewrite Hmn.
    unfold PredicateAt at 1. rewrite Hm.
    destruct (P m) eqn:HPm; simpl.
    + destruct (DeleteFromChatHistory_unlink h l1 c t Hc Hrange)
        as (h1 & m' & -> & Hm' & _ & Hc1 & Hmx1 & Htomb & Hcont1 & Hfr1).
      assert (m' = m) as -> by congruence. simpl.
      assert (Hnum1 : ChatHistoryNum h1 <= 2147483647).
      { destruct Hc1 as (_ & _ & _ & ->). destruct Hc as (_ & _ & _ & Hn).
        rewrite Hn in Hnum. rewrite !length_app in *. simpl in *. lia. }
      destruct (IH l1 h1 fuel HP Hc1 Hnum1 ltac:(lia))
        as (h' & -> & Hc' & Hmx & Hfr & Htb & Hct').
      simpl. exists h'. split; [done|].
      assert (Hsame : ∀ b, b ∈ t →
                PredicateAt P (Messages h1) b = PredicateAt P (Messages h) b).
      { intros b Hb. apply PredicateAt_SameContent; [done|]. apply Hcont1. set_solver. }
      split_and!.
      * erewrite List.filter_ext_in; [exact Hc'|].
        intros b Hb. simpl. f_equal. symmetry. apply Hsame. by apply list_elem_of_In.
      * congruence.
      * intros b Hb. rewrite Hfr by set_solver. apply Hfr1. done.
      * intros b mb Hb Hmb HPb. apply elem_of_cons in Hb as [->|Hb].
        -- assert (mb = m) as -> by congruence.
           rewrite Hfr by set_solver. done.
        -- assert (b ≠ c) by set_solver.
           pose proof (Hcont1 b ltac:(done)) as Hcb. rewrite Hmb in Hcb.
           destruct (Messages h1 !! b) as [mb1|] eqn:Hmb1; [|done].
           simpl in Hcb. assert (Hcb' : Content mb1 = Content mb) by congruence.
           rewrite (Htb b mb1 Hb Hmb1); [|by rewrite (HP mb1 mb Hcb')].
           f_equal. by apply Tombstone_Content.
      * intros b Hb.
        assert (b ≠ c) as Hbc.
        { intros ->. specialize (Hb ltac:(by left)). unfold PredicateAt in Hb.
          rewrite Hm in Hb. congruence. }
        rewrite Hct'; [by apply Hcont1|].
        intros Hbt. rewrite Hsame by done. apply Hb. by right.
    + assert (Hc0 : HistoryChain h ((l1 ++ [c]) ++ t)) by (by rewrite <- app_assoc).
      destruct (IH (l1 ++ [c]) h fuel HP Hc0 Hnum ltac:(lia))
        as (h' & -> & Hc' & Hmx & Hfr & Htb & Hct').
      simpl. exists h'. split; [done|]. rewrite <- app_assoc in Hc'. simpl in Hc'.
      split_and!; try done.
      * intros b Hb. apply Hfr. rewrite <- app_assoc. done.
      * intros b mb Hb Hmb HPb. apply elem_of_cons in Hb as [->|Hb]; [congruence|].
        by apply Htb.
      * intros b Hb. apply Hct'. intros Hbt. apply Hb. by right.
Qed.

Lemma DeleteFromChatHistoryIf_chain P h l :
  (∀ m m', Content m = Content m' → P m = P m') →
  HistoryChain h l → ChatHistoryNum h <= 2147483647 →
  ∃ h', DeleteFromChatHistoryIf P h = Some (h', l)
    ∧ HistoryChain h' (List.filter (λ a, negb (PredicateAt P (Messages h) a)) l)
    ∧ ChatHistoryMax h' = ChatHistoryMax h
    ∧ (∀ b, b ∉ l → Messages h' !! b = Messages h !! b)
    ∧ (∀ b m, b ∈ l → Messages h !! b = Some m → P m = true →
              Messages h' !! b = Some (Tombstone m))
    ∧ (∀ b, (b ∈ l → PredicateAt P (Messages h) b = false) →
            Content <$> Messages h' !! b = Content <$> Messages h !! b).
Proof.
  intros HP Hc Hnum. unfold DeleteFromChatHistoryIf.
  pose proof Hc as (Hl & -> & _).
  apply (DeleteLoop_chain P l [] h); try done.
  by apply Linked_length.
Qed.

Lemma filter_all_false {A} (f : A → bool) (l : list A) :
  (∀ x, x ∈ l → f x = false) → List.filter f l = [].
Proof.
  intros Hf. induction l as [|x l IH]; simpl; [done|].
  rewrite Hf by (by left). apply IH. intros y Hy. apply Hf. by right.
Qed.


(** ** Running a method *)

Lemma Op_bind_run {A B} (x : Op A) (f : A → Op B) s :
  (x ≫= f) s =
  match x s with
  | None => None
  | Some (a, s1, e1) =>
      match f a s1 with
      | None => None
      | Some (b, s2, e2) => Some (b, s2, e1 ++ e2)
      end
  end.
Proof. reflexivity. Qed.

Ltac run_op :=
  repeat first
    [ rewrite Op_bind_run
    | progress cbn [GetState Modify Emit check Abort mret Op_ret app] ].

Section RespectsRules.
Context (R : FMixerChatConnection → FMixerChatConnection → Prop) (P : Effect → Prop).
Hypothesis R_refl : ∀ s, R s s.
Hypothesis R_trans : ∀ s1 s2 s3, R s1 s2 → R s2 s3 → R s1 s3.

Lemma Respects_ret {A} (a : A) : Respects R P (mret a).
Proof. intros s a' s' e [= <- <- <-]. auto. Qed.

Lemma Respects_bind {A B} (x : Op A) (f : A → Op B) :
  Respects R P x → (∀ a, Respects R P (f a)) → Respects R P (x ≫= f).
Proof.
  intros Hx Hf s b s' e. rewrite Op_bind_run.
  destruct (x s) as [[[a s1] e1]|] eqn:Ex; [|done].
  destruct (f a s1) as [[[b' s2] e2]|] eqn:Ef; [|done].
  intros [= <- <- <-].
  destruct (Hx _ _ _ _ Ex), (Hf _ _ _ _ _ Ef).
  split; [eauto|]. by apply Forall_app.
Qed.

Lemma Respects_GetState : Respects R P GetState.
Proof. intros s a s' e [= <- <- <-]. auto. Qed.

Lemma Respects_bind_GetState {B} (f : FMixerChatConnection → Op B) :
  (∀ s a s' e, f s s = Some (a, s', e) → R s s' ∧ Forall P e) →
  Respects R P (GetState ≫= f).
Proof.
  intros Hf s b s' e. rewrite Op_bind_run. cbn [GetState].
  destruct (f s s) as [[[b' s2] e2]|] eqn:Ef; [|done].
  intros [= <- <- <-]. eauto.
Qed.

Lemma Respects_Abort {A} : Respects R P (@Abort A).
Proof. intros s a s' e [=]. Qed.

Lemma Respects_check b : Respects R P (check b).
Proof. destruct b; [apply Respects_ret|apply Respects_Abort]. Qed.

Lemma Respects_Emit x : P x → Respects R P (Emit x).
Proof. intros Hx s a s' e [= <- <- <-]. auto. Qed.

Lemma Respects_Modify f : (∀ s, R s (f s)) → Respects R P (Modify f).
Proof. intros Hf s a s' e [= <- <- <-]. auto. Qed.

Lemma Respects_OnHistory {A} (f : FChatHistory → option (A * FChatHistory)) :
  (∀ s a h, f (History s) = Some (a, h) → R s (set_History h s)) →
  Respects R P (OnHistory f).
Proof.
  intros Hf s a s' e. unfold OnHistory.
  destruct (f (History s)) as [[a' h]|] eqn:E; [|done].
  intros [= <- <- <-]. eauto.
Qed.

Lemma Respects_OnHistory_ (f : FChatHistory → option FChatHistory) :
  (∀ s h, f (History s) = Some h → R s (set_History h s)) →
  Respects R P (OnHistory_ f).
Proof.
  intros Hf. apply Respects_OnHistory. intros s a h.
  destruct (f (History s)) as [h'|] eqn:E; simpl; [|done].
  intros [= _ <-]. eauto.
Qed.

Lemma Respects_GET_JSON {T A} TryGet JsonObj name (failure : A) (rest : T → Op A) :
  P (UE_LOG ELogVerbosity.Error (MissingRequiredField name)) →
  (∀ v, Respects R P (rest v)) →
  Respects R P (GET_JSON_FIELD_RETURN_FAILURE TryGet JsonObj name failure rest).
Proof.
  intros HP Hrest. unfold GET_JSON_FIELD_RETURN_FAILURE.
  destruct (TryGet JsonObj name); [apply Hrest|].
  apply Respects_bind; [by apply Respects_Emit|intros; apply Respects_ret].
Qed.

End RespectsRules.

(** ** Method calls and their replies *)

Lemma SendMethodPacket_run Payload Handler s ws :
  ReplyHandlers s !! MessageId s = None →
  WebSocket s = Some ws →
  SendMethodPacket Payload Handler s =
  Some (tt,
        set_MessageId (wrap32 (MessageId s + 1))
          (set_ReplyHandlers (<[MessageId s := Handler]> (ReplyHandlers s)) s),
        [WebSocket_Send Payload]).
Proof.
  intros Hfree Hws. unfold SendMethodPacket.
  run_op. rewrite bool_decide_true by done. run_op. simpl. rewrite Hws. done.
Qed.

Lemma PendingBelow_free s : PendingBelow s → ReplyHandlers s !! MessageId s = None.
Proof.
  intros Hp. destruct (ReplyHandlers s !! MessageId s) eqn:E; [|done].
  specialize (Hp (MessageId s) ltac:(by rewrite E)). lia.
Qed.

Lemma PendingBelow_send s Handler :
  PendingBelow s → InInt32 (MessageId s + 1) →
  PendingBelow (set_MessageId (wrap32 (MessageId s + 1))
                  (set_ReplyHandlers (<[MessageId s := Handler]> (ReplyHandlers s)) s)).
Proof.
  intros Hp Hr k. simpl. rewrite wrap32_id by done.
  destruct (decide (k = MessageId s)) as [->|Hk]; [lia|].
  rewrite lookup_insert_ne by done. intros Hk'. specialize (Hp k Hk'). lia.
Qed.

Section ConnectionLemmas.
Variable FGuid_Parse : string → option FGuid.
Variable IsAnonymous : FMixerChatConnection → bool.

Lemma HandleAuthReply_error JsonObj s ErrorObj :
  TryGetObjectField JsonObj FieldNames.Error = Some ErrorObj →
  HandleAuthReply JsonObj s =
  Some (false, s,
        [ConnectAttemptFinished false
           (default EmptyString (TryGetStringField ErrorObj FieldNames.Message))]).
Proof. intros H. unfold HandleAuthReply. rewrite H. by run_op. Qed.

Lemma HandleAuthReply_no_history JsonObj s :
  TryGetObjectField JsonObj FieldNames.Error = None →
  ChatHistoryMax (History s) <= 0 →
  HandleAuthReply JsonObj s =
  Some (true, set_bIsReady true s, [ConnectAttemptFinished true EmptyString]).
Proof.
  intros H Hmax. unfold HandleAuthReply. rewrite H. run_op. simpl.
  rewrite bool_decide_false by lia. by run_op.
Qed.

Lemma HandleAuthReply_history JsonObj s ws :
  TryGetObjectField JsonObj FieldNames.Error = None →
  0 < ChatHistoryMax (History s) →
  ReplyHandlers s !! MessageId s = None →
  WebSocket s = Some ws →
  HandleAuthReply JsonObj s =
  Some (true,
        set_MessageId (wrap32 (MessageId s + 1))
          (set_ReplyHandlers
             (<[MessageId s := Some Ptr_HandleHistoryReply]> (ReplyHandlers s))
             (set_bIsReady true s)),
        [WebSocket_Send
           (WriteRemoteMethodPacket MethodNames.History (MessageId s)
              [JsonNumber (Z.min (ChatHistoryMax (History s)) 100)]);
         ConnectAttemptFinished true EmptyString]).
Proof.
  intros H Hmax Hfree Hws. unfold HandleAuthReply. rewrite H. run_op. simpl.
  rewrite bool_decide_true by lia. unfold SendHistory. run_op.
  erewrite SendMethodPacket_run by done. by run_op.
Qed.

End ConnectionLemmas.


(** ** What the handlers leave alone *)

Lemma SameRouting_refl s : SameRouting s s.
Proof. by unfold SameRouting. Qed.

Lemma SameRouting_trans s1 s2 s3 :
  SameRouting s1 s2 → SameRouting s2 s3 → SameRouting s1 s3.
Proof. unfold SameRouting. intros (?&?&?&?) (?&?&?&?). split_and!; congruence. Qed.

Ltac respects_step side :=
  first
    [ apply Respects_ret; side
    | apply Respects_GetState; side
    | apply Respects_Abort
    | apply Respects_check; side
    | apply Respects_Emit; side
    | apply Respects_Modify; side
    | apply Respects_OnHistory_; side
    | apply Respects_OnHistory; side
    | apply Respects_GET_JSON; [side..|intros ?]
    | apply Respects_bind; [side..| |intros ?]
    | match goal with
      | |- Respects _ _ (match ?x with _ => _ end) => destruct x
      | |- Respects _ _ (if ?x then _ else _) => destruct x
      end ].

Ltac respects side :=
  unfold GET_JSON_STRING_RETURN_FAILURE, GET_JSON_INT_RETURN_FAILURE,
    GET_JSON_OBJECT_RETURN_FAILURE, GET_JSON_ARRAY_RETURN_FAILURE;
  repeat (respects_step side).

(** ** The handlers, for whatever the constructor of [FMixerUser] leaves in [Id] *)

Section Handlers.
Variable FMixerUser_Id : Z.

(** The handlers of events and of the history reply write the history and
    the user cache, log and notify; whatever relation and whatever property of
    effects allows that holds of them. *)
Section HandlerFrame.
Variable FGuid_Parse : string → option FGuid.
Context (R : FMixerChatConnection → FMixerChatConnection → Prop) (P : Effect → Prop).
Hypothesis R_refl : ∀ s, R s s.
Hypothesis R_trans : ∀ s1 s2 s3, R s1 s2 → R s2 s3 → R s1 s3.
Hypothesis R_history : ∀ s h, R s (set_History h s).
Hypothesis R_users : ∀ s u, R s (set_CachedUsers u s).
Hypothesis P_log : ∀ v l, P (UE_LOG v l).
Hypothesis P_join : ∀ u, P (TriggerOnChatRoomMemberJoinDelegates u).
Hypothesis P_exit : ∀ u, P (TriggerOnChatRoomMemberExitDelegates u).
Hypothesis P_private : ∀ m, P (TriggerOnChatPrivateMessageReceivedDelegates m).
Hypothesis P_room : ∀ m, P (TriggerOnChatRoomMessageReceivedDelegates m).

Ltac side := solve [eauto].

Lemma HandleChatMessageEventMessageArrayEntry_frame JsonObj ChatMessage :
  Respects R P (HandleChatMessageEventMessageArrayEntry JsonObj ChatMessage).
Proof. unfold HandleChatMessageEventMessageArrayEntry. respects side. Qed.

Lemma HandleChatMessageEventMessageFragments_frame Fragments ChatMessage :
  Respects R P (HandleChatMessageEventMessageFragments Fragments ChatMessage).
Proof.
  induction Fragments as [|F rest IH]; simpl; respects side.
  all: first [apply HandleChatMessageEventMessageArrayEntry_frame | apply IH].
Qed.

Lemma HandleChatMessageEventMessageObject_frame JsonObj ChatMessage :
  Respects R P (HandleChatMessageEventMessageObject JsonObj ChatMessage).
Proof.
  unfold HandleChatMessageEventMessageObject. respects side.
  all: try apply HandleChatMessageEventMessageFragments_frame.
Qed.

Lemma HandleChatMessageEventInternal_frame JsonObj :
  Respects R P (HandleChatMessageEventInternal FMixerUser_Id FGuid_Parse JsonObj).
Proof.
  unfold HandleChatMessageEventInternal. respects side.
  all: first [apply HandleChatMessageEventMessageObject_frame
             |apply HandleChatMessageEventMessageFragments_frame].
Qed.

Lemma HandleChatMessageEvent_frame JsonObj :
  Respects R P (HandleChatMessageEvent FMixerUser_Id FGuid_Parse JsonObj).
Proof.
  unfold HandleChatMessageEvent, ReadMessage. respects side.
  all: first [apply HandleChatMessageEventInternal_frame
             |apply HandleChatMessageEventMessageFragments_frame].
Qed.

Lemma HandleUserJoinEvent_frame JsonObj : Respects R P (HandleUserJoinEvent FMixerUser_Id JsonObj).
Proof. unfold HandleUserJoinEvent. respects side. Qed.

Lemma HandleUserLeaveEvent_frame JsonObj : Respects R P (HandleUserLeaveEvent JsonObj).
Proof. unfold HandleUserLeaveEvent. respects side. Qed.

Lemma HandleDeleteMessageEvent_frame JsonObj :
  Respects R P (HandleDeleteMessageEvent FGuid_Parse JsonObj).
Proof. unfold HandleDeleteMessageEvent. respects side. Qed.

Lemma HandleClearMessagesEvent_frame JsonObj : Respects R P (HandleClearMessagesEvent JsonObj).
Proof. unfold HandleClearMessagesEvent. respects side. Qed.

Lemma HandlePurgeMessageEvent_frame JsonObj : Respects R P (HandlePurgeMessageEvent JsonObj).
Proof. unfold HandlePurgeMessageEvent. respects side. Qed.

Lemma HandleWelcomeEvent_frame JsonObj : Respects R P (HandleWelcomeEvent JsonObj).
Proof. unfold HandleWelcomeEvent. respects side. Qed.

Lemma HandleHistoryEntries_frame Data :
  Respects R P (HandleHistoryEntries FMixerUser_Id FGuid_Parse Data).
Proof.
  induction Data as [|E rest IH]; simpl; unfold HandleHistoryEntry, ReadMessage;
    respects side.
  all: first [apply HandleChatMessageEventInternal_frame | apply IH
             |apply HandleChatMessageEventMessageFragments_frame].
Qed.

Lemma HandleHistoryReply_frame JsonObj :
  Respects R P (HandleHistoryReply FMixerUser_Id FGuid_Parse JsonObj).
Proof.
  unfold HandleHistoryReply. respects side.
  all: first [apply HandleHistoryEntries_frame
             |apply HandleChatMessageEventMessageFragments_frame].
Qed.

End HandlerFrame.

Lemma CallHandler_routing FGuid_Parse Handler JsonObj :
  Handler ≠ Ptr_HandleAuthReply →
  Respects SameRouting IsLogOrNotification (CallHandler FMixerUser_Id FGuid_Parse Handler JsonObj).
Proof.
  intros Hne.
  destruct Handler; simpl; try done;
    [ apply HandleWelcomeEvent_frame
    | apply HandleChatMessageEvent_frame
    | apply HandleUserJoinEvent_frame
    | apply HandleUserLeaveEvent_frame
    | apply HandleDeleteMessageEvent_frame
    | apply HandleClearMessagesEvent_frame
    | apply HandlePurgeMessageEvent_frame
    | apply HandleHistoryReply_frame ];
    first [ exact SameRouting_refl | exact SameRouting_trans | by intros ].
Qed.

(** What a handler does to the table of pending replies and to the id
    counter: nothing, or one [history] call issued by the auth reply. *)
Lemma CallHandler_pending FGuid_Parse Handler JsonObj s b s' e :
  CallHandler FMixerUser_Id FGuid_Parse Handler JsonObj s = Some (b, s', e) →
  (ReplyHandlers s' = ReplyHandlers s ∧ MessageId s' = MessageId s)
  ∨ (ReplyHandlers s !! MessageId s = None
     ∧ ReplyHandlers s' = <[MessageId s := Some Ptr_HandleHistoryReply]> (ReplyHandlers s)
     ∧ MessageId s' = wrap32 (MessageId s + 1)).
Proof.
  intros Hrun. destruct (decide (Handler = Ptr_HandleAuthReply)) as [->|Hne].
  - simpl in Hrun. unfold HandleAuthReply in Hrun.
    destruct (TryGetObjectField _ _).
    + revert Hrun. run_op. intros [= <- <- <-]. by left.
    + revert Hrun. run_op. simpl. case_bool_decide.
      * unfold SendHistory, SendMethodPacket. run_op. simpl.
        case_bool_decide as Hfree; run_op; [|done]. simpl.
        destruct (WebSocket s); run_op; [|done].
        intros [= <- <- <-]. right. done.
      * run_op. intros [= <- <- <-]. by left.
  - destruct (CallHandler_routing FGuid_Parse Handler JsonObj Hne _ _ _ _ Hrun)
      as [(? & ? & _) _]. by left.
Qed.


Lemma OnChatPacketInternal_reply FGuid_Parse JsonObj s k :
  TryGetStringField JsonObj FieldNames.Type_ = Some MessageTypes.Reply →
  TryGetNumberField JsonObj FieldNames.Id = Some k →
  OnChatPacketInternal FMixerUser_Id FGuid_Parse JsonObj s =
  match ReplyHandlers s !! k with
  | Some Handler =>
      let s1 := set_ReplyHandlers (delete k (ReplyHandlers s)) s in
      match Handler with
      | Some H =>
          match CallHandler FMixerUser_Id FGuid_Parse H JsonObj s1 with
          | Some (_, s', e) => Some (true, s', e)
          | None => None
          end
      | None => Some (true, s1, [])
      end
  | None => Some (false, s, [UE_LOG ELogVerbosity.Error (UnexpectedReply k)])
  end.
Proof.
  intros Ht Hk. unfold OnChatPacketInternal, GET_JSON_STRING_RETURN_FAILURE,
    GET_JSON_INT_RETURN_FAILURE, GET_JSON_FIELD_RETURN_FAILURE.
  rewrite Ht. simpl. rewrite Hk. run_op.
  destruct (ReplyHandlers s !! k) as [[H|]|]; run_op; try done.
  simpl. destruct (CallHandler _ _ _ _ _) as [[[b s'] e]|]; [|done].
  run_op. by rewrite !app_nil_r.
Qed.



(** ** Chat message events *)

Lemma JoinsOf_app e1 e2 : JoinsOf (e1 ++ e2) = JoinsOf e1 ++ JoinsOf e2.
Proof. unfold JoinsOf. apply omap_app. Qed.

Lemma JoinsOf_nil e : Forall IsNoJoin e → JoinsOf e = [].
Proof.
  induction 1 as [|x e Hx _ IH]; [done|].
  destruct x; try done; apply IH.
Qed.

Lemma IsLogLine_IsNoJoin e : Forall IsLogLine e → Forall IsNoJoin e.
Proof. intros H. eapply Forall_impl; [exact H|]. by intros []. Qed.

Lemma UpdMessage_last h ms m f :
  Messages h = ms ++ [m] →
  UpdMessage (length ms) f h = Some (set_Messages (ms ++ [f m]) h).
Proof.
  intros Hm. unfold UpdMessage. rewrite Hm.
  rewrite lookup_app_r by lia. rewrite Nat.sub_diag. simpl.
  rewrite insert_app_r_alt by lia. by rewrite Nat.sub_diag.
Qed.

Lemma OnHistory_UpdMessage_last s ms m f :
  Messages (History s) = ms ++ [m] →
  OnHistory_ (UpdMessage (length ms) f) s = Some (tt, WithLast ms (f m) s, []).
Proof.
  intros Hm. unfold OnHistory_, OnHistory. by rewrite (UpdMessage_last _ _ _ _ Hm).
Qed.

Lemma WithLast_WithLast ms m m' s : WithLast ms m' (WithLast ms m s) = WithLast ms m' s.
Proof. done. Qed.

Lemma WithLast_id ms m s : Messages (History s) = ms ++ [m] → WithLast ms m s = s.
Proof. intros H. destruct s as [[]]. simpl in *. unfold WithLast. simpl. by rewrite H. Qed.

Lemma HandleChatMessageEventMessageArrayEntry_run JsonObj s ms m :
  Messages (History s) = ms ++ [m] →
  ∃ b e, HandleChatMessageEventMessageArrayEntry JsonObj (length ms) s =
           Some (b, WithLast ms (AppendFragment m (JsonObject JsonObj)) s, e)
         ∧ Forall IsLogLine e.
Proof.
  intros Hm. unfold HandleChatMessageEventMessageArrayEntry, AppendFragment,
    GET_JSON_STRING_RETURN_FAILURE, GET_JSON_FIELD_RETURN_FAILURE. simpl.
  destruct (TryGetStringField JsonObj FieldNames.Type_).
  - destruct (TryGetStringField JsonObj FieldNames.Text).
    + run_op. rewrite (OnHistory_UpdMessage_last _ _ _ _ Hm). run_op.
      eexists _, _. split; [reflexivity|]. constructor.
    + run_op. rewrite (WithLast_id _ _ _ Hm). eexists _, _. split; [reflexivity|].
      by repeat constructor.
  - run_op. rewrite (WithLast_id _ _ _ Hm). eexists _, _. split; [reflexivity|].
    by repeat constructor.
Qed.

Lemma HandleChatMessageEventMessageFragments_run Fragments : ∀ s ms m,
  Messages (History s) = ms ++ [m] →
  ∃ e, HandleChatMessageEventMessageFragments Fragments (length ms) s =
         Some (tt, WithLast ms (foldl AppendFragment m Fragments) s, e)
       ∧ Forall IsLogLine e.
Proof.
  induction Fragments as [|F rest IH]; intros s ms m Hm; simpl.
  - rewrite (WithLast_id _ _ _ Hm). by eexists.
  - run_op.
    assert (∃ e1, (match TryGetObject F with
                   | Some FragmentObj =>
                       HandleChatMessageEventMessageArrayEntry FragmentObj (length ms)
                         ≫= (λ _, mret tt)
                   | None => mret tt
                   end) s = Some (tt, WithLast ms (AppendFragment m F) s, e1)
                  ∧ Forall IsLogLine e1) as (e1 & -> & He1).
    { unfold AppendFragment at 1. destruct F; simpl;
        try (rewrite (WithLast_id _ _ _ Hm); by eexists).
      destruct (HandleChatMessageEventMessageArrayEntry_run fields s ms m Hm)
        as (b & e & Hrun & He).
      run_op. rewrite Hrun. run_op. rewrite app_nil_r.
      unfold AppendFragment in *. simpl in *. by eexists. }
    destruct (IH (WithLast ms (AppendFragment m F) s) ms (AppendFragment m F))
      as (e2 & -> & He2); [done|].
    eexists. split; [reflexivity|]. by apply Forall_app.
Qed.

Lemma HandleChatMessageEventMessageObject_run JsonObj s ms m0 :
  Messages (History s) = ms ++ [m0] →
  ∃ e, HandleChatMessageEventMessageObject JsonObj (length ms) s =
         Some (bool_decide (is_Some (TryGetArrayField JsonObj FieldNames.Message)),
               WithLast ms (ParsedChatMessage JsonObj m0) s, e)
       ∧ Forall IsLogLine e
       ∧ (TryGetArrayField JsonObj FieldNames.Message = None →
          e = [UE_LOG ELogVerbosity.Error (MissingRequiredField FieldNames.Message)]).
Proof.
  intros Hm. unfold HandleChatMessageEventMessageObject, ParsedChatMessage,
    GET_JSON_ARRAY_RETURN_FAILURE, GET_JSON_FIELD_RETURN_FAILURE.
  destruct (TryGetArrayField JsonObj FieldNames.Message) as [arr|].
  - run_op.
    destruct (HandleChatMessageEventMessageFragments_run arr s ms m0 Hm) as (e1 & -> & He1).
    fold (MetaFlags JsonObj). destruct (MetaFlags JsonObj) as [w a]. simpl.
    set (m1 := foldl AppendFragment m0 arr).
    run_op.
    assert (Hm1 : Messages (History (WithLast ms m1 s)) = ms ++ [m1]) by done.
    destruct w.
    + rewrite (OnHistory_UpdMessage_last _ _ _ _ Hm1). rewrite WithLast_WithLast.
      assert (Hm2 : Messages (History (WithLast ms (FlagAsWhisper m1) s))
                    = ms ++ [FlagAsWhisper m1]) by done.
      destruct a; run_op.
      * rewrite (OnHistory_UpdMessage_last _ _ _ _ Hm2).
        rewrite WithLast_WithLast. run_op.
        eexists. split; [reflexivity|]. rewrite !app_nil_r. by split.
      * eexists. split; [reflexivity|]. rewrite !app_nil_r. by split.
    + run_op. destruct a; run_op.
      * rewrite (OnHistory_UpdMessage_last _ _ _ _ Hm1).
        rewrite WithLast_WithLast. run_op.
        eexists. split; [reflexivity|]. rewrite !app_nil_r. by split.
      * eexists. split; [reflexivity|]. rewrite !app_nil_r. by split.
  - run_op. rewrite (WithLast_id _ _ _ Hm). eexists. split; [reflexivity|].
    split; [by repeat constructor|done].
Qed.

Lemma ChatMessageFields_Some FGuid_Parse JsonObj name uid msgj mid :
  ChatMessageFields FGuid_Parse JsonObj = Some (name, uid, msgj, mid) →
  ∃ ids,
    TryGetStringField JsonObj FieldNames.UserNameWithUnderscore = Some name
    ∧ TryGetNumberField JsonObj FieldNames.UserId = Some uid
    ∧ TryGetObjectField JsonObj FieldNames.Message = Some msgj
    ∧ TryGetStringField JsonObj FieldNames.Id = Some ids
    ∧ FGuid_Parse ids = Some mid.
Proof.
  unfold ChatMessageFields.
  destruct (TryGetStringField JsonObj FieldNames.UserNameWithUnderscore); [|done].
  destruct (TryGetNumberField JsonObj FieldNames.UserId); [|done].
  destruct (TryGetObjectField JsonObj FieldNames.Message); [|done].
  destruct (TryGetStringField JsonObj FieldNames.Id) as [ids|]; [|done].
  simpl. destruct (FGuid_Parse ids) eqn:E; [|done]. simpl.
  intros [= <- <- <- <-]. eauto 10.
Qed.

Lemma HandleChatMessageEventInternal_fields_missing FGuid_Parse JsonObj s :
  ChatMessageFields FGuid_Parse JsonObj = None →
  ∃ l, HandleChatMessageEventInternal FMixerUser_Id FGuid_Parse JsonObj s =
         Some ((false, None), s, [UE_LOG ELogVerbosity.Error l]).
Proof.
  unfold ChatMessageFields, HandleChatMessageEventInternal,
    GET_JSON_STRING_RETURN_FAILURE, GET_JSON_INT_RETURN_FAILURE,
    GET_JSON_OBJECT_RETURN_FAILURE, GET_JSON_FIELD_RETURN_FAILURE.
  destruct (TryGetStringField JsonObj FieldNames.UserNameWithUnderscore);
    [|intros _; run_op; by eexists].
  destruct (TryGetNumberField JsonObj FieldNames.UserId); [|intros _; run_op; by eexists].
  destruct (TryGetObjectField JsonObj FieldNames.Message); [|intros _; run_op; by eexists].
  destruct (TryGetStringField JsonObj FieldNames.Id) as [ids|];
    [|intros _; run_op; by eexists].
  simpl. destruct (FGuid_Parse ids); [done|]. intros _. run_op. by eexists.
Qed.

Lemma UsersAfterSighting_lookup Users name uid lvl :
  ∃ u : FMixerChatUser,
    UsersAfterSighting FMixerUser_Id Users name uid lvl !! uid = Some u
    ∧ (Users !! uid = None → Id u = uid ∧ Name u = name).
Proof.
  unfold UsersAfterSighting.
  destruct (Users !! uid) as [u0|] eqn:E; destruct lvl as [l|].
  - exists (set_Level l u0). rewrite lookup_alter_eq, E. done.
  - exists u0. done.
  - eexists. rewrite lookup_alter_eq, lookup_insert_eq. simpl. done.
  - eexists. rewrite lookup_insert_eq. done.
Qed.


Lemma HandleChatMessageEventInternal_run FGuid_Parse JsonObj s name uid msgj mid :
  ChatMessageFields FGuid_Parse JsonObj = Some (name, uid, msgj, mid) →
  ∃ u e,
    UsersAfterSighting FMixerUser_Id (CachedUsers s) name uid
      (TryGetNumberField JsonObj FieldNames.UserLevel) !! uid = Some u
    ∧ HandleChatMessageEventInternal FMixerUser_Id FGuid_Parse JsonObj s =
        Some ((bool_decide (is_Some (TryGetArrayField msgj FieldNames.Message)),
               Some (length (Messages (History s)))),
              WithLast (Messages (History s))
                (ParsedChatMessage msgj (NewChatMessage mid u))
                (set_CachedUsers
                   (UsersAfterSighting FMixerUser_Id (CachedUsers s) name uid
                      (TryGetNumberField JsonObj FieldNames.UserLevel)) s),
              e)
    ∧ JoinsOf e = match CachedUsers s !! uid with Some _ => [] | None => [GetUniqueNetId u] end
    ∧ Forall (λ x, IsLogLine x ∨ x = TriggerOnChatRoomMemberJoinDelegates (GetUniqueNetId u)) e
    ∧ (TryGetArrayField msgj FieldNames.Message = None → ErrorsOf e ≠ []).
Proof.
  intros (ids & Hn & Hu & Hmj & Hid & Hp)%ChatMessageFields_Some.
  assert (Htail : ∀ (bJoin : bool) (su : FMixerChatConnection) (u : FMixerChatUser),
    CachedUsers su !! uid = Some u →
    ∃ e, (match CachedUsers su !! uid with
           | Some FromUserObject =>
               (if bJoin
                then Emit (UE_LOG ELogVerbosity.Log (IsJoining (Name FromUserObject)))
                       ≫= λ _ : (), Emit (TriggerOnChatRoomMemberJoinDelegates (GetUniqueNetId FromUserObject))
                else mret ())
               ≫= λ _ : (),
                 OnHistory (λ h : FChatHistory,
                              Some (MakeShared (NewChatMessage mid FromUserObject) h))
                 ≫= λ OutChatMessage : nat,
                   HandleChatMessageEventMessageObject msgj OutChatMessage
                   ≫= λ bHandled : bool, mret (bHandled, Some OutChatMessage)
           | None => Abort
           end) su
         = Some ((bool_decide (is_Some (TryGetArrayField msgj FieldNames.Message)),
                  Some (length (Messages (History su)))),
                 WithLast (Messages (History su))
                   (ParsedChatMessage msgj (NewChatMessage mid u)) su, e)
      ∧ JoinsOf e = (if bJoin then [GetUniqueNetId u] else [])
      ∧ Forall (λ x, IsLogLine x ∨ x = TriggerOnChatRoomMemberJoinDelegates (GetUniqueNetId u)) e
      ∧ (TryGetArrayField msgj FieldNames.Message = None → ErrorsOf e ≠ [])).
  { intros bJoin su u Hlk.
    set (ms := Messages (History su)).
    set (m0 := NewChatMessage mid u).
    set (s_a := set_History (set_Messages (ms ++ [m0]) (History su)) su).
    destruct (HandleChatMessageEventMessageObject_run msgj s_a ms m0 eq_refl)
      as (e3 & Hrun & He3 & Herr).
    assert (Hfin : WithLast ms (ParsedChatMessage msgj m0) s_a
                   = WithLast ms (ParsedChatMessage msgj m0) su) by done.
    rewrite Hfin in Hrun. clear Hfin.
    rewrite Hlk.
    assert (Hj3 : JoinsOf e3 = []) by (by apply JoinsOf_nil, IsLogLine_IsNoJoin).
    destruct bJoin; run_op; unfold OnHistory at 1; simpl; fold ms m0;
      change (set_History (set_Messages (ms ++ [m0]) (History su)) su) with s_a;
      run_op; rewrite Hrun; run_op; rewrite ?app_nil_r;
      (eexists; split; [reflexivity|]); split_and!;
      first [ by (match goal with
                  | |- JoinsOf (?a :: ?b :: e3) = _ =>
                      change (JoinsOf ([a; b] ++ e3) = [GetUniqueNetId u])
                  end; rewrite JoinsOf_app, Hj3)
            | done
            | by (repeat (apply Forall_cons; split; [by (left + right)|]);
                  eapply Forall_impl; [exact He3|]; auto)
            | by (intros Hnone; rewrite (Herr Hnone)) ]. }
  unfold HandleChatMessageEventInternal,
    GET_JSON_STRING_RETURN_FAILURE, GET_JSON_INT_RETURN_FAILURE,
    GET_JSON_OBJECT_RETURN_FAILURE, GET_JSON_FIELD_RETURN_FAILURE.
  rewrite Hn, Hu, Hmj, Hid, Hp.
  unfold UsersAfterSighting.
  destruct (CachedUsers s !! uid) as [u0|] eqn:Ecached;
    destruct (TryGetNumberField JsonObj FieldNames.UserLevel) as [lvl|] eqn:Elvl;
    run_op; rewrite ?Ecached; run_op; simpl.
  - destruct (Htail false (set_CachedUsers (alter (set_Level lvl) uid (CachedUsers s)) s)
                (set_Level lvl u0)) as (e & Hrun & Hj & Hf & He).
    { simpl. by rewrite lookup_alter_eq, Ecached. }
    exists (set_Level lvl u0), e. split; [by rewrite lookup_alter_eq, Ecached|].
    split; [|done]. simpl in Hrun. by rewrite Hrun.
  - destruct (Htail false s u0) as (e & Hrun & Hj & Hf & He); [done|].
    exists u0, (UE_LOG ELogVerbosity.Warning MissingUserLevel :: e).
    split; [done|]. split; [by rewrite Hrun; destruct s|].
    split_and!; first [done | by constructor; [left|]
                      | by (intros Hnone; specialize (He Hnone)) ].
  - set (users' := alter (set_Level lvl) uid
                     (<[uid:=(NewChatUser FMixerUser_Id name uid)]> (CachedUsers s))).
    destruct (Htail true (set_CachedUsers users' s)
                (set_Level lvl (NewChatUser FMixerUser_Id name uid)))
      as (e & Hrun & Hj & Hf & He).
    { simpl. unfold users'. by rewrite lookup_alter_eq, lookup_insert_eq. }
    eexists _, e. split; [unfold users'; by rewrite lookup_alter_eq, lookup_insert_eq|].
    split; [|done]. simpl in Hrun.
    change (set_CachedUsers users' (set_CachedUsers _ s)) with (set_CachedUsers users' s).
    by rewrite Hrun.
  - set (users' := <[uid:=(NewChatUser FMixerUser_Id name uid)]> (CachedUsers s)).
    destruct (Htail true (set_CachedUsers users' s)
                (NewChatUser FMixerUser_Id name uid))
      as (e & Hrun & Hj & Hf & He).
    { simpl. unfold users'. by rewrite lookup_insert_eq. }
    eexists _, (UE_LOG ELogVerbosity.Warning MissingUserLevel :: e).
    split; [unfold users'; by rewrite lookup_insert_eq|].
    split; [simpl in Hrun; by rewrite Hrun|].
    split_and!; first [done | by constructor; [left|]
                      | by (intros Hnone; specialize (He Hnone)) ].
Qed.


(** ** Members joining and leaving *)

Lemma SameUsers_refl s : SameUsers s s.
Proof. done. Qed.

Lemma SameUsers_trans s1 s2 s3 : SameUsers s1 s2 → SameUsers s2 s3 → SameUsers s1 s3.
Proof. unfold SameUsers. congruence. Qed.


(** What [HandleChatMessageEvent] does after [HandleChatMessageEventInternal]
    keeps the user cache and notifies of no member. *)
Lemma HandleChatMessageEvent_after_internal (r : bool * option nat) :
  Respects SameUsers IsNoJoin
    (let '(bHandled, ChatMessage) := r in
     (if bHandled then
        match ChatMessage with
        | None => Abort
        | Some ChatMessage =>
            m ← ReadMessage ChatMessage;
            if IsWhisper (m : FChatMessageMixerImpl) then
              Emit (UE_LOG ELogVerbosity.Verbose
                      (PrivateMessageFrom (GetNickname m) (GetBody m)));;
              Emit (TriggerOnChatPrivateMessageReceivedDelegates ChatMessage)
            else
              Emit (UE_LOG ELogVerbosity.Verbose
                      (ChatMessageFrom (GetNickname m) (GetBody m)));;
              OnHistory_ (AddMessageToChatHistory ChatMessage);;
              Emit (TriggerOnChatRoomMessageReceivedDelegates ChatMessage)
        end
      else mret tt);;
     mret bHandled).
Proof.
  destruct r as [b om]. unfold ReadMessage.
  respects ltac:(first [ exact SameUsers_refl | exact SameUsers_trans
                       | exact I | by intros ]).
Qed.

Lemma HandleChatMessageEvent_users FGuid_Parse JsonObj s s' e :
  HandleChatMessageEvent FMixerUser_Id FGuid_Parse JsonObj s = Some (true, s', e) →
  ∃ name uid msgj mid u,
    ChatMessageFields FGuid_Parse JsonObj = Some (name, uid, msgj, mid)
    ∧ CachedUsers s' = UsersAfterSighting FMixerUser_Id (CachedUsers s) name uid
                         (TryGetNumberField JsonObj FieldNames.UserLevel)
    ∧ CachedUsers s' !! uid = Some u
    ∧ JoinsOf e = match CachedUsers s !! uid with Some _ => [] | None => [GetUniqueNetId u] end.
Proof.
  unfold HandleChatMessageEvent. rewrite Op_bind_run.
  destruct (ChatMessageFields FGuid_Parse JsonObj) as [[[[name uid] msgj] mid]|] eqn:Hf.
  - destruct (HandleChatMessageEventInternal_run _ _ s _ _ _ _ Hf)
      as (u & e1 & Hlk & -> & Hj & _).
    match goal with
    | |- match ?o ?st with _ => _ end = _ → _ =>
        destruct (o st) as [[[b s2] e2]|] eqn:Etail; [|done]
    end.
    intros [= -> <- <-].
    destruct (HandleChatMessageEvent_after_internal
                (bool_decide (is_Some (TryGetArrayField msgj FieldNames.Message)),
                 Some (length (Messages (History s)))) _ _ _ _ Etail) as [Hsame Hnj].
    exists name, uid, msgj, mid, u. split; [done|].
    unfold SameUsers in Hsame. simpl in Hsame.
    rewrite Hsame. split_and!; try done.
    rewrite JoinsOf_app, Hj, (JoinsOf_nil _ Hnj). by rewrite app_nil_r.
  - destruct (HandleChatMessageEventInternal_fields_missing _ _ s Hf) as (l & ->).
    run_op. done.
Qed.

Lemma HandleUserJoinEvent_run JsonObj s :
  HandleUserJoinEvent FMixerUser_Id JsonObj s =
  match TryGetNumberField JsonObj FieldNames.Id with
  | None =>
      Some (false, s, [UE_LOG ELogVerbosity.Error (MissingRequiredField FieldNames.Id)])
  | Some uid =>
      match CachedUsers s !! uid with
      | Some _ => Some (true, s, [])
      | None =>
          match TryGetStringField JsonObj FieldNames.UserNameNoUnderscore with
          | None =>
              Some (false, s,
                    [UE_LOG ELogVerbosity.Error
                       (MissingRequiredField FieldNames.UserNameNoUnderscore)])
          | Some name =>
              let u := NewChatUser FMixerUser_Id name uid in
              Some (true, set_CachedUsers (<[uid := u]> (CachedUsers s)) s,
                    [UE_LOG ELogVerbosity.Log (IsJoining name);
                     TriggerOnChatRoomMemberJoinDelegates (GetUniqueNetId u)])
          end
      end
  end.
Proof.
  unfold HandleUserJoinEvent, GET_JSON_INT_RETURN_FAILURE, GET_JSON_STRING_RETURN_FAILURE,
    GET_JSON_FIELD_RETURN_FAILURE.
  destruct (TryGetNumberField JsonObj FieldNames.Id) as [uid|]; run_op; [|done].
  destruct (CachedUsers s !! uid); run_op; [done|].
  destruct (TryGetStringField JsonObj FieldNames.UserNameNoUnderscore); by run_op.
Qed.

Lemma HandleUserLeaveEvent_run JsonObj s :
  HandleUserLeaveEvent JsonObj s =
  match TryGetNumberField JsonObj FieldNames.Id with
  | None =>
      Some (false, s, [UE_LOG ELogVerbosity.Error (MissingRequiredField FieldNames.Id)])
  | Some uid =>
      match (CachedUsers s !! uid : option FMixerChatUser) with
      | Some u =>
          Some (true, set_CachedUsers (delete uid (CachedUsers s)) s,
                [UE_LOG ELogVerbosity.Log (IsExiting (Name u));
                 TriggerOnChatRoomMemberExitDelegates (GetUniqueNetId u)])
      | None => Some (true, s, [])
      end
  end.
Proof.
  unfold HandleUserLeaveEvent, GET_JSON_INT_RETURN_FAILURE, GET_JSON_FIELD_RETURN_FAILURE.
  destruct (TryGetNumberField JsonObj FieldNames.Id) as [uid|]; run_op; [|done].
  destruct (CachedUsers s !! uid); by run_op.
Qed.


(** ** Frames that fail *)

Lemma ReturnsOnly_ret {A} (v : A) : ReturnsOnly v (mret v).
Proof. by intros s a s' e [= <- _ _]. Qed.

Lemma ReturnsOnly_bind {A B} (v : B) (x : Op A) (f : A → Op B) :
  (∀ a, ReturnsOnly v (f a)) → ReturnsOnly v (x ≫= f).
Proof.
  intros Hf s b s' e. rewrite Op_bind_run.
  destruct (x s) as [[[a s1] e1]|]; [|done].
  destruct (f a s1) as [[[b' s2] e2]|] eqn:Ef; [|done].
  intros [= <- _ _]. by eapply Hf.
Qed.

Lemma OnChatPacketInternal_event FGuid_Parse JsonObj s ev d :
  TryGetStringField JsonObj FieldNames.Type_ = Some MessageTypes.Event →
  TryGetStringField JsonObj FieldNames.Event = Some ev →
  TryGetObjectField JsonObj FieldNames.Data = Some d →
  OnChatPacketInternal FMixerUser_Id FGuid_Parse JsonObj s =
  match GetEventHandler ev with
  | Some H =>
      match CallHandler FMixerUser_Id FGuid_Parse H d s with
      | Some (_, s', e) => Some (true, s', e)
      | None => None
      end
  | None => Some (false, s, [UE_LOG ELogVerbosity.Warning (EventTypeNotHandled ev)])
  end.
Proof.
  intros Ht He Hd. unfold OnChatPacketInternal, GET_JSON_STRING_RETURN_FAILURE,
    GET_JSON_OBJECT_RETURN_FAILURE, GET_JSON_FIELD_RETURN_FAILURE.
  rewrite Ht. simpl. rewrite He, Hd.
  destruct (GetEventHandler ev) as [H|]; run_op; [|done].
  destruct (CallHandler _ _ _ _ _) as [[[b s'] e]|]; [|done].
  run_op. by rewrite app_nil_r.
Qed.

Lemma OnChatPacketInternal_false FGuid_Parse JsonObj s s' e :
  OnChatPacketInternal FMixerUser_Id FGuid_Parse JsonObj s = Some (false, s', e) →
  s' = s ∧ Forall IsLogLine e.
Proof.
  unfold OnChatPacketInternal, GET_JSON_STRING_RETURN_FAILURE,
    GET_JSON_INT_RETURN_FAILURE, GET_JSON_OBJECT_RETURN_FAILURE,
    GET_JSON_FIELD_RETURN_FAILURE.
  destruct (TryGetStringField JsonObj FieldNames.Type_) as [mt|];
    [|run_op; intros [= <- <-]; by repeat constructor].
  destruct (String.eqb mt MessageTypes.Reply).
  - destruct (TryGetNumberField JsonObj FieldNames.Id) as [k|];
      [|run_op; intros [= <- <-]; by repeat constructor].
    run_op. destruct (ReplyHandlers s !! k) as [[H|]|]; run_op.
    + simpl. destruct (CallHandler _ _ _ _ _) as [[[b s1] e1]|]; run_op; done.
    + done.
    + intros [= <- <-]; by repeat constructor.
  - destruct (String.eqb mt MessageTypes.Event); [|intros [= <- <-]; by repeat constructor].
    destruct (TryGetStringField JsonObj FieldNames.Event) as [ev|];
      [|run_op; intros [= <- <-]; by repeat constructor].
    destruct (TryGetObjectField JsonObj FieldNames.Data) as [d|];
      [|run_op; intros [= <- <-]; by repeat constructor].
    destruct (GetEventHandler ev) as [H|]; run_op.
    + destruct (CallHandler _ _ _ _ _) as [[[b s1] e1]|]; run_op; done.
    + intros [= <- <-]; by repeat constructor.
Qed.

Lemma SameHistory_refl s : SameHistory s s.
Proof. unfold SameHistory. split_and!; done. Qed.

Lemma HandleDeleteMessageEvent_false FGuid_Parse JsonObj s s' e :
  HandleDeleteMessageEvent FGuid_Parse JsonObj s = Some (false, s', e) →
  s' = s ∧ ErrorsOf e ≠ [].
Proof.
  unfold HandleDeleteMessageEvent, GET_JSON_STRING_RETURN_FAILURE,
    GET_JSON_FIELD_RETURN_FAILURE.
  destruct (TryGetStringField JsonObj FieldNames.Id) as [ids|];
    [|run_op; by intros [= <- <-]].
  destruct (FGuid_Parse ids); [|run_op; by intros [= <- <-]].
  intros Hrun. by apply (ReturnsOnly_bind true _ _ (λ _, ReturnsOnly_ret true)) in Hrun.
Qed.

Lemma HandlePurgeMessageEvent_false JsonObj s s' e :
  HandlePurgeMessageEvent JsonObj s = Some (false, s', e) →
  s' = s ∧ ErrorsOf e ≠ [].
Proof.
  unfold HandlePurgeMessageEvent, GET_JSON_INT_RETURN_FAILURE,
    GET_JSON_FIELD_RETURN_FAILURE.
  destruct (TryGetNumberField JsonObj FieldNames.UserId);
    [|run_op; by intros [= <- <-]].
  intros Hrun. by apply (ReturnsOnly_bind true _ _ (λ _, ReturnsOnly_ret true)) in Hrun.
Qed.

Lemma HandleClearMessagesEvent_true JsonObj : ReturnsOnly true (HandleClearMessagesEvent JsonObj).
Proof.
  unfold HandleClearMessagesEvent.
  repeat (apply ReturnsOnly_bind; intros ?). apply ReturnsOnly_ret.
Qed.

Lemma HandleHistoryReply_false FGuid_Parse JsonObj s s' e :
  HandleHistoryReply FMixerUser_Id FGuid_Parse JsonObj s = Some (false, s', e) →
  s' = s ∧ ErrorsOf e ≠ [].
Proof.
  unfold HandleHistoryReply, GET_JSON_ARRAY_RETURN_FAILURE, GET_JSON_FIELD_RETURN_FAILURE.
  destruct (TryGetArrayField JsonObj FieldNames.Data);
    [|run_op; by intros [= <- <-]].
  intros Hrun. exfalso. revert Hrun.
  assert (H : ∀ o : Op bool, ReturnsOnly true o → o s = Some (false, s', e) → False).
  { intros o Ho Hrun. by apply Ho in Hrun. }
  apply H. repeat (apply ReturnsOnly_bind; intros ?). apply ReturnsOnly_ret.
Qed.

Lemma HandleChatMessageEvent_false FGuid_Parse JsonObj s s' e :
  HandleChatMessageEvent FMixerUser_Id FGuid_Parse JsonObj s = Some (false, s', e) →
  ErrorsOf e ≠ [] ∧ SameHistory s s'
  ∧ (s' = s
     ∨ ∃ name uid msgj mid,
         ChatMessageFields FGuid_Parse JsonObj = Some (name, uid, msgj, mid)
         ∧ TryGetArrayField msgj FieldNames.Message = None
         ∧ CachedUsers s' = UsersAfterSighting FMixerUser_Id (CachedUsers s) name uid
                              (TryGetNumberField JsonObj FieldNames.UserLevel)).
Proof.
  unfold HandleChatMessageEvent. rewrite Op_bind_run.
  destruct (ChatMessageFields FGuid_Parse JsonObj) as [[[[name uid] msgj] mid]|] eqn:Hf.
  - destruct (HandleChatMessageEventInternal_run _ _ s _ _ _ _ Hf)
      as (u & e1 & Hlk & -> & Hj & _ & Herr).
    destruct (TryGetArrayField msgj FieldNames.Message) as [arr|] eqn:Harr.
    + rewrite bool_decide_true by eauto.
      match goal with
      | |- match ?o ?st with _ => _ end = _ → _ =>
          destruct (o st) as [[[b s2] e2]|] eqn:Etail; [|done]
      end.
      intros [= -> <- <-]. exfalso. revert Etail.
      assert (H : ∀ o : Op bool, ReturnsOnly true o → ∀ st, o st = Some (false, s2, e2) → False).
      { intros o Ho st Hrun. by apply Ho in Hrun. }
      apply H. repeat (apply ReturnsOnly_bind; intros ?). apply ReturnsOnly_ret.
    + rewrite bool_decide_false by (by intros []). run_op. intros [= <- <-].
      rewrite app_nil_r. split; [by apply Herr|]. split.
      * unfold SameHistory. simpl. split_and!; try done. by apply prefix_app_r.
      * right. by exists name, uid, msgj, mid.
  - destruct (HandleChatMessageEventInternal_fields_missing _ _ s Hf) as (l & ->).
    run_op. intros [= <- <-]. split; [done|]. split; [apply SameHistory_refl|by left].
Qed.

(** ** The history reply *)

Lemma foldl_AppendFragment_props m0 arr :
  let m := foldl AppendFragment m0 arr in
  GetMessageId m = GetMessageId m0 ∧ NextLink m = NextLink m0
  ∧ PrevLink m = PrevLink m0 ∧ IsWhisper m = IsWhisper m0.
Proof.
  revert m0. induction arr as [|F arr IH]; intros m0; simpl; [done|].
  destruct (IH (AppendFragment m0 F)) as (-> & -> & -> & ->).
  unfold AppendFragment. destruct (TryGetObject F); [|done].
  destruct (TryGetStringField _ _); [|done]. by destruct (TryGetStringField _ _).
Qed.

Lemma ParsedChatMessage_props JsonObj m0 :
  let m := ParsedChatMessage JsonObj m0 in
  GetMessageId m = GetMessageId m0 ∧ NextLink m = NextLink m0
  ∧ PrevLink m = PrevLink m0
  ∧ (is_Some (TryGetArrayField JsonObj FieldNames.Message) →
     IsWhisper m = IsWhisper m0 || (MetaFlags JsonObj).1).
Proof.
  unfold ParsedChatMessage.
  destruct (TryGetArrayField JsonObj FieldNames.Message) as [arr|]; simpl.
  - destruct (foldl_AppendFragment_props m0 arr) as (H1 & H2 & H3 & H4).
    destruct (MetaFlags JsonObj) as [w a]. simpl.
    destruct w, a; unfold FlagAsAction; simpl;
      try destruct (IsAction _); simpl; rewrite ?H1, ?H2, ?H3, ?H4, ?orb_true_r, ?orb_false_r;
      done.
  - split_and!; done.
Qed.

Lemma ReadMessage_run p s m :
  Messages (History s) !! p = Some m → ReadMessage p s = Some (m, s, []).
Proof.
  intros H. unfold ReadMessage, OnHistory. rewrite H. simpl. by destruct s.
Qed.

Lemma HistoryChain_extend h l m :
  HistoryChain h l → HistoryChain (set_Messages (Messages h ++ [m]) h) l.
Proof.
  intros ([Hnd Hs] & ? & ? & ?). unfold HistoryChain, Linked. simpl. split_and!; try done.
  eapply Seg_frame; [|exact Hs]. intros a Ha. apply lookup_app_l.
  eapply Seg_lt; eauto.
Qed.

Lemma HistoryChain_lt h l a : HistoryChain h l → a ∈ l → (a < length (Messages h))%nat.
Proof. intros ([_ Hs] & _) Ha. eapply Seg_lt; eauto. Qed.

(** One history entry: the message it reports, if any, is made at the end of
    the arena and pushed; the rest of the arena keeps its contents, and
    keeps its links outside the chain. *)
Lemma HandleHistoryEntry_run FGuid_Parse x s l :
  HistoryChain (History s) l →
  ChatHistoryNum (History s) <= ChatHistoryMax (History s) →
  ChatHistoryMax (History s) < 2147483647 →
  (∀ id w, ReportedMessage FGuid_Parse x = Some (id, w) → w = false) →
  ∃ s1 e1,
    HandleHistoryEntry FMixerUser_Id FGuid_Parse x s = Some (tt, s1, e1)
    ∧ ChatHistoryMax (History s1) = ChatHistoryMax (History s)
    ∧ (length (Messages (History s)) <= length (Messages (History s1)))%nat
    ∧ (∀ b, (b < length (Messages (History s)))%nat →
            Content <$> Messages (History s1) !! b = Content <$> Messages (History s) !! b)
    ∧ (∀ b, (b < length (Messages (History s)))%nat → b ∉ l →
            Messages (History s1) !! b = Messages (History s) !! b)
    ∧ match ReportedMessage FGuid_Parse x with
      | Some (id, _) =>
          HistoryChain (History s1)
            (take (Z.to_nat (ChatHistoryMax (History s)))
                  (length (Messages (History s)) :: l))
          ∧ length (Messages (History s1)) = S (length (Messages (History s)))
          ∧ ∃ m, Messages (History s1) !! length (Messages (History s)) = Some m
                 ∧ GetMessageId m = id
      | None => HistoryChain (History s1) l
      end.
Proof.
  intros Hc Hle Hmax Hnw. unfold HandleHistoryEntry, ReportedMessage in *.
  rewrite Op_bind_run.
  destruct (ChatMessageFields FGuid_Parse (AsObject x)) as [[[[name uid] msgj] mid]|] eqn:Hf.
  - destruct (HandleChatMessageEventInternal_run _ _ s _ _ _ _ Hf)
      as (u & e1 & Hlk & -> & _).
    set (ms := Messages (History s)) in *.
    set (m' := ParsedChatMessage msgj (NewChatMessage mid u)).
    set (s1 := WithLast ms m' _).
    assert (Hc1 : HistoryChain (History s1) l).
    { change (History s1) with (set_Messages (Messages (History s) ++ [m']) (History s)).
      by apply HistoryChain_extend. }
    assert (Hpre : ∀ b, (b < length ms)%nat → Messages (History s1) !! b = ms !! b).
    { intros b Hb. simpl. by apply lookup_app_l. }
    destruct (ParsedChatMessage_props msgj (NewChatMessage mid u)) as (Hid & Hnx & Hpv & Hwh).
    fold m' in Hid, Hnx, Hpv, Hwh. simpl in Hid, Hnx, Hpv, Hwh.
    assert (Hm' : Messages (History s1) !! length ms = Some m').
    { simpl. rewrite lookup_app_r by lia. by rewrite Nat.sub_diag. }
    destruct (TryGetArrayField msgj FieldNames.Message) as [arr|] eqn:Harr.
    + rewrite bool_decide_true by eauto. run_op.
      rewrite (ReadMessage_run _ _ _ Hm'). run_op.
      rewrite (Hwh ltac:(eauto)). rewrite (Hnw mid _ eq_refl). cbn [negb orb]. run_op.
      assert (Hal : length ms ∉ l).
      { intros Hin. apply (HistoryChain_lt _ _ _ Hc) in Hin. fold ms in Hin. lia. }
      assert (Hw' : IsWhisper m' = false).
      { rewrite (Hwh ltac:(eauto)). by rewrite (Hnw mid _ eq_refl). }
      destruct (decide (0 < ChatHistoryMax (History s))) as [Hpos|Hnpos].
      * destruct (AddMessageToChatHistory_chain (History s1) l (length ms) m')
          as (h2 & Hadd & Hc2 & Hmx2 & Hsc2 & Hfr2); try done.
        unfold OnHistory_, OnHistory. rewrite Hadd. simpl.
        eexists _, _. split; [reflexivity|]. simpl.
        pose proof (SameContents_length _ _ Hsc2) as Hlen2. simpl in Hlen2.
        rewrite length_app in Hlen2. simpl in Hlen2.
        split_and!; try done.
        -- fold ms. lia.
        -- intros b Hb. rewrite (Hsc2 b). by rewrite Hpre.
        -- intros b Hb Hbl. rewrite Hfr2 by (done || lia). by apply Hpre.
        -- fold ms. lia.
        -- specialize (Hsc2 (length ms)). rewrite Hm' in Hsc2.
           destruct (Messages h2 !! length ms) as [m2|]; [|done].
           exists m2. split; [done|]. simpl in Hsc2.
           assert (Hx : Content m2 = Content m') by congruence.
           apply (f_equal GetMessageId) in Hx. simpl in Hx. congruence.
      * assert (l = []) as -> by (apply (HistoryChain_nil_inv (History s)); [done|lia]).
        unfold OnHistory_, OnHistory.
        assert (Hnoop : AddMessageToChatHistory (length ms) (History s1) = Some (History s1)).
        { apply (AddMessageToChatHistory_noop _ _ m'); [done|]. left.
          change (ChatHistoryMax (History s) <= 0). lia. }
        rewrite Hnoop.
        simpl. eexists _, _. split; [reflexivity|].
        replace (Z.to_nat (ChatHistoryMax (History s))) with 0%nat by lia.
        rewrite take_0. simpl.
        split_and!; try done.
        -- rewrite length_app. simpl. lia.
        -- intros b Hb. by rewrite lookup_app_l.
        -- intros b Hb _. by rewrite lookup_app_l.
        -- rewrite length_app. simpl. lia.
        -- exists m'. split; [|done]. rewrite lookup_app_r by lia. by rewrite Nat.sub_diag.
    + rewrite bool_decide_false by (by intros []). run_op.
      eexists _, _. split; [reflexivity|]. simpl.
      split_and!; try done.
      * rewrite length_app. simpl. lia.
      * intros b Hb. by rewrite lookup_app_l.
      * intros b Hb _. by rewrite lookup_app_l.
  - destruct (HandleChatMessageEventInternal_fields_missing _ _ s Hf) as (lg & ->).
    run_op. eexists _, _. split; [reflexivity|]. split_and!; done.
Qed.

Lemma MessageIdsAt_cons ms a l m :
  ms !! a = Some m → MessageIdsAt ms (a :: l) = GetMessageId m :: MessageIdsAt ms l.
Proof. intros H. unfold MessageIdsAt. simpl. by rewrite H. Qed.

Lemma MessageIdsAt_ext ms ms' l :
  (∀ a, a ∈ l → Content <$> ms' !! a = Content <$> ms !! a) →
  MessageIdsAt ms' l = MessageIdsAt ms l.
Proof.
  induction l as [|a l IH]; intros H; [done|].
  assert (Hcons : ∀ ms0, MessageIdsAt ms0 (a :: l) =
            match GetMessageId <$> ms0 !! a with
            | Some y => y :: MessageIdsAt ms0 l
            | None => MessageIdsAt ms0 l
            end) by done.
  rewrite !Hcons. rewrite IH by (intros b Hb; apply H; by right).
  specialize (H a ltac:(by left)).
  destruct (ms' !! a) as [m'|], (ms !! a) as [m|]; simpl in *; try done.
  assert (Hx : Content m' = Content m) by congruence.
  apply (f_equal GetMessageId) in Hx. simpl in Hx. by rewrite Hx.
Qed.

Lemma HandleHistoryEntries_run FGuid_Parse Data : ∀ s l,
  HistoryChain (History s) l →
  ChatHistoryNum (History s) <= ChatHistoryMax (History s) →
  ChatHistoryMax (History s) < 2147483647 →
  NoWhisperReported FGuid_Parse Data →
  ∃ s' e pushed,
    HandleHistoryEntries FMixerUser_Id FGuid_Parse Data s = Some (tt, s', e)
    ∧ HistoryChain (History s')
        (take (Z.to_nat (ChatHistoryMax (History s))) (reverse pushed ++ l))
    ∧ ChatHistoryMax (History s') = ChatHistoryMax (History s)
    ∧ NoDup pushed
    ∧ (∀ a, a ∈ pushed →
            (length (Messages (History s)) <= a < length (Messages (History s')))%nat)
    ∧ MessageIdsAt (Messages (History s')) pushed = ReportedIds FGuid_Parse Data
    ∧ (length (Messages (History s)) <= length (Messages (History s')))%nat
    ∧ (∀ b, (b < length (Messages (History s)))%nat →
            Content <$> Messages (History s') !! b = Content <$> Messages (History s) !! b)
    ∧ (∀ b, (b < length (Messages (History s)))%nat → b ∉ l →
            Messages (History s') !! b = Messages (History s) !! b).
Proof.
  induction Data as [|x rest IH]; intros s l Hc Hle Hmax Hnw.
  - exists s, [], []. simpl. split_and!; try done.
    + rewrite take_ge; [done|]. destruct Hc as (_ & _ & _ & Hn). lia.
    + apply NoDup_nil_2.
    + intros a Ha. by apply elem_of_nil in Ha.
  - destruct (HandleHistoryEntry_run FGuid_Parse x s l Hc Hle Hmax)
      as (s1 & e1 & Hrun1 & Hmx1 & Hlen1 & Hct1 & Hfr1 & Hcase).
    { intros id w. apply (Hnw x). by left. }
    assert (Hnw' : NoWhisperReported FGuid_Parse rest).
    { intros y id w Hy. apply (Hnw y). by right. }
    simpl. rewrite Op_bind_run, Hrun1.
    unfold ReportedIds. simpl. fold (ReportedIds FGuid_Parse rest).
    set (a := length (Messages (History s))) in *.
    set (M := Z.to_nat (ChatHistoryMax (History s))) in *.
    destruct (ReportedMessage FGuid_Parse x) as [[id w]|]; simpl.
    + destruct Hcase as (Hc1 & Hlen1' & m & Hm & Hid).
      assert (Hle1 : ChatHistoryNum (History s1) <= ChatHistoryMax (History s1)).
      { destruct Hc1 as (_ & _ & _ & ->). pose proof Hc as (_ & _ & _ & Hn).
        rewrite length_take. subst M. lia. }
      destruct (IH s1 (take M (a :: l)) Hc1 Hle1 ltac:(lia) Hnw')
        as (s' & e2 & pushed & -> & Hc' & Hmx' & Hnd & Hrange & Hids & Hlen' & Hct' & Hfr').
      exists s', (e1 ++ e2), (a :: pushed). split; [done|].
      rewrite Hmx1 in Hc'. fold M in Hc'. rewrite take_app_take in Hc'.
      split_and!.
      * rewrite reverse_cons, <- app_assoc. done.
      * congruence.
      * apply NoDup_cons. split; [|done]. intros Hin. apply Hrange in Hin. lia.
      * intros b [->|Hb]%elem_of_cons; [lia|]. apply Hrange in Hb. lia.
      * assert (Hma : Content <$> Messages (History s') !! a = Content <$> Some m).
        { rewrite Hct' by lia. by rewrite Hm. }
        destruct (Messages (History s') !! a) as [m2|] eqn:Hm2; [|done].
        rewrite (MessageIdsAt_cons _ _ _ m2) by done. rewrite Hids. f_equal.
        simpl in Hma. assert (Hx : Content m2 = Content m) by congruence.
        apply (f_equal GetMessageId) in Hx. simpl in Hx. congruence.
      * lia.
      * intros b Hb. rewrite Hct' by lia. by apply Hct1.
      * intros b Hb Hbl. rewrite Hfr'; [by apply Hfr1|lia|].
        intros Hin%elem_of_take. destruct Hin as (i & Hin & _).
        apply list_elem_of_lookup_2 in Hin.
        apply elem_of_cons in Hin as [->|Hin]; [lia|done].
    + assert (Hle1 : ChatHistoryNum (History s1) <= ChatHistoryMax (History s1)).
      { destruct Hcase as (_ & _ & _ & ->). destruct Hc as (_ & _ & _ & Hn). lia. }
      destruct (IH s1 l Hcase Hle1 ltac:(lia) Hnw')
        as (s' & e2 & pushed & -> & Hc' & Hmx' & Hnd & Hrange & Hids & Hlen' & Hct' & Hfr').
      exists s', (e1 ++ e2), pushed. split; [done|].
      rewrite Hmx1 in Hc'.
      split_and!; try done.
      * congruence.
      * intros b Hb. apply Hrange in Hb. lia.
      * lia.
      * intros b Hb. rewrite Hct' by lia. by apply Hct1.
      * intros b Hb Hbl. rewrite Hfr'; [by apply Hfr1|lia|done].
Qed.

Lemma FindDupe_none h target l : ∀ prev fuel c,
  Seg (Messages h) prev l None → (length l <= fuel)%nat →
  0 <= c → c + Z.of_nat (length l) <= 2147483647 →
  (∀ a m, a ∈ l → Messages h !! a = Some m → GetMessageId m ≠ target) →
  FindDupe fuel target (head l) c h = Some (c + Z.of_nat (length l), None).
Proof.
  induction l as [|a t IH]; intros prev fuel c Hs Hf Hc Hr Hno.
  - destruct fuel; simpl; f_equal; f_equal; lia.
  - destruct fuel as [|fuel]; [simpl in Hf; lia|].
    destruct Hs as (m & Hm & _ & Hn & Ht). rewrite HeadOr_None in Hn.
    simpl. rewrite Hm. simpl.
    rewrite bool_decide_false by (apply (Hno a); [by left|done]).
    rewrite Hn. simpl in Hf, Hr.
    rewrite wrap32_id by (unfold InInt32; lia).
    rewrite (IH (Some a)); try done; try lia.
    + f_equal. f_equal. lia.
    + intros b mb Hb. apply Hno. by right.
Qed.

Lemma FindDupe_found h target l1 d l2 md : ∀ prev fuel c,
  Seg (Messages h) prev (l1 ++ d :: l2) None → (length (l1 ++ d :: l2) <= fuel)%nat →
  0 <= c → c + Z.of_nat (length l1) + 1 <= 2147483647 →
  (∀ a m, a ∈ l1 → Messages h !! a = Some m → GetMessageId m ≠ target) →
  Messages h !! d = Some md → GetMessageId md = target →
  FindDupe fuel target (head (l1 ++ d :: l2)) c h
  = Some (c + Z.of_nat (length l1) + 1, Some d).
Proof.
  induction l1 as [|a t IH]; intros prev fuel c Hs Hf Hc Hr Hno Hd Hid.
  - destruct fuel as [|fuel]; [simpl in Hf; lia|].
    simpl. rewrite Hd. simpl. rewrite bool_decide_true by done.
    rewrite wrap32_id by (unfold InInt32; simpl in *; lia).
    f_equal. f_equal. simpl. lia.
  - destruct fuel as [|fuel]; [simpl in Hf; lia|].
    destruct Hs as (m & Hm & _ & Hn & Ht). rewrite HeadOr_None in Hn.
    simpl. rewrite Hm. simpl.
    rewrite bool_decide_false by (apply (Hno a); [by left|done]).
    rewrite Hn. simpl in Hf, Hr.
    rewrite wrap32_id by (unfold InInt32; lia).
    rewrite (IH (Some a)); try done; try lia.
    + f_equal. f_equal. lia.
    + intros b mb Hb. apply Hno. by right.
Qed.

(** The first message of a chain with a given id, if any. *)
Lemma first_with_id ms prev l nx (target : FGuid) :
  Seg ms prev l nx →
  (∀ a m, a ∈ l → ms !! a = Some m → GetMessageId m ≠ target)
  ∨ ∃ l1 d l2 md,
      l = l1 ++ d :: l2 ∧ ms !! d = Some md ∧ GetMessageId md = target
      ∧ ∀ a m, a ∈ l1 → ms !! a = Some m → GetMessageId m ≠ target.
Proof.
  revert prev. induction l as [|a t IH]; intros prev Hs.
  - left. intros a m Ha. by apply elem_of_nil in Ha.
  - destruct Hs as (m & Hm & _ & _ & Ht).
    destruct (decide (GetMessageId m = target)) as [Heq|Hne].
    + right. exists [], a, t, m. split_and!; try done.
      intros b mb Hb. by apply elem_of_nil in Hb.
    + destruct (IH _ Ht) as [Hno|(l1 & d & l2 & md & -> & Hd & Hid & Hno)].
      * left. intros b mb [->|Hb]%elem_of_cons Hmb; [congruence|by eapply Hno].
      * right. exists (a :: l1), d, l2, md. split_and!; try done.
        intros b mb [->|Hb]%elem_of_cons Hmb; [congruence|by eapply Hno].
Qed.

Lemma RelinkLocalHistory_no_dupe h l' lo l_srv LocalMax :
  Linked (Messages h) (l' ++ [lo]) →
  HistoryChain h l_srv → l_srv ≠ [] →
  (∀ a, a ∈ l' ++ [lo] → a ∉ l_srv) →
  (∀ mlo a m, Messages h !! lo = Some mlo → a ∈ l_srv → Messages h !! a = Some m →
              GetMessageId m ≠ GetMessageId mlo) →
  Z.of_nat (length (l' ++ [lo])) + Z.of_nat (length l_srv) <= 2147483647 →
  ∃ h', RelinkLocalHistory (head (l' ++ [lo])) (Some lo)
          (Z.of_nat (length (l' ++ [lo]))) LocalMax h = Some h'
     ∧ HistoryChain h' ((l' ++ [lo]) ++ l_srv)
     ∧ ChatHistoryMax h' = LocalMax
     ∧ SameContents (Messages h) (Messages h').
Proof.
  intros [Hndl Hsl] ([Hnds Hss] & Hnew & Hold & Hnum) Hne Hdis Hnodupe Hrange.
  destruct l_srv as [|sn t]; [done|]. clear Hne.
  destruct h as [ms nw ol num mx]; simpl in *. subst nw ol num.
  destruct (Seg_last _ _ _ _ _ Hsl) as (mlo & Hlo & _ & _).
  pose proof Hss as (msn & Hsn & _).
  assert (Hlosrv : lo ∉ sn :: t) by (apply Hdis; set_solver).
  assert (Hlosn : lo ≠ sn) by set_solver.
  assert (Hsnloc : sn ∉ l' ++ [lo]).
  { intros Hin. apply (Hdis sn Hin). by left. }
  assert (Hlol' : lo ∉ l').
  { apply NoDup_app in Hndl as (_ & Hd & _). intros Hin. apply (Hd lo Hin). by left. }
  unfold RelinkLocalHistory. simpl. rewrite Hlo. simpl.
  rewrite (FindDupe_none _ _ (sn :: t) None); try done; try lia.
  2:{ simpl. change (S (length t)) with (length (sn :: t)).
      apply Linked_length. by split. }
  2:{ simpl in *. lia. }
  2:{ intros a m. by apply Hnodupe. }
  simpl.
  rewrite (UpdMessage_Some _ _ _ mlo) by done. simpl.
  rewrite (UpdMessage_Some _ _ _ msn) by (simpl; by rewrite list_lookup_insert_ne).
  simpl. eexists; split; [reflexivity|].
  unfold HistoryChain, Linked. simpl. split_and!.
  - apply NoDup_app. split_and!; try done.
  - apply Seg_app. split.
    + simpl. apply Seg_insert_notin; [done|]. by eapply Seg_set_next.
    + rewrite LastOr_snoc. eapply Seg_set_prev.
      * by apply NoDup_cons in Hnds as [? _].
      * by rewrite list_lookup_insert_ne.
      * by apply Seg_insert_notin.
  - by destruct l'.
  - rewrite last_app. by rewrite last_cons; destruct (last t).
  - rewrite !length_app in *. simpl in *.
    rewrite wrap32_id by (unfold InInt32; lia). lia.
  - done.
  - apply (SameContents_trans _ (<[lo:=set_NextLink (Some sn) mlo]> ms));
      [by eapply SameContents_insert|].
    eapply SameContents_insert; [by rewrite list_lookup_insert_ne|done].
Qed.

Lemma RelinkLocalHistory_dupe h l' lo l1 d l2 LocalMax mlo md :
  Linked (Messages h) (l' ++ [lo]) →
  HistoryChain h (l1 ++ d :: l2) →
  (∀ a, a ∈ l' ++ [lo] → a ∉ l1 ++ d :: l2) →
  Messages h !! lo = Some mlo → Messages h !! d = Some md →
  GetMessageId md = GetMessageId mlo →
  (∀ a m, a ∈ l1 → Messages h !! a = Some m → GetMessageId m ≠ GetMessageId mlo) →
  Z.of_nat (length (l' ++ [lo])) + Z.of_nat (length (l1 ++ d :: l2)) <= 2147483647 →
  ∃ h', RelinkLocalHistory (head (l' ++ [lo])) (Some lo)
          (Z.of_nat (length (l' ++ [lo]))) LocalMax h = Some h'
     ∧ Linked (Messages h') ((l' ++ [lo]) ++ l2)
     ∧ ChatHistoryNewest h' = head ((l' ++ [lo]) ++ l2)
     ∧ ChatHistoryOldest h' = last (l1 ++ d :: l2)
     ∧ ChatHistoryNum h' = Z.of_nat (length ((l' ++ [lo]) ++ l2))
     ∧ ChatHistoryMax h' = LocalMax
     ∧ SameContents (Messages h) (Messages h').
Proof.
  intros [Hndl Hsl] ([Hnds Hss] & Hnew & Hold & Hnum) Hdis Hlo Hd Hid Hno Hrange.
  destruct h as [ms nw ol num mx]; simpl in *. subst ol num.
  assert (Hnw : ∃ sn, nw = Some sn) by (subst nw; destruct l1; simpl; eauto).
  destruct Hnw as [sn Hsn].
  pose proof Hss as [Hs1 Hs2]%Seg_app.
  pose proof Hs2 as (md' & Hd' & _ & Hdn & Hs3).
  assert (md' = md) as -> by congruence. rewrite HeadOr_None in Hdn.
  pose proof Hnds as (Hnd1 & Hdis1 & Hnd2)%NoDup_app.
  apply NoDup_cons in Hnd2 as [Hdl2 Hnd2].
  assert (Hlod : lo ≠ d).
  { intros ->. apply (Hdis d); [set_solver|set_solver]. }
  assert (Hlol2 : lo ∉ l2).
  { intros Hin. apply (Hdis lo); set_solver. }
  assert (Hlol' : lo ∉ l').
  { apply NoDup_app in Hndl as (_ & Hx & _). intros Hin. apply (Hx lo Hin). by left. }
  unfold RelinkLocalHistory. simpl. rewrite Hsn. rewrite Hlo. simpl.
  rewrite <- Hsn, Hnew.
  rewrite (FindDupe_found _ _ l1 d l2 md None); try done; try lia.
  2:{ apply Linked_length. by split. }
  2:{ rewrite !length_app in Hrange. simpl in *. lia. }
  simpl. rewrite Hd. simpl.
  rewrite (UpdMessage_Some _ _ _ mlo) by done. simpl.
  rewrite list_lookup_insert_ne by done. rewrite Hd. simpl. rewrite Hdn.
  set (ms2 := <[lo:=set_NextLink (head l2) mlo]> ms).
  match goal with |- context [UpdIfValid (head l2) _ ?hh] => set (h2 := hh) end.
  destruct (UpdIfValid_set_prev h2 (Some d) (Some lo) l2 None) as (ms3 & Hu3 & Hs3' & Hsc3 & Hfr3);
    [done|by apply Seg_insert_notin|].
  rewrite Hu3. simpl.
  eexists; split; [reflexivity|]. simpl.
  assert (Hrange' : Z.of_nat (length l' + 1) + Z.of_nat (length l1 + S (length l2))
                    <= 2147483647).
  { rewrite !length_app in Hrange. simpl in Hrange. lia. }
  rewrite !length_app. simpl.
  rewrite (wrap32_id (_ - _)) by (unfold InInt32; lia).
  rewrite wrap32_id by (unfold InInt32; lia).
  split_and!; try done.
  - split.
    + apply NoDup_app. split_and!; try done.
      intros a Ha Ha2. apply (Hdis a Ha). set_solver.
    + apply Seg_app. split.
      * rewrite HeadOr_None. eapply Seg_frame; [|by eapply (Seg_set_next ms None (head l2))].
        intros b Hb. rewrite Hfr3; [done|].
        intros Hh. destruct l2 as [|x l2]; [done|]. simpl in Hh. injection Hh as ->.
        apply (Hdis b Hb). set_solver.
      * by rewrite LastOr_snoc.
  - by destruct l'.
  - lia.
  - apply (SameContents_trans _ ms2); [by eapply SameContents_insert|done].
Qed.

Lemma MessageIdsAt_fmap ms l :
  (∀ a, a ∈ l → is_Some (ms !! a)) →
  MessageIdsAt ms l = (λ a, default 0%N (GetMessageId <$> ms !! a)) <$> l.
Proof.
  induction l as [|a l IH]; intros H; [done|].
  destruct (H a ltac:(by left)) as [m Hm].
  rewrite (MessageIdsAt_cons _ _ _ m Hm), IH by (intros b Hb; apply H; by right).
  simpl. by rewrite Hm.
Qed.

Lemma MessageIdsAt_take_reverse ms l n :
  (∀ a, a ∈ l → is_Some (ms !! a)) →
  MessageIdsAt ms (take n (reverse l)) = take n (reverse (MessageIdsAt ms l)).
Proof.
  intros H. rewrite (MessageIdsAt_fmap ms l H).
  rewrite MessageIdsAt_fmap.
  - by rewrite fmap_take, fmap_reverse.
  - intros a Ha%elem_of_take. destruct Ha as (i & Ha & _).
    apply list_elem_of_lookup_2 in Ha. rewrite elem_of_reverse in Ha. by apply H.
Qed.

Lemma MessageIdsAt_elem ms l id :
  id ∈ MessageIdsAt ms l → ∃ a m, a ∈ l ∧ ms !! a = Some m ∧ GetMessageId m = id.
Proof.
  unfold MessageIdsAt. intros (a & Ha & Hid)%list_elem_of_omap.
  destruct (ms !! a) as [m|] eqn:Hm; [|done]. simpl in Hid. injection Hid as <-.
  eauto.
Qed.

Lemma MessageIdsAt_elem_2 ms l a m :
  a ∈ l → ms !! a = Some m → GetMessageId m ∈ MessageIdsAt ms l.
Proof.
  intros Ha Hm. unfold MessageIdsAt. apply list_elem_of_omap.
  exists a. split; [done|]. by rewrite Hm.
Qed.

(** [HandleHistoryReply] up to its relinking: the history the server
    reported has been built behind the local one, which is untouched. *)
Lemma HandleHistoryReply_entries FGuid_Parse JsonObj s Data l_loc :
  TryGetArrayField JsonObj FieldNames.Data = Some Data →
  HistoryChain (History s) l_loc →
  ChatHistoryNum (History s) <= ChatHistoryMax (History s) →
  ChatHistoryMax (History s) < 2147483647 →
  NoWhisperReported FGuid_Parse Data →
  ∃ s1 e1 l_srv,
    HandleHistoryReply FMixerUser_Id FGuid_Parse JsonObj s =
      match RelinkLocalHistory (ChatHistoryNewest (History s)) (ChatHistoryOldest (History s))
              (ChatHistoryNum (History s)) (ChatHistoryMax (History s)) (History s1) with
      | Some h' => Some (true, set_History h' s1, e1)
      | None => None
      end
    ∧ HistoryChain (History s1) l_srv
    ∧ ChatHistoryMax (History s1) = ChatHistoryMax (History s) - ChatHistoryNum (History s)
    ∧ MessageIdsAt (Messages (History s1)) l_srv =
        take (Z.to_nat (ChatHistoryMax (History s) - ChatHistoryNum (History s)))
             (reverse (ReportedIds FGuid_Parse Data))
    ∧ Linked (Messages (History s1)) l_loc
    ∧ (∀ a, a ∈ l_loc → a ∉ l_srv)
    ∧ (∀ b, (b < length (Messages (History s)))%nat →
            Messages (History s1) !! b = Messages (History s) !! b).
Proof.
  intros Hdata Hc Hle Hmax Hnw.
  pose proof Hc as ([Hndl Hsl] & Hnew & Hold & Hnum).
  unfold HandleHistoryReply, GET_JSON_ARRAY_RETURN_FAILURE, GET_JSON_FIELD_RETURN_FAILURE.
  rewrite Hdata. run_op. unfold OnHistory_ at 1, OnHistory at 1. simpl.
  set (budget := ChatHistoryMax (History s) - ChatHistoryNum (History s)).
  rewrite (wrap32_id budget) by (unfold InInt32, budget; lia).
  match goal with
  | |- context [(HandleHistoryEntries _ _ _ ≫= _) ?st] => set (s0 := st)
  end.
  destruct (HandleHistoryEntries_run FGuid_Parse Data s0 [])
    as (s1 & e1 & pushed & Hrun & Hc1 & Hmx1 & Hndp & Hrange & Hids & Hlen & Hct & Hfr);
    try done.
  { unfold HistoryChain, Linked. simpl. split_and!; try done. apply NoDup_nil_2. }
  { simpl. unfold budget. lia. }
  { simpl. unfold budget. lia. }
  change (ChatHistoryMax (History s0)) with budget in *.
  change (Messages (History s0)) with (Messages (History s)) in *.
  rewrite app_nil_r in Hc1.
  run_op. rewrite Hrun. run_op.
  exists s1, e1, (take (Z.to_nat budget) (reverse pushed)).
  split.
  { unfold OnHistory_, OnHistory.
    destruct (RelinkLocalHistory _ _ _ _ _) as [h'|]; simpl; [|done].
    by rewrite !app_nil_r. }
  assert (Hfr' : ∀ b, (b < length (Messages (History s)))%nat →
                      Messages (History s1) !! b = Messages (History s) !! b).
  { intros b Hb. apply Hfr; [done|]. intros Hin. by apply elem_of_nil in Hin. }
  split_and!; try done.
  - rewrite MessageIdsAt_take_reverse; [by rewrite Hids|].
    intros a Ha. apply lookup_lt_is_Some_2. apply Hrange in Ha. lia.
  - split; [done|]. eapply Seg_frame; [|exact Hsl].
    intros a Ha. apply Hfr'. eapply Seg_lt; eauto.
  - intros a Ha Hin%elem_of_take. destruct Hin as (i & Hin & _).
    apply list_elem_of_lookup_2 in Hin. rewrite elem_of_reverse in Hin.
    apply Hrange in Hin. apply (Seg_lt _ _ _ _ _ Hsl) in Ha. lia.
Qed.

(** ** The invariant of the history *)

(** [AddMessageToChatHistory] keeps the invariant of the history. *)
Lemma AddMessageToChatHistory_preserves_invariant h l a m :
  HistoryChain h l → ChatHistoryNum h <= ChatHistoryMax h →
  ChatHistoryMax h < 2147483647 →
  Messages h !! a = Some m → a ∉ l → PrevLink m = None →
  ∃ h', AddMessageToChatHistory a h = Some h' ∧ HistoryInvariant h'.
Proof.
  intros Hc Hle Hmax Hm Ha Hp.
  destruct (decide (0 < ChatHistoryMax h)) as [Hpos|Hpos];
    [destruct (IsWhisper m) eqn:Hw|].
  - exists h. split; [eapply AddMessageToChatHistory_noop; eauto|]. by exists l.
  - destruct (AddMessageToChatHistory_chain h l a m) as (h' & Hrun & Hc' & Hmx & _); try done.
    exists h'. split; [done|]. eexists. split; [exact Hc'|].
    destruct Hc' as (_ & _ & _ & ->). rewrite Hmx, length_take. lia.
  - exists h. split; [eapply AddMessageToChatHistory_noop; eauto; lia|]. by exists l.
Qed.

(** [DeleteFromChatHistoryIf] keeps the invariant of the history. *)
Lemma DeleteFromChatHistoryIf_preserves_invariant P h :
  (∀ m m', Content m = Content m' → P m = P m') →
  HistoryInvariant h → ChatHistoryNum h <= 2147483647 →
  ∃ h' calls, DeleteFromChatHistoryIf P h = Some (h', calls) ∧ HistoryInvariant h'.
Proof.
  intros HP (l & Hc & Hle) Hr.
  destruct (DeleteFromChatHistoryIf_chain P h l HP Hc Hr) as (h' & Hrun & Hc' & Hmx & _).
  exists h', l. split; [done|]. eexists. split; [exact Hc'|].
  pose proof Hc as (_ & _ & _ & Hn). pose proof Hc' as (_ & _ & _ & ->).
  rewrite Hmx. pose proof (List.filter_length_le (λ a, negb (PredicateAt P (Messages h) a)) l).
  lia.
Qed.

(** The history of the example connection is the chain of its one message. *)
Lemma ExampleConnectionWithMessage_chain :
  HistoryChain (History (ExampleConnectionWithMessage 5)) [0%nat].
Proof.
  unfold HistoryChain, Linked. split_and!; try (by vm_compute).
  - apply NoDup_singleton.
  - eexists. by vm_compute.
Qed.

(** A second case the relinking misses: when the duplicate is the oldest
    node of the server's chain, [ChatHistoryOldest] is left at the duplicate,
    which is on the chain no more. *)
Lemma HandleHistoryReply_duplicate_at_oldest :
  ∃ s' e,
    HandleHistoryReply ExampleFMixerUserId ExampleGuidParse
      (ExampleHistory [JsonObject (ExampleChatMessage "m1" 7 "bob" "hi")])
      (ExampleConnectionWithMessage 5) = Some (true, s', e)
    ∧ GetMessageHistory (-1) [] (History s') = Some [0%nat]
    ∧ ChatHistoryNum (History s') = 1
    ∧ ChatHistoryMax (History s') = 5
    ∧ ChatHistoryNewest (History s') = Some 0%nat
    ∧ ChatHistoryOldest (History s') = Some 1%nat
    ∧ ¬ HistoryInvariant (History s').
Proof.
  eexists _, _. split; [vm_compute; reflexivity|].
  split_and!; try done.
  intros (l & (_ & Hnew & Hold & Hnum) & _).
  assert (Hn : Z.of_nat (length l) = 1) by (rewrite <- Hnum; by vm_compute).
  destruct l as [|a [|b l]]; simpl in Hn; try lia.
  vm_compute in Hnew, Hold. congruence.
Qed.

End Handlers.

(** * Lemmas for the further properties *)

Lemma GetMessageHistoryLoop_take ms h n : ∀ l fuel prev out,
  Messages h = ms → Seg ms prev l None → (length l <= fuel)%nat → n ≠ -1 →
  GetMessageHistoryLoop fuel n (head l) out h
  = Some (out ++ take (Z.to_nat (n - Z.of_nat (length out))) l).
Proof.
  intros l fuel prev out <-. revert fuel prev out.
  induction l as [|a t IH]; intros fuel prev out Hs Hf Hn.
  - rewrite take_nil, app_nil_r. by destruct fuel.
  - destruct Hs as (m & Hm & _ & Hnx & Ht). simpl in Hf.
    destruct fuel as [|fuel]; [lia|]. simpl.
    rewrite (bool_decide_false (n = -1)) by done. simpl.
    case_bool_decide as Hlt.
    + rewrite Hm. simpl. rewrite Hnx, HeadOr_None.
      rewrite (IH fuel (Some a)) by (done || lia).
      rewrite length_app. simpl.
      replace (Z.to_nat (n - Z.of_nat (length out))) with
        (S (Z.to_nat (n - Z.of_nat (length out + 1)))) by lia.
      simpl. by rewrite <- app_assoc.
    + replace (Z.to_nat (n - Z.of_nat (length out))) with 0%nat by lia.
      by rewrite take_0, app_nil_r.
Qed.


Lemma filter_length_split {A} (f : A → bool) (l : list A) :
  (length (List.filter f l) + length (List.filter (λ x, negb (f x)) l) = length l)%nat.
Proof.
  induction l as [|x l IH]; simpl; [done|].
  destruct (f x); simpl; lia.
Qed.


Lemma OnHistory__run (f : FChatHistory → option FChatHistory) s h' :
  f (History s) = Some h' → OnHistory_ f s = Some (tt, set_History h' s, []).
Proof. intros H. unfold OnHistory_, OnHistory. by rewrite H. Qed.

Lemma HandleDeleteMessageEvent_run FGuid_Parse JsonObj s :
  HandleDeleteMessageEvent FGuid_Parse JsonObj s =
  match TryGetStringField JsonObj FieldNames.Id with
  | None =>
      Some (false, s, [UE_LOG ELogVerbosity.Error (MissingRequiredField FieldNames.Id)])
  | Some IdString =>
      match FGuid_Parse IdString with
      | None =>
          Some (false, s,
                [UE_LOG ELogVerbosity.Error (IdNotAGuidDeleteMessageEvent IdString)])
      | Some MessageId =>
          match DeleteFromChatHistoryIf
                  (λ ChatMessage, bool_decide (GetMessageId ChatMessage = MessageId))
                  (History s) with
          | Some (h', _) => Some (true, set_History h' s, [])
          | None => None
          end
      end
  end.
Proof.
  unfold HandleDeleteMessageEvent, GET_JSON_STRING_RETURN_FAILURE,
    GET_JSON_FIELD_RETURN_FAILURE.
  destruct (TryGetStringField JsonObj FieldNames.Id) as [IdString|]; [|by run_op].
  destruct (FGuid_Parse IdString) as [MessageId|]; [|by run_op].
  run_op. unfold OnHistory_, OnHistory.
  destruct (DeleteFromChatHistoryIf _ (History s)) as [[h' calls]|]; by run_op.
Qed.

Lemma HandlePurgeMessageEvent_run JsonObj s :
  HandlePurgeMessageEvent JsonObj s =
  match TryGetNumberField JsonObj FieldNames.UserId with
  | None =>
      Some (false, s, [UE_LOG ELogVerbosity.Error (MissingRequiredField FieldNames.UserId)])
  | Some UserId =>
      match DeleteFromChatHistoryIf
              (λ ChatMessage, bool_decide (GetSenderId ChatMessage = UserId))
              (History s) with
      | Some (h', _) => Some (true, set_History h' s, [])
      | None => None
      end
  end.
Proof.
  unfold HandlePurgeMessageEvent, GET_JSON_INT_RETURN_FAILURE,
    GET_JSON_FIELD_RETURN_FAILURE.
  destruct (TryGetNumberField JsonObj FieldNames.UserId) as [UserId|]; [|by run_op].
  run_op. unfold OnHistory_, OnHistory.
  destruct (DeleteFromChatHistoryIf _ (History s)) as [[h' calls]|]; by run_op.
Qed.

Lemma HandleClearMessagesEvent_run JsonObj s :
  HandleClearMessagesEvent JsonObj s =
  match DeleteFromChatHistoryIf (λ _, true) (History s) with
  | Some (h', _) =>
      if bool_decide (ChatHistoryNum h' = 0)
         && bool_decide (ChatHistoryNewest h' = None)
         && bool_decide (ChatHistoryOldest h' = None)
      then Some (true, set_History h' s, [])
      else None
  | None => None
  end.
Proof.
  unfold HandleClearMessagesEvent. run_op. unfold OnHistory_, OnHistory.
  destruct (DeleteFromChatHistoryIf _ (History s)) as [[h' calls]|]; [|by run_op].
  run_op. simpl. rewrite Op_bind_run. cbn [GetState].
  change (History (set_History h' s)) with h'.
  destruct (bool_decide (ChatHistoryNum h' = 0)); [|by run_op].
  destruct (bool_decide (ChatHistoryNewest h' = None)); [|by run_op].
  destruct (bool_decide (ChatHistoryOldest h' = None)); by run_op.
Qed.

Lemma DeleteFromChatHistoryIf_DeletedWhere P h l :
  (∀ m m', Content m = Content m' → P m = P m') →
  HistoryChain h l →
  ChatHistoryNum h <= ChatHistoryMax h →
  ChatHistoryMax h <= 2147483647 →
  ∃ h', DeleteFromChatHistoryIf P h = Some (h', l) ∧ DeletedWhere P h l h'.
Proof.
  intros HP Hc Hle Hmax.
  destruct (DeleteFromChatHistoryIf_chain P h l HP Hc)
      as (h' & Hrun & Hc' & Hmx & Hfr & Htb & Hkeep);
    [lia|].
  pose proof (filter_length_split (PredicateAt P (Messages h)) l) as Hsplit.
  pose proof Hc as (_ & _ & _ & Hn). pose proof Hc' as (_ & _ & _ & Hn').
  exists h'. split; [done|]. split; [done|].
  split. { eexists. split; [exact Hc'|]. lia. }
  split; [done|]. split; [done|]. split; [|done].
  intros a m Ha Hm HPm. rewrite Hkeep, Hm; [done|].
  intros _. unfold PredicateAt. by rewrite Hm.
Qed.

Lemma bool_decide_GetMessageId_Content (id : FGuid) m m' :
  Content m = Content m' →
  bool_decide (GetMessageId m = id) = bool_decide (GetMessageId m' = id).
Proof. intros H. assert (GetMessageId m = GetMessageId m') as ->; [by injection H|done]. Qed.

Lemma bool_decide_GetSenderId_Content (id : Z) m m' :
  Content m = Content m' →
  bool_decide (GetSenderId m = id) = bool_decide (GetSenderId m' = id).
Proof. intros H. assert (GetSenderId m = GetSenderId m') as ->; [by injection H|done]. Qed.

Lemma String_append_assoc (a b c : string) : ((a ++ b) ++ c = a ++ (b ++ c))%string.
Proof.
  induction a as [|x a IH]; [done|].
  change (String x ((a ++ b) ++ c) = String x (a ++ (b ++ c)))%string. by f_equal.
Qed.

Lemma String_append_empty_r (a : string) : (a ++ "" = a)%string.
Proof.
  induction a as [|x a IH]; [done|].
  change (String x (a ++ "") = String x a)%string. by f_equal.
Qed.

Lemma AppendFragment_body m F :
  AppendFragment m F =
  AppendBodyFragment (FragmentText F) m.
Proof.
  unfold AppendFragment, FragmentText.
  assert (He : AppendBodyFragment "" m = m).
  { destruct m. unfold AppendBodyFragment. simpl. by rewrite String_append_empty_r. }
  destruct (TryGetObject F) as [o|]; [|done].
  destruct (TryGetStringField o FieldNames.Type_); [|done].
  by destruct (TryGetStringField o FieldNames.Text).
Qed.

Lemma foldl_AppendFragment_body arr : ∀ m,
  foldl AppendFragment m arr = AppendBodyFragment (MessageText arr) m.
Proof.
  induction arr as [|F arr IH]; intros m; simpl.
  - destruct m. unfold AppendBodyFragment. simpl. by rewrite String_append_empty_r.
  - rewrite IH, AppendFragment_body. destruct m. unfold AppendBodyFragment. simpl.
    by rewrite String_append_assoc.
Qed.

Lemma UsersAfterSighting_keyed FMixerUser_Id Users name uid lvl :
  (∀ k (u : FMixerChatUser), Users !! k = Some u → Id u = k) →
  ∀ k (u : FMixerChatUser),
    UsersAfterSighting FMixerUser_Id Users name uid lvl !! k = Some u → Id u = k.
Proof.
  intros HK k u. unfold UsersAfterSighting.
  set (U1 := match Users !! uid with Some _ => Users | None => _ end).
  assert (H1 : ∀ k (u : FMixerChatUser), U1 !! k = Some u → Id u = k).
  { intros k' u'. unfold U1. destruct (Users !! uid) eqn:E; [apply HK|].
    destruct (decide (k' = uid)) as [->|Hne].
    - rewrite lookup_insert_eq. by intros [= <-].
    - rewrite lookup_insert_ne by done. apply HK. }
  destruct lvl as [lv|]; [|apply H1].
  destruct (decide (k = uid)) as [->|Hne].
  - rewrite lookup_alter_eq. destruct (U1 !! uid) as [u1|] eqn:E; [|done].
    simpl. intros [= <-]. simpl. by apply H1.
  - rewrite lookup_alter_ne by done. apply H1.
Qed.

Lemma log_or_join_effects u e :
  Forall (λ x, IsLogLine x ∨ x = TriggerOnChatRoomMemberJoinDelegates u) e →
  PrivateMessagesOf e = [] ∧ RoomMessagesOf e = [] ∧ SentOf e = [].
Proof.
  induction 1 as [|x e Hx He IH]; [done|].
  destruct IH as (IH1 & IH2 & IH3).
  destruct Hx as [Hx| ->]; [destruct x; try done|]; simpl; by rewrite ?IH1, ?IH2, ?IH3.
Qed.

Lemma PrivateMessagesOf_app e1 e2 :
  PrivateMessagesOf (e1 ++ e2) = PrivateMessagesOf e1 ++ PrivateMessagesOf e2.
Proof. apply omap_app. Qed.

Lemma RoomMessagesOf_app e1 e2 :
  RoomMessagesOf (e1 ++ e2) = RoomMessagesOf e1 ++ RoomMessagesOf e2.
Proof. apply omap_app. Qed.

Lemma SentOf_app e1 e2 : SentOf (e1 ++ e2) = SentOf e1 ++ SentOf e2.
Proof. apply omap_app. Qed.

Ltac users_side :=
  solve [ done | exact I | unfold SameUsers; simpl; intros; congruence ].

Lemma HandleAuthReply_users JsonObj :
  Respects SameUsers (λ _, True) (HandleAuthReply JsonObj).
Proof.
  unfold HandleAuthReply, SendHistory, SendMethodPacket. respects users_side.
Qed.

Lemma HandleHistoryEntry_rest_users (r : bool * option nat) :
  Respects SameUsers (λ _, True)
    (match r with
     | (true, Some ChatMessage) =>
         m ← ReadMessage ChatMessage;
         check (negb (IsWhisper (m : FChatMessageMixerImpl)));;
         OnHistory_ (AddMessageToChatHistory ChatMessage)
     | (true, None) => Abort
     | (false, _) => mret tt
     end).
Proof.
  destruct r as [[|] [c|]]; unfold ReadMessage; respects users_side.
Qed.

Lemma HandleChatMessageEventInternal_keyed FMixerUser_Id FGuid_Parse JsonObj s r s' e :
  UsersKeyed s →
  HandleChatMessageEventInternal FMixerUser_Id FGuid_Parse JsonObj s = Some (r, s', e) →
  UsersKeyed s'.
Proof.
  intros HK.
  destruct (ChatMessageFields FGuid_Parse JsonObj) as [[[[name uid] msgj] mid]|] eqn:Hf.
  - destruct (HandleChatMessageEventInternal_run FMixerUser_Id _ _ s _ _ _ _ Hf)
      as (u & e1 & _ & -> & _).
    intros [= _ <- _]. unfold UsersKeyed. simpl.
    by apply UsersAfterSighting_keyed.
  - destruct (HandleChatMessageEventInternal_fields_missing FMixerUser_Id _ _ s Hf) as (lg & ->).
    by intros [= _ <- _].
Qed.

Lemma SameUsers_keyed s s' : SameUsers s s' → UsersKeyed s → UsersKeyed s'.
Proof. unfold SameUsers, UsersKeyed. by intros ->. Qed.

Lemma HandleHistoryEntries_keyed FMixerUser_Id FGuid_Parse Data : ∀ s s' e,
  UsersKeyed s →
  HandleHistoryEntries FMixerUser_Id FGuid_Parse Data s = Some (tt, s', e) →
  UsersKeyed s'.
Proof.
  induction Data as [|x rest IH]; intros s s' e HK; simpl.
  - by intros [= <- _].
  - rewrite Op_bind_run. unfold HandleHistoryEntry. rewrite Op_bind_run.
    destruct (HandleChatMessageEventInternal FMixerUser_Id FGuid_Parse (AsObject x) s)
      as [[[r s1] e1]|] eqn:E1; [|done].
    pose proof (HandleChatMessageEventInternal_keyed FMixerUser_Id _ _ _ _ _ _ HK E1) as HK1.
    match goal with
    | |- match match ?o ?st with _ => _ end with _ => _ end = _ → _ =>
        destruct (o st) as [[[[] s2] e2]|] eqn:E2; [|done]
    end.
    destruct (HandleHistoryEntry_rest_users r _ _ _ _ E2) as [Hsame _].
    destruct (HandleHistoryEntries FMixerUser_Id FGuid_Parse rest s2)
        as [[[[] s3] e3]|] eqn:E3; [|done].
    intros [= <- _]. eapply IH; [|exact E3]. by eapply SameUsers_keyed.
Qed.

Lemma HandleHistoryReply_keyed FMixerUser_Id FGuid_Parse JsonObj s b s' e :
  UsersKeyed s →
  HandleHistoryReply FMixerUser_Id FGuid_Parse JsonObj s = Some (b, s', e) →
  UsersKeyed s'.
Proof.
  intros HK. unfold HandleHistoryReply, GET_JSON_ARRAY_RETURN_FAILURE,
    GET_JSON_FIELD_RETURN_FAILURE.
  destruct (TryGetArrayField JsonObj FieldNames.Data) as [Data|].
  - run_op. unfold OnHistory_ at 1, OnHistory at 1. simpl. rewrite Op_bind_run.
    match goal with
    | |- context [HandleHistoryEntries _ _ _ ?st] =>
        destruct (HandleHistoryEntries FMixerUser_Id FGuid_Parse Data st)
            as [[[[] s1] e1]|] eqn:E1; [|done];
        assert (HK1 : UsersKeyed s1) by (eapply HandleHistoryEntries_keyed; [|exact E1]; done)
    end.
    rewrite Op_bind_run. unfold OnHistory_, OnHistory.
    destruct (RelinkLocalHistory _ _ _ _ (History s1)) as [h'|]; [|done].
    simpl. run_op. by intros [= _ <- _].
  - run_op. by intros [= _ <- _].
Qed.

Lemma CallHandler_keyed FMixerUser_Id FGuid_Parse Handler JsonObj s b s' e :
  UsersKeyed s →
  CallHandler FMixerUser_Id FGuid_Parse Handler JsonObj s = Some (b, s', e) →
  UsersKeyed s'.
Proof.
  intros HK. destruct Handler; simpl.
  - unfold HandleWelcomeEvent. run_op. by intros [= _ <- _].
  - destruct b.
    + intros (name & uid & msgj & mid & u & _ & Hu & _)%HandleChatMessageEvent_users.
      unfold UsersKeyed. rewrite Hu. by apply UsersAfterSighting_keyed.
    + intros (_ & _ & [->|(name & uid & msgj & mid & _ & _ & Hu)])%HandleChatMessageEvent_false;
        [done|].
      unfold UsersKeyed. rewrite Hu. by apply UsersAfterSighting_keyed.
  - rewrite HandleUserJoinEvent_run.
    destruct (TryGetNumberField JsonObj FieldNames.Id) as [uid|]; [|by intros [= _ <- _]].
    destruct (CachedUsers s !! uid) eqn:E; [by intros [= _ <- _]|].
    destruct (TryGetStringField JsonObj FieldNames.UserNameNoUnderscore) as [name|];
      [|by intros [= _ <- _]].
    intros [= _ <- _] k u. simpl.
    destruct (decide (k = uid)) as [->|Hne].
    + rewrite lookup_insert_eq. by intros [= <-].
    + rewrite lookup_insert_ne by done. apply HK.
  - rewrite HandleUserLeaveEvent_run.
    destruct (TryGetNumberField JsonObj FieldNames.Id) as [uid|]; [|by intros [= _ <- _]].
    destruct (CachedUsers s !! uid) eqn:E; [|by intros [= _ <- _]].
    intros [= _ <- _] k u. simpl.
    destruct (decide (k = uid)) as [->|Hne].
    + by rewrite lookup_delete_eq.
    + rewrite lookup_delete_ne by done. apply HK.
  - rewrite HandleDeleteMessageEvent_run.
    destruct (TryGetStringField _ _); [|by intros [= _ <- _]].
    destruct (FGuid_Parse _); [|by intros [= _ <- _]].
    destruct (DeleteFromChatHistoryIf _ _) as [[h' c]|]; [|done]. by intros [= _ <- _].
  - rewrite HandleClearMessagesEvent_run.
    destruct (DeleteFromChatHistoryIf _ _) as [[h' c]|]; [|done].
    destruct (_ && _); [|done]. by intros [= _ <- _].
  - rewrite HandlePurgeMessageEvent_run.
    destruct (TryGetNumberField _ _); [|by intros [= _ <- _]].
    destruct (DeleteFromChatHistoryIf _ _) as [[h' c]|]; [|done]. by intros [= _ <- _].
  - intros Hrun. destruct (HandleAuthReply_users _ _ _ _ _ Hrun) as [Hs _].
    by eapply SameUsers_keyed.
  - by apply HandleHistoryReply_keyed.
Qed.

Lemma GetEventHandler_Some EventType Handler :
  GetEventHandler EventType = Some Handler ↔ (EventType, Handler) ∈ EventHandlers.
Proof.
  unfold GetEventHandler. split.
  - apply elem_of_list_to_map_2.
  - apply elem_of_list_to_map_1. vm_compute.
    repeat (constructor; [set_solver|]). constructor.
Qed.

Lemma GetEventHandler_not_a_reply_handler EventType Handler :
  GetEventHandler EventType = Some Handler →
  Handler ≠ Ptr_HandleAuthReply ∧ Handler ≠ Ptr_HandleHistoryReply.
Proof.
  intros H%GetEventHandler_Some. unfold EventHandlers in H.
  repeat (apply elem_of_cons in H as [[= _ ->]|H]; [done|]).
  by apply elem_of_nil in H.
Qed.

Lemma GetEventHandler_None EventType :
  EventType ∉ EventHandlers.*1 → GetEventHandler EventType = None.
Proof.
  intros H. unfold GetEventHandler. by apply not_elem_of_list_to_map_1.
Qed.

Lemma IsLogOrNotification_SentOf e : Forall IsLogOrNotification e → SentOf e = [].
Proof.
  induction 1 as [|x e Hx He IH]; [done|]. destruct x; try done; simpl; by rewrite IH.
Qed.

Lemma SendAuth_run ChannelId User AuthKey s ws :
  ReplyHandlers s !! MessageId s = None →
  WebSocket s = Some ws →
  SendAuth ChannelId User AuthKey s =
  Some (tt,
        set_MessageId (wrap32 (MessageId s + 1))
          (set_ReplyHandlers (<[MessageId s := Some Ptr_HandleAuthReply]> (ReplyHandlers s)) s),
        match User with
        | Some u =>
            if negb (String.eqb AuthKey EmptyString) then
              [UE_LOG ELogVerbosity.Log (AuthenticatingAsUser (Name u));
               WebSocket_Send
                 (WriteRemoteMethodPacket MethodNames.Auth (MessageId s)
                    [JsonNumber ChannelId; JsonNumber (Id u); JsonString AuthKey])]
            else
              [UE_LOG ELogVerbosity.Log AuthenticatingAnonymously;
               WebSocket_Send
                 (WriteRemoteMethodPacket MethodNames.Auth (MessageId s)
                    [JsonNumber ChannelId])]
        | None =>
            [UE_LOG ELogVerbosity.Log AuthenticatingAnonymously;
             WebSocket_Send
               (WriteRemoteMethodPacket MethodNames.Auth (MessageId s) [JsonNumber ChannelId])]
        end).
Proof.
  intros Hfree Hws. unfold SendAuth. run_op.
  destruct User as [u|]; [destruct (negb (String.eqb AuthKey EmptyString))|];
    run_op; erewrite SendMethodPacket_run by done; by run_op.
Qed.

Lemma HandleHistoryEntry_whisper FMixerUser_Id FGuid_Parse x s id :
  ReportedMessage FGuid_Parse x = Some (id, true) →
  HandleHistoryEntry FMixerUser_Id FGuid_Parse x s = None.
Proof.
  unfold ReportedMessage, HandleHistoryEntry. rewrite Op_bind_run.
  destruct (ChatMessageFields FGuid_Parse (AsObject x)) as [[[[name uid] msgj] mid]|] eqn:Hf;
    [|done].
  destruct (TryGetArrayField msgj FieldNames.Message) as [arr|] eqn:Harr; [|done].
  intros [= -> Hw].
  destruct (HandleChatMessageEventInternal_run FMixerUser_Id _ _ s _ _ _ _ Hf)
      as (u & e1 & _ & -> & _).
  rewrite Harr. rewrite bool_decide_true by eauto.
  set (ms := Messages (History s)).
  set (m' := ParsedChatMessage msgj (NewChatMessage id u)).
  set (s1 := WithLast ms m' _).
  assert (Hm' : Messages (History s1) !! length ms = Some m').
  { simpl. rewrite lookup_app_r by lia. by rewrite Nat.sub_diag. }
  destruct (ParsedChatMessage_props msgj (NewChatMessage id u)) as (_ & _ & _ & Hwh).
  fold m' in Hwh. specialize (Hwh ltac:(eauto)). rewrite Hw in Hwh. simpl in Hwh.
  run_op. rewrite (ReadMessage_run _ _ _ Hm'). run_op. rewrite Hwh. by run_op.
Qed.

Lemma HandleHistoryEntries_whisper FMixerUser_Id FGuid_Parse Data x id :
  x ∈ Data → ReportedMessage FGuid_Parse x = Some (id, true) →
  ∀ s, HandleHistoryEntries FMixerUser_Id FGuid_Parse Data s = None.
Proof.
  intros Hx Hw. induction Data as [|y rest IH]; intros s; [by apply elem_of_nil in Hx|].
  simpl. rewrite Op_bind_run.
  apply elem_of_cons in Hx as [<-|Hx].
  - by rewrite (HandleHistoryEntry_whisper FMixerUser_Id _ _ _ _ Hw).
  - destruct (HandleHistoryEntry FMixerUser_Id FGuid_Parse y s) as [[[[] s1] e1]|]; [|done].
    by rewrite (IH Hx).
Qed.

Lemma UpdMessage_set_ChatHistoryNum p f n h :
  UpdMessage p f (set_ChatHistoryNum n h) = set_ChatHistoryNum n <$> UpdMessage p f h.
Proof. unfold UpdMessage. simpl. by destruct (Messages h !! p). Qed.

Lemma UpdIfValid_set_ChatHistoryNum p f n h :
  UpdIfValid p f (set_ChatHistoryNum n h) = set_ChatHistoryNum n <$> UpdIfValid p f h.
Proof. destruct p; simpl; [apply UpdMessage_set_ChatHistoryNum|done]. Qed.

Lemma DeleteFromChatHistory_set_ChatHistoryNum c n h :
  DeleteFromChatHistory c (set_ChatHistoryNum n h)
  = set_ChatHistoryNum (wrap32 (n - 1)) <$> DeleteFromChatHistory c h.
Proof.
  destruct h as [ms nw ol num mx].
  unfold DeleteFromChatHistory, UpdMessage, UpdIfValid; simpl.
  repeat first
    [ done
    | progress simpl
    | progress unfold UpdMessage, UpdIfValid
    | match goal with
      | |- context [decide ?P] => destruct (decide P)
      | |- context [(?l !! ?i) ≫= _] => destruct (l !! i)
      | |- context [match ?l !! ?i with _ => _ end] => destruct (l !! i)
      | |- context [match ?p with Some _ => _ | None => _ end] => destruct p
      end ].
Qed.

Lemma DeleteLoop_always_set_ChatHistoryNum fuel : ∀ c n h,
  DeleteLoop fuel (λ _, true) c (set_ChatHistoryNum n h)
  = (λ r, (set_ChatHistoryNum (Decrements (length r.2) n) r.1, r.2))
      <$> DeleteLoop fuel (λ _, true) c h.
Proof.
  induction fuel as [|fuel IH]; intros [c|] n h; simpl; try done.
  destruct (Messages h !! c) as [m|]; simpl; [|done].
  rewrite DeleteFromChatHistory_set_ChatHistoryNum.
  destruct (DeleteFromChatHistory c h) as [h1|]; simpl; [|done].
  rewrite IH.
  by destruct (DeleteLoop fuel (λ _, true) (NextLink m) h1) as [[h2 calls]|].
Qed.

Lemma Decrements_in_range k : ∀ n,
  -2147483648 <= n - Z.of_nat k → n <= 2147483647 →
  Decrements k n = n - Z.of_nat k.
Proof.
  induction k as [|k IH]; intros n Hlo Hhi; simpl; [lia|].
  rewrite wrap32_id by (unfold InInt32; lia). rewrite IH; lia.
Qed.

Lemma SessionOp_bind_run {A B} (x : SessionOp A) (f : A → SessionOp B) S :
  (x ≫= f) S =
  match x S with
  | None => None
  | Some (a, S1, e1) =>
      match f a S1 with
      | None => None
      | Some (b, S2, e2) => Some (b, S2, e1 ++ e2)
      end
  end.
Proof. reflexivity. Qed.

Ltac run_session :=
  repeat first
    [ rewrite SessionOp_bind_run
    | progress cbn [GetSession ModifySession EmitSession AbortSession mret SessionOp_ret app] ].

(** The notifications to the chat interface and what was sent, among the
    effects of a life cycle method. *)
Lemma CloseWebSocket_run S :
  CloseWebSocket S =
  match WebSocket (Chat S) with
  | Some ws =>
      Some (tt,
            set_Chat (set_WebSocket None (set_bIsReady false (Chat S))) S,
            WebSocket_RemoveAll :: (if IsConnected ws then [WebSocket_Close] else []))
  | None => Some (tt, S, [])
  end.
Proof.
  unfold CloseWebSocket. run_session.
  destruct (WebSocket (Chat S)) as [ws|]; [|done].
  run_session. destruct (IsConnected ws); by run_session.
Qed.

Lemma OpenWebSocket_run S SelectedIndex CreatedSocket SelectedEndpoint :
  0 <= SelectedIndex →
  Endpoints S !! Z.to_nat SelectedIndex = Some SelectedEndpoint →
  OpenWebSocket true SelectedIndex CreatedSocket S =
  Some (tt, set_Chat (set_WebSocket CreatedSocket (Chat S)) S,
        [UE_LOG_Session ELogVerbosity.Verbose (OpeningWebSocket SelectedEndpoint);
         CreateWebSocket SelectedEndpoint ["wss"; "ws"]]
        ++ match CreatedSocket with
           | Some _ => [WebSocket_AddRaw; WebSocket_Connect]
           | None => []
           end).
Proof.
  intros Hi He. unfold OpenWebSocket. run_session.
  rewrite bool_decide_true by done. rewrite He. run_session.
  destruct CreatedSocket; by run_session.
Qed.

Lemma OpenWebSocket_no_endpoint W S SelectedIndex CreatedSocket :
  Endpoints S = [] → OpenWebSocket W SelectedIndex CreatedSocket S = None.
Proof.
  intros He. unfold OpenWebSocket. destruct W; run_session; [|done].
  rewrite He. by destruct (bool_decide _).
Qed.

Lemma ChatEffectsOf_app e1 e2 : ChatEffectsOf (e1 ++ e2) = ChatEffectsOf e1 ++ ChatEffectsOf e2.
Proof. apply omap_app. Qed.

Lemma OnChatSocketClosed_run W StatusCode Reason bWasClean SelectedIndex CreatedSocket S :
  OnChatSocketClosed W StatusCode Reason bWasClean SelectedIndex CreatedSocket S =
  match CloseWebSocket S with
  | Some (_, S1, e1) =>
      if bRejoinOnDisconnect S then
        match OpenWebSocket W SelectedIndex CreatedSocket S1 with
        | Some (_, S2, e2) =>
            Some (tt, S2,
                  UE_LOG_Session ELogVerbosity.Warning (ChatWebsocketClosed Reason)
                  :: e1 ++ UE_LOG_Session ELogVerbosity.Warning AttemptingAutomaticReconnect
                  :: e2)
        | None => None
        end
      else
        Some (tt, S1,
              UE_LOG_Session ELogVerbosity.Warning (ChatWebsocketClosed Reason)
              :: e1 ++ [ChatEffect (if bIsReady (Chat S)
                                    then ExitRoomWithReason bWasClean Reason
                                    else ConnectAttemptFinished false Reason)])
  | None => None
  end.
Proof.
  unfold OnChatSocketClosed. run_session.
  pose proof (CloseWebSocket_run S) as Hc.
  destruct (WebSocket (Chat S)) as [ws|]; rewrite Hc; simpl.
  - destruct (bRejoinOnDisconnect S); run_session.
    + by destruct (OpenWebSocket _ _ _ _) as [[[[] S2] e2]|].
    + destruct (bIsReady (Chat S)); by run_session.
  - destruct (bRejoinOnDisconnect S); run_session.
    + by destruct (OpenWebSocket _ _ _ _) as [[[[] S2] e2]|].
    + destruct (bIsReady (Chat S)); by run_session.
Qed.

Lemma OnDiscoverChatServersComplete_run W IsOk AsString HttpResponse bSucceeded
    SelectedIndex CreatedSocket S :
  OnDiscoverChatServersComplete W IsOk AsString HttpResponse bSucceeded SelectedIndex
    CreatedSocket S =
  match UsableResponse IsOk HttpResponse bSucceeded with
  | Some ResponseObject =>
      match TryGetArrayField ResponseObject FieldNames.Endpoints with
      | Some JsonEndpoints =>
          let S1 := set_Endpoints (Endpoints S ++ (AsString <$> JsonEndpoints)) S in
          let S2 := match TryGetStringField ResponseObject FieldNames.AuthKey with
                    | Some k => set_AuthKey k S1
                    | None => S1
                    end in
          match OpenWebSocket W SelectedIndex CreatedSocket S2 with
          | Some (_, S3, e3) =>
              Some (tt, S3,
                    e3 ++ match WebSocket (Chat S3) with
                          | None => [ChatEffect (ConnectAttemptFinished false
                                                   "Failed to create web socket")]
                          | Some _ => []
                          end)
          | None => None
          end
      | None =>
          Some (tt, S,
                match WebSocket (Chat S) with
                | None => [ChatEffect (ConnectAttemptFinished false
                                         "Failed to create web socket")]
                | Some _ => []
                end)
      end
  | None =>
      Some (tt, S,
            match WebSocket (Chat S) with
            | None => [ChatEffect (ConnectAttemptFinished false
                                     "Failed to create web socket")]
            | Some _ => []
            end)
  end.
Proof.
  assert (Htail : ∀ S0 : FMixerChatSession,
            (S ← GetSession;
             match WebSocket (Chat S) with
             | None => EmitSession (ChatEffect (ConnectAttemptFinished false
                                                  "Failed to create web socket"))
             | Some _ => mret tt
             end) S0
            = Some (tt, S0,
                    match WebSocket (Chat S0) with
                    | None => [ChatEffect (ConnectAttemptFinished false
                                             "Failed to create web socket")]
                    | Some _ => []
                    end)).
  { intros S0. run_session. by destruct (WebSocket (Chat S0)). }
  unfold OnDiscoverChatServersComplete, UsableResponse.
  destruct HttpResponse as [Response|];
    [|rewrite SessionOp_bind_run; cbn [mret SessionOp_ret]; by rewrite Htail].
  destruct (bSucceeded && IsOk (GetResponseCode Response));
    [|rewrite SessionOp_bind_run; cbn [mret SessionOp_ret]; by rewrite Htail].
  destruct (GetContentAsJson Response) as [o|];
    [|rewrite SessionOp_bind_run; cbn [mret SessionOp_ret]; by rewrite Htail].
  destruct (TryGetArrayField o FieldNames.Endpoints) as [arr|];
    [|rewrite SessionOp_bind_run; cbn [mret SessionOp_ret]; by rewrite Htail].
  rewrite SessionOp_bind_run.
  destruct (TryGetStringField o FieldNames.AuthKey) as [k|]; run_session;
    (destruct (OpenWebSocket _ _ _ _) as [[[[] S3] e3]|]; [|done]);
    rewrite Htail; by rewrite ?app_nil_r.
Qed.

Lemma JoinDiscoveredChatChannel_run AuthZHeaderValue ProcessRequestResult S :
  JoinDiscoveredChatChannel AuthZHeaderValue ProcessRequestResult S =
  Some (tt, S,
        (if bool_decide (0 < String.length AuthZHeaderValue)%nat
         then [ProcessRequest (ChatsUrl (ChannelId S)) (Some AuthZHeaderValue)]
         else [UE_LOG_Session ELogVerbosity.Warning NoAuthTokenFound;
               ProcessRequest (ChatsUrl (ChannelId S)) None])
        ++ (if ProcessRequestResult then []
            else [ChatEffect (ConnectAttemptFinished false
                    "Failed to send request for chat web socket connection info.")])).
Proof.
  unfold JoinDiscoveredChatChannel. run_session.
  destruct (bool_decide (0 < String.length AuthZHeaderValue)%nat),
    ProcessRequestResult; by run_session.
Qed.

Lemma OnGetChannelInfoForRoomIdComplete_run IsOk HttpResponse bSucceeded AuthZHeaderValue
    ProcessRequestResult S :
  OnGetChannelInfoForRoomIdComplete IsOk HttpResponse bSucceeded AuthZHeaderValue
    ProcessRequestResult S =
  let S1 := match UsableResponse IsOk HttpResponse bSucceeded
                  ≫= (λ o, TryGetNumberField o FieldNames.Id) with
            | Some n => set_ChannelId n S
            | None => S
            end in
  if bool_decide (ChannelId S1 ≠ 0)
  then JoinDiscoveredChatChannel AuthZHeaderValue ProcessRequestResult S1
  else Some (tt, S1,
             [ChatEffect (ConnectAttemptFinished false
                            "Could not find Mixer chat channel for room id.")]).
Proof.
  assert (Htail : ∀ S0 : FMixerChatSession,
            (S ← GetSession;
             if bool_decide (ChannelId S ≠ 0)
             then JoinDiscoveredChatChannel AuthZHeaderValue ProcessRequestResult
             else EmitSession (ChatEffect (ConnectAttemptFinished false
                                 "Could not find Mixer chat channel for room id."))) S0
            = if bool_decide (ChannelId S0 ≠ 0)
              then JoinDiscoveredChatChannel AuthZHeaderValue ProcessRequestResult S0
              else Some (tt, S0,
                         [ChatEffect (ConnectAttemptFinished false
                                        "Could not find Mixer chat channel for room id.")])).
  { intros S0. rewrite SessionOp_bind_run. cbn [GetSession].
    destruct (bool_decide (ChannelId S0 ≠ 0)).
    - rewrite JoinDiscoveredChatChannel_run. done.
    - by run_session. }
  unfold OnGetChannelInfoForRoomIdComplete, UsableResponse.
  rewrite SessionOp_bind_run.
  destruct HttpResponse as [Response|]; simpl.
  2:{ rewrite Htail. destruct (bool_decide _); [|done].
      by rewrite JoinDiscoveredChatChannel_run. }
  destruct (bSucceeded && IsOk (GetResponseCode Response)); simpl.
  2:{ rewrite Htail. destruct (bool_decide _); [|done].
      by rewrite JoinDiscoveredChatChannel_run. }
  destruct (GetContentAsJson Response) as [o|]; simpl.
  2:{ rewrite Htail. destruct (bool_decide _); [|done].
      by rewrite JoinDiscoveredChatChannel_run. }
  destruct (TryGetNumberField o FieldNames.Id) as [n|]; simpl.
  all: rewrite Htail; destruct (bool_decide _); [|done];
    by rewrite JoinDiscoveredChatChannel_run.
Qed.

(** The reply to an [auth] call, on the connection as [SendAuth] leaves
    it. *)
Lemma HandleAuthReply_after_SendAuth FMixerUser_Id FGuid_Parse s ws Reply :
  PendingBelow s →
  InInt32 (MessageId s) → MessageId s + 2 <= 2147483647 →
  WebSocket s = Some ws →
  TryGetStringField Reply FieldNames.Type_ = Some MessageTypes.Reply →
  TryGetNumberField Reply FieldNames.Id = Some (MessageId s) →
  let s1 := set_MessageId (wrap32 (MessageId s + 1))
              (set_ReplyHandlers
                 (<[MessageId s := Some Ptr_HandleAuthReply]> (ReplyHandlers s)) s) in
  match TryGetObjectField Reply FieldNames.Error with
  | Some ErrorObj =>
      ∃ s2,
        OnChatPacketInternal FMixerUser_Id FGuid_Parse Reply s1 =
          Some (true, s2,
                [ConnectAttemptFinished false
                   (default EmptyString
                      (TryGetStringField ErrorObj FieldNames.Message))])
        ∧ bIsReady s2 = bIsReady s
        ∧ ReplyHandlers s2 = ReplyHandlers s
  | None =>
      ∃ s2 e2,
        OnChatPacketInternal FMixerUser_Id FGuid_Parse Reply s1 = Some (true, s2, e2)
        ∧ bIsReady s2 = true
        ∧ ReplyHandlers s2 !! MessageId s = None
        ∧ PendingBelow s2
        ∧ e2 =
            (if bool_decide (0 < ChatHistoryMax (History s))
             then [WebSocket_Send
                     (WriteRemoteMethodPacket MethodNames.History (MessageId s + 1)
                        [JsonNumber (Z.min (ChatHistoryMax (History s)) 100)])]
             else [])
            ++ [ConnectAttemptFinished true EmptyString]
        ∧ (0 < ChatHistoryMax (History s) →
           ReplyHandlers s2 !! (MessageId s + 1) = Some (Some Ptr_HandleHistoryReply))
        ∧ WebSocket s2 = Some ws
  end.
Proof.
  intros Hp Hin Hmax Hws Hty Hid s1.
  pose proof (PendingBelow_free s Hp) as Hfree.
  assert (Hw1 : wrap32 (MessageId s + 1) = MessageId s + 1)
    by (apply wrap32_id; unfold InInt32 in *; lia).
  assert (Hdel : delete (MessageId s) (ReplyHandlers s1) = ReplyHandlers s).
  { simpl. by rewrite delete_insert_eq, delete_id. }
  assert (Hreply := OnChatPacketInternal_reply FMixerUser_Id FGuid_Parse Reply s1 (MessageId s) Hty Hid).
  assert (Hlk : ReplyHandlers s1 !! MessageId s = Some (Some Ptr_HandleAuthReply))
    by (simpl; apply lookup_insert_eq).
  rewrite Hlk in Hreply. cbn zeta in Hreply. rewrite Hdel in Hreply.
  set (s1' := set_ReplyHandlers (ReplyHandlers s) s1) in *.
  simpl in Hreply.
  destruct (TryGetObjectField Reply FieldNames.Error) as [ErrorObj|] eqn:Herr.
  - rewrite (HandleAuthReply_error Reply s1' ErrorObj Herr) in Hreply.
    by exists s1'.
  - destruct (decide (0 < ChatHistoryMax (History s))) as [Hpos|Hnpos].
    + assert (Hfree1 : ReplyHandlers s1' !! MessageId s1' = None).
      { simpl. rewrite Hw1. destruct (ReplyHandlers s !! (MessageId s + 1)) eqn:E; [|done].
        specialize (Hp (MessageId s + 1) ltac:(by rewrite E)). lia. }
      rewrite (HandleAuthReply_history Reply s1' ws Herr Hpos Hfree1 Hws) in Hreply.
      eexists _, _. split; [exact Hreply|]. simpl. rewrite Hw1.
      rewrite bool_decide_true by done.
      split_and!; try done.
      * rewrite lookup_insert_ne by lia. done.
      * intros k. simpl. rewrite wrap32_id by (unfold InInt32 in *; lia).
        destruct (decide (k = MessageId s + 1)) as [->|Hk]; [lia|].
        rewrite lookup_insert_ne by done. intros Hk'. specialize (Hp k Hk'). lia.
      * intros _. apply lookup_insert_eq.
    + rewrite (HandleAuthReply_no_history Reply s1' Herr ltac:(simpl; lia)) in Hreply.
      eexists _, _. split; [exact Hreply|]. simpl.
      rewrite bool_decide_false by done.
      split_and!; try done.
      unfold PendingBelow. simpl. intros k Hk. rewrite Hw1. specialize (Hp k Hk). lia.
Qed.

Lemma OnChat_run {A} (o : Op A) S :
  OnChat o S =
  match o (Chat S) with
  | Some (a, c, e) => Some (a, set_Chat c S, ChatEffect <$> e)
  | None => None
  end.
Proof. done. Qed.

Lemma ChatEffectsOf_fmap e : ChatEffectsOf (ChatEffect <$> e) = e.
Proof. induction e as [|x e IH]; [done|]. simpl. by f_equal. Qed.

Lemma ChatEffectsOf_log_cons v l e :
  ChatEffectsOf (UE_LOG_Session v l :: e) = ChatEffectsOf e.
Proof. done. Qed.

(** * Lemmas on failures and on member notifications *)

(** ** Failures that do not drop the frame *)

Lemma HandleChatMessageEventMessageArrayEntry_failure FragmentObj ChatMessage s :
  TryGetStringField FragmentObj FieldNames.Type_ = None
  ∨ TryGetStringField FragmentObj FieldNames.Text = None →
  ∃ FieldName,
    HandleChatMessageEventMessageArrayEntry FragmentObj ChatMessage s =
      Some (false, s, [UE_LOG ELogVerbosity.Error (MissingRequiredField FieldName)]).
Proof.
  intros H. unfold HandleChatMessageEventMessageArrayEntry,
    GET_JSON_STRING_RETURN_FAILURE, GET_JSON_FIELD_RETURN_FAILURE.
  destruct (TryGetStringField FragmentObj FieldNames.Type_) as [ty|].
  - destruct (TryGetStringField FragmentObj FieldNames.Text) as [tx|].
    + by destruct H.
    + run_op. by eexists.
  - run_op. by eexists.
Qed.

Lemma HandleChatMessageEventMessageFragments_skip FragmentObj rest ChatMessage s FieldName :
  HandleChatMessageEventMessageArrayEntry FragmentObj ChatMessage s =
    Some (false, s, [UE_LOG ELogVerbosity.Error (MissingRequiredField FieldName)]) →
  HandleChatMessageEventMessageFragments (JsonObject FragmentObj :: rest) ChatMessage s =
    match HandleChatMessageEventMessageFragments rest ChatMessage s with
    | Some (_, s', e) =>
        Some (tt, s', UE_LOG ELogVerbosity.Error (MissingRequiredField FieldName) :: e)
    | None => None
    end.
Proof.
  intros Hrun. simpl. run_op. rewrite Hrun. run_op.
  by destruct (HandleChatMessageEventMessageFragments rest ChatMessage s) as [[[[] s'] e]|].
Qed.

Lemma HandleChatMessageEventInternal_failure FMixerUser_Id FGuid_Parse JsonObj s :
  match ChatMessageFields FGuid_Parse JsonObj with
  | Some (_, _, MessageJson, _) => TryGetArrayField MessageJson FieldNames.Message = None
  | None => True
  end →
  ∃ om s1 e1,
    HandleChatMessageEventInternal FMixerUser_Id FGuid_Parse JsonObj s =
      Some ((false, om), s1, e1)
    ∧ ErrorsOf e1 ≠ [] ∧ SameRouting s s1 ∧ SameHistory s s1.
Proof.
  destruct (ChatMessageFields FGuid_Parse JsonObj) as [[[[name uid] msgj] mid]|] eqn:Hf.
  - intros Harr.
    destruct (HandleChatMessageEventInternal_run FMixerUser_Id _ _ s _ _ _ _ Hf)
      as (u & e1 & _ & Hrun & _ & _ & Herr).
    rewrite Harr in Hrun. rewrite bool_decide_false in Hrun by (by intros []).
    eexists _, _, _. split; [exact Hrun|]. split; [by apply Herr|].
    split; [done|]. unfold SameHistory. simpl. split_and!; try done.
    by apply prefix_app_r.
  - intros _.
    destruct (HandleChatMessageEventInternal_fields_missing FMixerUser_Id _ _ s Hf)
      as (l & Hrun).
    eexists _, _, _. split; [exact Hrun|]. split; [done|].
    split; [apply SameRouting_refl|apply SameHistory_refl].
Qed.

Lemma ReportedMessage_None FGuid_Parse HistoryEntry :
  ReportedMessage FGuid_Parse HistoryEntry = None →
  match ChatMessageFields FGuid_Parse (AsObject HistoryEntry) with
  | Some (_, _, MessageJson, _) => TryGetArrayField MessageJson FieldNames.Message = None
  | None => True
  end.
Proof.
  unfold ReportedMessage.
  destruct (ChatMessageFields _ _) as [[[[name uid] msgj] mid]|]; [|done].
  by destruct (TryGetArrayField msgj FieldNames.Message).
Qed.

Lemma HandleHistoryEntry_skip FMixerUser_Id FGuid_Parse HistoryEntry rest s :
  ReportedMessage FGuid_Parse HistoryEntry = None →
  ∃ s1 e1,
    HandleHistoryEntry FMixerUser_Id FGuid_Parse HistoryEntry s = Some (tt, s1, e1)
    ∧ ErrorsOf e1 ≠ [] ∧ SameRouting s s1 ∧ SameHistory s s1
    ∧ HandleHistoryEntries FMixerUser_Id FGuid_Parse (HistoryEntry :: rest) s =
        match HandleHistoryEntries FMixerUser_Id FGuid_Parse rest s1 with
        | Some (_, s2, e2) => Some (tt, s2, e1 ++ e2)
        | None => None
        end.
Proof.
  intros Hx%ReportedMessage_None.
  destruct (HandleChatMessageEventInternal_failure FMixerUser_Id _ _ s Hx)
    as (om & s1 & e1 & Hrun & Herr & Hrt & Hh).
  assert (Hentry : HandleHistoryEntry FMixerUser_Id FGuid_Parse HistoryEntry s
                   = Some (tt, s1, e1)).
  { unfold HandleHistoryEntry. rewrite Op_bind_run, Hrun. run_op. by rewrite app_nil_r. }
  exists s1, e1. split_and!; try done.
  simpl. rewrite Op_bind_run, Hentry.
  by destruct (HandleHistoryEntries FMixerUser_Id FGuid_Parse rest s1) as [[[[] s2] e2]|].
Qed.

(** ** Members joining and leaving, counted *)





















(** ** Deleting every message of a well-formed history *)

(** On a well-formed history [DeleteFromChatHistoryIf] with the predicate
    that is always true leaves [ChatHistoryNum] at 0 and both ends null;
    every message that was linked is flagged, cleared and unlinked, the
    predicate having been called once on each, in the order of the chain. *)
Lemma DeleteFromChatHistoryIf_always_true (h : FChatHistory) (l : list nat) :
  HistoryChain h l →
  ChatHistoryNum h <= 2147483647 →
  ∃ h' calls,
    DeleteFromChatHistoryIf (λ _, true) h = Some (h', calls)
    ∧ ChatHistoryNum h' = 0
    ∧ ChatHistoryNewest h' = None
    ∧ ChatHistoryOldest h' = None
    ∧ calls = l ∧ NoDup calls
    ∧ (∀ a, a ∈ l →
         ∃ m m', Messages h !! a = Some m ∧ Messages h' !! a = Some m'
           ∧ GetBody m' = EmptyString ∧ IsModerated m' = true
           ∧ GetMessageId m' = GetMessageId m
           ∧ NextLink m' = None ∧ PrevLink m' = None)
    ∧ (∀ b, b ∉ l → Messages h' !! b = Messages h !! b).
Proof.
  intros Hc Hnum.
  destruct (DeleteFromChatHistoryIf_chain (λ _, true) h l) as (h' & Hrun & Hc' & _ & Hfr & Htb & _);
    try done.
  rewrite filter_all_false in Hc'.
  2:{ intros a Ha. unfold PredicateAt. destruct Hc as ([_ Hs] & _).
      by destruct (Seg_lookup _ _ _ _ _ Hs Ha) as [m ->]. }
  destruct Hc' as (_ & Hn & Ho & Hnum').
  exists h', l. split_and!; try done.
  - apply Hc.
  - intros a Ha. destruct Hc as ([_ Hs] & _).
    destruct (Seg_lookup _ _ _ _ _ Hs Ha) as [m Hm].
    exists m, (Tombstone m). split_and!; try done. by apply Htb.
Qed.
(** * The claims *)

(** Claim C1.  Every operation that changes the history is to keep
    [HistoryInvariant]: [ChatHistoryNum] is the number of linked messages and
    is at most [ChatHistoryMax], [ChatHistoryNewest] and [ChatHistoryOldest]
    are null exactly when it is 0, and neighbours point at each other.
    [AddMessageToChatHistory] and [DeleteFromChatHistoryIf] keep it (the two
    preservation lemmas above).  The merge of [HandleHistoryReply] does not:
    on a connection that holds one message and has room for five, a reply
    with an empty history leaves [ChatHistoryNum] at 0 and [ChatHistoryMax]
    at 4 while [ChatHistoryNewest] and [ChatHistoryOldest] still point at the
    message, which [GetMessageHistory] still returns. *)
Theorem HandleHistoryReply_breaks_history_invariant :
  HistoryInvariant (History (ExampleConnectionWithMessage 5))
  ∧ ∃ s' e,
      HandleHistoryReply ExampleFMixerUserId ExampleGuidParse (ExampleHistory [])
        (ExampleConnectionWithMessage 5) = Some (true, s', e)
      ∧ ChatHistoryNum (History s') = 0
      ∧ ChatHistoryNewest (History s') = Some 0%nat
      ∧ ChatHistoryOldest (History s') = Some 0%nat
      ∧ ChatHistoryMax (History s') = 4
      ∧ GetMessageHistory (-1) [] (History s') = Some [0%nat]
      ∧ ¬ HistoryInvariant (History s').
Proof.
  split.
  - exists [0%nat]. unfold HistoryChain, Linked.
    split_and!; try (by vm_compute).
    + apply NoDup_singleton.
    + eexists. by vm_compute.
  - eexists _, _. split; [vm_compute; reflexivity|].
    split_and!; try done.
    intros (l & (_ & Hnew & _ & Hnum) & _).
    vm_compute in Hnew, Hnum. destruct l; done.
Qed.

(** Claim C2.  Pushing the messages [pushed], one call of
    [AddMessageToChatHistory] each, into a well-formed history with
    [ChatHistoryMax] = M leaves [0 <= ChatHistoryNum <= M] and links exactly
    the M most recently pushed messages that are no whispers, newest first
    (what was linked before counts as pushed earlier); a push with [M <= 0]
    or of a whisper leaves the history as it was; and with M = 3, pushing
    the ids 1, 2, 3, 4 retains 4, 3, 2 with newest 4 and oldest 2. *)
Theorem AddMessageToChatHistory_retains_most_recent :
  (∀ (h : FChatHistory) (l pushed : list nat),
     HistoryChain h l →
     ChatHistoryNum h <= ChatHistoryMax h →
     ChatHistoryMax h < 2147483647 →
     NoDup pushed →
     (∀ a, a ∈ pushed →
           (a ∉ l) ∧ (∃ m, Messages h !! a = Some m ∧ PrevLink m = None)) →
     ∃ h', AddMessagesToChatHistory pushed h = Some h'
       ∧ ∃ retained,
           retained = take (Z.to_nat (ChatHistoryMax h))
                        (reverse (List.filter (NotWhisperAt (Messages h)) pushed) ++ l)
         ∧ ChatHistoryMax h' = ChatHistoryMax h
         ∧ 0 <= ChatHistoryNum h'
         ∧ (0 <= ChatHistoryMax h → ChatHistoryNum h' <= ChatHistoryMax h)
         ∧ HistoryChain h' retained
         ∧ GetMessageHistory (-1) [] h' = Some retained
         ∧ SameContents (Messages h) (Messages h'))
  ∧ (∀ (h : FChatHistory) (a : nat) (m : FChatMessageMixerImpl),
       Messages h !! a = Some m →
       ChatHistoryMax h <= 0 ∨ IsWhisper m = true →
       AddMessageToChatHistory a h = Some h)
  ∧ (∃ h', AddMessagesToChatHistory [0; 1; 2; 3]%nat ScenarioHistory = Some h'
       ∧ ∃ retained, GetMessageHistory (-1) [] h' = Some retained
           ∧ MessageIdsAt (Messages h') retained = [4; 3; 2]%N
           ∧ MessageIdsAt (Messages h') (option_list (ChatHistoryNewest h')) = [4%N]
           ∧ MessageIdsAt (Messages h') (option_list (ChatHistoryOldest h')) = [2%N]
           ∧ ChatHistoryNum h' = 3).
Proof.
  split_and!.
  - intros h l pushed Hc Hle Hmax Hnd Hfresh.
    destruct (decide (0 < ChatHistoryMax h)) as [Hpos|Hnpos].
    + destruct (AddMessagesToChatHistory_chain pushed h l)
        as (h' & Hrun & Hc' & Hmx & Hsc & _); try done.
      exists h'. split; [done|]. eexists; split; [reflexivity|].
      pose proof Hc' as (_ & _ & _ & Hn).
      split_and!; try done.
      * lia.
      * intros _. rewrite Hn, length_take. lia.
      * by apply (GetMessageHistory_chain h' _ []).
    + assert (l = []) as -> by (eapply HistoryChain_nil_inv; [done|lia]).
      rewrite AddMessagesToChatHistory_noop; [|lia|].
      2:{ intros a Ha. destruct (Hfresh a Ha) as (_ & m & -> & _). done. }
      exists h. split; [done|]. eexists; split; [reflexivity|].
      replace (Z.to_nat (ChatHistoryMax h)) with 0%nat by lia. rewrite take_0.
      pose proof Hc as (_ & _ & _ & Hn). simpl in Hn.
      split_and!; try done; try lia.
      by apply (GetMessageHistory_chain h [] []).
  - apply AddMessageToChatHistory_noop.
  - eexists. split; [vm_compute; reflexivity|].
    eexists. split; [vm_compute; reflexivity|]. by vm_compute.
Qed.

(** Claim C2 at the scenario: the pushes of the four messages into
    [ScenarioHistory], and a push into a history without room. *)
Lemma AddMessageToChatHistory_retains_most_recent_witness :
  ∃ h', AddMessagesToChatHistory [0; 1; 2; 3]%nat ScenarioHistory = Some h'
    ∧ HistoryChain h' [3; 2; 1]%nat
    ∧ AddMessageToChatHistory 0 (set_ChatHistoryMax 0 ScenarioHistory)
      = Some (set_ChatHistoryMax 0 ScenarioHistory).
Proof.
  destruct AddMessageToChatHistory_retains_most_recent as (Hpush & Hnoop & _).
  destruct (Hpush ScenarioHistory [] [0; 1; 2; 3]%nat)
    as (h' & Hrun & retained & Hret & _ & _ & _ & Hc & _).
  - unfold HistoryChain, Linked. split_and!; try done. apply NoDup_nil_2.
  - vm_compute. discriminate.
  - reflexivity.
  - repeat constructor; set_solver.
  - intros a Ha. split; [set_solver|].
    repeat (apply elem_of_cons in Ha as [->|Ha]; [eexists; split; reflexivity|]).
    by apply elem_of_nil in Ha.
  - exists h'. split; [done|]. split.
    + by subst retained.
    + apply (Hnoop _ 0%nat (NewChatMessage 1%N ScenarioUser)); [reflexivity|left; simpl; lia].
Defined.

(** Claim C3 as stated fails when the server reports more than fits: with one
    local message and room for two, a reply reporting two messages with
    other ids leaves [ChatHistoryNum] at 2, not at 1 + 2. *)
Lemma HandleHistoryReply_disjoint_count_is_capped :
  let s := ExampleConnectionWithMessage 2 in
  let Data := [JsonObject (ExampleChatMessage "m2" 8 "al" "a");
               JsonObject (ExampleChatMessage "m3" 8 "al" "b")] in
  HistoryInvariant (History s)
  ∧ GetMessageHistory (-1) [] (History s) = Some [0%nat]
  ∧ MessageIdsAt (Messages (History s)) [0%nat] = [1%N]
  ∧ ChatHistoryNum (History s) = 1
  ∧ ReportedIds ExampleGuidParse Data = [2%N; 3%N]
  ∧ ∃ s' e,
      HandleHistoryReply ExampleFMixerUserId ExampleGuidParse (ExampleHistory Data) s
          = Some (true, s', e)
      ∧ ChatHistoryNum (History s') = 2
      ∧ ChatHistoryNum (History s') ≠
          ChatHistoryNum (History s) + Z.of_nat (length (ReportedIds ExampleGuidParse Data)).
Proof.
  split.
  { exists [0%nat]. unfold HistoryChain, Linked.
    split_and!; try (by vm_compute).
    + apply NoDup_singleton.
    + eexists. by vm_compute. }
  split; [by vm_compute|]. split; [by vm_compute|]. split; [by vm_compute|].
  split; [by vm_compute|].
  eexists _, _. split; [vm_compute; reflexivity|].
  split; by vm_compute.
Qed.

(** Claim C3, amended.  When [HandleHistoryReply] merges a reported history
    that shares no message id with the local one, and the local history is
    empty or at least one reported message is retained, the retained
    messages are the newest [ChatHistoryMax - ChatHistoryNum] reported ones,
    linked behind the local chain; [ChatHistoryNum] grows by their number,
    which is the minimum of the number reported and of the room left; the
    local messages keep their content at the newest end; and
    [ChatHistoryMax] is as before the merge. *)
Theorem HandleHistoryReply_disjoint_histories (FMixerUser_Id : Z) :
  ∀ (FGuid_Parse : string → option FGuid) (JsonObj : FJsonObject)
    (s : FMixerChatConnection) (Data : list FJsonValue) (l_loc : list nat),
    TryGetArrayField JsonObj FieldNames.Data = Some Data →
    HistoryChain (History s) l_loc →
    ChatHistoryNum (History s) <= ChatHistoryMax (History s) →
    ChatHistoryMax (History s) < 2147483647 →
    NoWhisperReported FGuid_Parse Data →
    (∀ a m, a ∈ l_loc → Messages (History s) !! a = Some m →
            GetMessageId m ∉ ReportedIds FGuid_Parse Data) →
    l_loc = []
    ∨ take (Z.to_nat (ChatHistoryMax (History s) - ChatHistoryNum (History s)))
           (reverse (ReportedIds FGuid_Parse Data)) ≠ [] →
    ∃ s' e l_srv kept,
      HandleHistoryReply FMixerUser_Id FGuid_Parse JsonObj s = Some (true, s', e)
      ∧ kept = take (Z.to_nat (ChatHistoryMax (History s) - ChatHistoryNum (History s)))
                    (reverse (ReportedIds FGuid_Parse Data))
      ∧ HistoryChain (History s') (l_loc ++ l_srv)
      ∧ MessageIdsAt (Messages (History s')) l_srv = kept
      ∧ ChatHistoryNum (History s') = ChatHistoryNum (History s) + Z.of_nat (length kept)
      ∧ Z.of_nat (length kept) =
          Z.min (Z.of_nat (length (ReportedIds FGuid_Parse Data)))
                (ChatHistoryMax (History s) - ChatHistoryNum (History s))
      ∧ ChatHistoryMax (History s') = ChatHistoryMax (History s)
      ∧ (∀ a, a ∈ l_loc →
              Content <$> Messages (History s') !! a = Content <$> Messages (History s) !! a).
Proof.
  intros FGuid_Parse JsonObj s Data l_loc Hdata Hc Hle Hmax Hnw Hdisj Hcase.
  destruct (HandleHistoryReply_entries FMixerUser_Id _ _ _ _ _ Hdata Hc Hle Hmax Hnw)
    as (s1 & e1 & l_srv & Hrun & Hc1 & Hmx1 & Hids & Hl1 & Hdis & Hfr).
  set (kept := take _ _) in *.
  pose proof Hc as ([Hndl Hsl] & Hnew & Hold & Hnum).
  pose proof Hc1 as ([Hnds Hss] & Hnew1 & Hold1 & Hnum1).
  assert (Hlk : length l_srv = length kept).
  { rewrite <- Hids. rewrite MessageIdsAt_fmap; [by rewrite length_fmap|].
    intros a Ha. eapply Seg_lookup; eauto. }
  assert (Hlen : Z.of_nat (length kept) =
            Z.min (Z.of_nat (length (ReportedIds FGuid_Parse Data)))
                  (ChatHistoryMax (History s) - ChatHistoryNum (History s))).
  { unfold kept. rewrite length_take, length_reverse. lia. }
  assert (Hcont : ∀ h', SameContents (Messages (History s1)) (Messages h') →
            ∀ a, a ∈ l_loc →
              Content <$> Messages h' !! a = Content <$> Messages (History s) !! a).
  { intros h' Hsc a Ha. rewrite (Hsc a). rewrite Hfr; [done|]. eapply Seg_lt; eauto. }
  destruct (decide (l_loc = [])) as [->|Hne].
  - (* nothing local: the server's history is the history *)
    simpl in Hnew, Hold, Hnum. rewrite Hnew, Hold, Hnum in Hrun. change (Z.of_nat 0) with 0 in *.
    assert (Hrl : RelinkLocalHistory None None 0 (ChatHistoryMax (History s)) (History s1)
                  = Some (History s1)).
    { unfold RelinkLocalHistory. destruct (ChatHistoryNewest (History s1)) eqn:E; [done|].
      rewrite Hnew1 in E. destruct l_srv; [|done]. simpl in Hold1.
      destruct (History s1); simpl in *. by subst. }
    rewrite Hrl in Hrun.
    exists (set_History (History s1) s1), e1, l_srv, kept.
    split_and!; try done; simpl.
    + lia.
    + lia.
    + intros a Ha. by apply elem_of_nil in Ha.
  - destruct (last l_loc) as [lo|] eqn:Hlast; [|by apply last_None in Hlast].
    apply last_Some in Hlast as [l' ->].
    assert (Hsrv : l_srv ≠ []).
    { destruct Hcase as [?|Hk]; [done|]. intros ->. simpl in Hlk.
      destruct kept; [done|]. simpl in Hlk. lia. }
    destruct (Seg_last _ _ _ _ _ Hsl) as (mlo & Hlo & _).
    destruct (RelinkLocalHistory_no_dupe (History s1) l' lo l_srv (ChatHistoryMax (History s)))
      as (h' & Hrl & Hc' & Hmx' & Hsc'); try done.
    { intros mlo' a m Hlo' Ha Hm Heq.
      assert (Hlo1 : Messages (History s1) !! lo = Some mlo).
      { rewrite Hfr; [done|]. by eapply lookup_lt_Some. }
      assert (mlo' = mlo) as -> by congruence.
      apply (Hdisj lo mlo); [set_solver|done|].
      assert (Hin : GetMessageId m ∈ kept).
      { rewrite <- Hids. by eapply MessageIdsAt_elem_2. }
      rewrite <- Heq. unfold kept in Hin. apply elem_of_take in Hin as (i & Hin & _).
      apply list_elem_of_lookup_2 in Hin. by rewrite elem_of_reverse in Hin. }
    { rewrite Hlk. rewrite <- Hnum. lia. }
    rewrite Hnew, Hold, Hnum, Hrl in Hrun.
    exists (set_History h' s1), e1, l_srv, kept.
    split_and!; try done; simpl.
    + rewrite <- Hids. apply MessageIdsAt_ext. intros a Ha. apply Hsc'.
    + destruct Hc' as (_ & _ & _ & ->). rewrite length_app, Hlk. lia.
    + by apply Hcont.
Qed.

(** Claim C3, amended, at a connection holding [m1] with room for five,
    when the server reports [m2] and [m3]. *)
Lemma HandleHistoryReply_disjoint_histories_witness :
  ∃ s' e,
    HandleHistoryReply ExampleFMixerUserId ExampleGuidParse
      (ExampleHistory [JsonObject (ExampleChatMessage "m2" 8 "al" "a");
                       JsonObject (ExampleChatMessage "m3" 8 "al" "b")])
      (ExampleConnectionWithMessage 5) = Some (true, s', e)
    ∧ ChatHistoryNum (History s') = 3
    ∧ ChatHistoryMax (History s') = 5
    ∧ ∃ l_srv, HistoryChain (History s') ([0%nat] ++ l_srv)
        ∧ MessageIdsAt (Messages (History s')) l_srv = [3%N; 2%N].
Proof.
  destruct (HandleHistoryReply_disjoint_histories ExampleFMixerUserId ExampleGuidParse
              (ExampleHistory [JsonObject (ExampleChatMessage "m2" 8 "al" "a");
                               JsonObject (ExampleChatMessage "m3" 8 "al" "b")])
              (ExampleConnectionWithMessage 5)
              [JsonObject (ExampleChatMessage "m2" 8 "al" "a");
               JsonObject (ExampleChatMessage "m3" 8 "al" "b")]
              [0%nat])
    as (s' & e & l_srv & kept & Hrun & Hkept & Hc & Hids & Hnum & _ & Hmax & _).
  - reflexivity.
  - exact ExampleConnectionWithMessage_chain.
  - vm_compute. discriminate.
  - reflexivity.
  - intros x id w Hx Hr.
    repeat (apply elem_of_cons in Hx as [->|Hx]; [vm_compute in Hr; congruence|]).
    by apply elem_of_nil in Hx.
  - intros a m Ha Hm. apply list_elem_of_singleton in Ha as ->.
    vm_compute in Hm. injection Hm as <-.
    intros Hin. vm_compute in Hin.
    repeat (apply elem_of_cons in Hin as [Hin|Hin]; [discriminate|]).
    by apply elem_of_nil in Hin.
  - right. vm_compute. discriminate.
  - exists s', e. split; [done|]. split; [rewrite Hnum, Hkept; by vm_compute|].
    split; [by rewrite Hmax|]. exists l_srv. split; [done|]. by rewrite Hids, Hkept.
Defined.

(** Claim C4.  When the chain built from the reported history has a node
    with the id of the oldest local message, [HandleHistoryReply] drops the
    first such node [d] and the server nodes [newer] than it from the chain:
    the chain read from [ChatHistoryNewest] is the local chain followed by
    the nodes [older] than [d]; none of the dropped nodes is on it; the id
    of the oldest local message is on none of the server nodes kept, when
    the reported ids are distinct; [ChatHistoryNum] is the local count plus
    the number of server nodes less the dropped ones; [ChatHistoryMax] is
    restored and the local messages keep their content.  When a server node
    older than [d] is kept, this chain is the whole well-formed history. *)
Theorem HandleHistoryReply_overlap_local_wins (FMixerUser_Id : Z) :
  ∀ (FGuid_Parse : string → option FGuid) (JsonObj : FJsonObject)
    (s : FMixerChatConnection) (Data : list FJsonValue)
    (l' : list nat) (lo : nat) (mlo : FChatMessageMixerImpl),
    TryGetArrayField JsonObj FieldNames.Data = Some Data →
    HistoryChain (History s) (l' ++ [lo]) →
    Messages (History s) !! lo = Some mlo →
    ChatHistoryNum (History s) <= ChatHistoryMax (History s) →
    ChatHistoryMax (History s) < 2147483647 →
    NoWhisperReported FGuid_Parse Data →
    GetMessageId mlo ∈
      take (Z.to_nat (ChatHistoryMax (History s) - ChatHistoryNum (History s)))
           (reverse (ReportedIds FGuid_Parse Data)) →
    ∃ s' e newer d older,
      HandleHistoryReply FMixerUser_Id FGuid_Parse JsonObj s = Some (true, s', e)
      (* the server's nodes, newest first: [newer], the duplicate [d], [older] *)
      ∧ MessageIdsAt (Messages (History s')) (newer ++ d :: older) =
          take (Z.to_nat (ChatHistoryMax (History s) - ChatHistoryNum (History s)))
               (reverse (ReportedIds FGuid_Parse Data))
      ∧ MessageIdsAt (Messages (History s')) [d] = [GetMessageId mlo]
      ∧ (GetMessageId mlo ∉ MessageIdsAt (Messages (History s')) newer)
      (* the final chain: the local messages, then the nodes older than the duplicate *)
      ∧ Linked (Messages (History s')) ((l' ++ [lo]) ++ older)
      ∧ ChatHistoryNewest (History s') = head (l' ++ [lo])
      ∧ GetMessageHistory (-1) [] (History s') = Some ((l' ++ [lo]) ++ older)
      ∧ (∀ a, a ∈ newer ++ [d] → (a ∉ (l' ++ [lo]) ++ older))
      ∧ (NoDup (ReportedIds FGuid_Parse Data) →
         GetMessageId mlo ∉ MessageIdsAt (Messages (History s')) older)
      ∧ ChatHistoryNum (History s') =
          ChatHistoryNum (History s) + Z.of_nat (length (newer ++ d :: older))
          - Z.of_nat (length (newer ++ [d]))
      ∧ ChatHistoryMax (History s') = ChatHistoryMax (History s)
      ∧ (∀ a, a ∈ l' ++ [lo] →
              Content <$> Messages (History s') !! a = Content <$> Messages (History s) !! a)
      (* with a node older than the duplicate, this chain is the whole history *)
      ∧ (older ≠ [] → HistoryChain (History s') ((l' ++ [lo]) ++ older)).
Proof.
  intros FGuid_Parse JsonObj s Data l' lo mlo Hdata Hc Hlo Hle Hmax Hnw Hdup.
  destruct (HandleHistoryReply_entries FMixerUser_Id _ _ _ _ _ Hdata Hc Hle Hmax Hnw)
    as (s1 & e1 & l_srv & Hrun & Hc1 & Hmx1 & Hids & Hl1 & Hdis & Hfr).
  set (kept := take _ _) in *.
  pose proof Hc as ([Hndl Hsl] & Hnew & Hold & Hnum).
  pose proof Hc1 as ([Hnds Hss] & Hnew1 & Hold1 & Hnum1).
  assert (Hlk : length l_srv = length kept).
  { rewrite <- Hids. rewrite MessageIdsAt_fmap; [by rewrite length_fmap|].
    intros a Ha. eapply Seg_lookup; eauto. }
  assert (Hklen : Z.of_nat (length kept) <= ChatHistoryMax (History s) - ChatHistoryNum (History s)).
  { unfold kept. rewrite length_take. lia. }
  assert (Hlo1 : Messages (History s1) !! lo = Some mlo).
  { rewrite Hfr; [done|]. by eapply lookup_lt_Some. }
  destruct (first_with_id _ _ _ _ (GetMessageId mlo) Hss)
    as [Hno|(l1 & d & l2 & md & -> & Hd & Hid & Hno)].
  { exfalso. rewrite <- Hids in Hdup.
    apply MessageIdsAt_elem in Hdup as (a & m & Ha & Hm & Heq).
    by apply (Hno a m). }
  destruct (RelinkLocalHistory_dupe (History s1) l' lo l1 d l2
              (ChatHistoryMax (History s)) mlo md)
    as (h' & Hrl & Hlk' & Hnw' & Hol' & Hnum' & Hmx' & Hsc'); try done.
  { rewrite Hlk. rewrite <- Hnum. lia. }
  rewrite Hnew, Hold, Hnum, last_snoc, Hrl in Hrun.
  assert (Hids' : ∀ l, MessageIdsAt (Messages h') l = MessageIdsAt (Messages (History s1)) l).
  { intros l. apply MessageIdsAt_ext. intros a _. apply Hsc'. }
  assert (Hloc : ∀ a, a ∈ l' ++ [lo] →
            Content <$> Messages h' !! a = Content <$> Messages (History s) !! a).
  { intros a Ha. rewrite (Hsc' a). rewrite Hfr; [done|]. eapply Seg_lt; eauto. }
  exists (set_History h' s1), e1, l1, d, l2.
  change (History (set_History h' s1)) with h'.
  split; [done|].
  split; [by rewrite Hids'|].
  split; [rewrite Hids'; by rewrite (MessageIdsAt_cons _ _ _ md Hd), Hid|].
  split.
  { rewrite Hids'. intros (a & m & Ha & Hm & Heq)%MessageIdsAt_elem. by apply (Hno a m). }
  split; [done|]. split; [rewrite Hnw'; by destruct l'|].
  split.
  { unfold GetMessageHistory. rewrite Hnw'.
    destruct Hlk' as [Hnd' Hs'].
    rewrite (GetMessageHistoryLoop_chain (Messages h') h' _ None ((l' ++ [lo]) ++ l2) []);
      try done.
    by apply Linked_length. }
  split.
  { intros a Ha Hin. apply elem_of_app in Hin as [Hin|Hin].
    + apply (Hdis a Hin). set_solver.
    + apply NoDup_app in Hnds as (_ & Hx & Hnd2).
      apply elem_of_app in Ha as [Ha|Ha].
      * apply (Hx a Ha). by right.
      * apply list_elem_of_singleton in Ha as ->. apply NoDup_cons in Hnd2 as [Hnd2 _]. done. }
  split.
  { intros Hnd. rewrite Hids'.
    assert (Hk : NoDup kept).
    { unfold kept. apply (sublist_NoDup _ (reverse (ReportedIds FGuid_Parse Data)));
        [by rewrite reverse_Permutation|apply sublist_take]. }
    rewrite <- Hids in Hk. unfold MessageIdsAt in Hk. rewrite omap_app in Hk.
    apply NoDup_app in Hk as (_ & _ & Hk).
    change (NoDup (MessageIdsAt (Messages (History s1)) (d :: l2))) in Hk.
    rewrite (MessageIdsAt_cons _ _ _ md Hd), Hid in Hk.
    by apply NoDup_cons in Hk as [Hk _]. }
  split.
  { rewrite Hnum'. rewrite Hnum. rewrite !length_app. simpl. lia. }
  split; [done|]. split; [done|].
  intros Hne. unfold HistoryChain. split; [done|]. split; [done|]. split; [|done].
  rewrite Hol'. destruct (last l2) as [z|] eqn:Hz; [|by apply last_None in Hz].
  apply last_Some in Hz as [l2' ->].
  change (l1 ++ d :: l2' ++ [z]) with (l1 ++ (d :: l2') ++ [z]).
  by rewrite !app_assoc, !last_snoc.
Qed.

(** Claim C4 at a connection holding [m1], when the server reports [m2],
    [m3] and [m1] itself. *)
Lemma HandleHistoryReply_overlap_local_wins_witness :
  ∃ s' e older,
    HandleHistoryReply ExampleFMixerUserId ExampleGuidParse
      (ExampleHistory [JsonObject (ExampleChatMessage "m2" 8 "al" "a");
                       JsonObject (ExampleChatMessage "m3" 8 "al" "b");
                       JsonObject (ExampleChatMessage "m1" 7 "bob" "hi")])
      (ExampleConnectionWithMessage 5) = Some (true, s', e)
    ∧ GetMessageHistory (-1) [] (History s') = Some ([0%nat] ++ older)
    ∧ ChatHistoryMax (History s') = 5.
Proof.
  destruct (HandleHistoryReply_overlap_local_wins ExampleFMixerUserId ExampleGuidParse
              (ExampleHistory [JsonObject (ExampleChatMessage "m2" 8 "al" "a");
                               JsonObject (ExampleChatMessage "m3" 8 "al" "b");
                               JsonObject (ExampleChatMessage "m1" 7 "bob" "hi")])
              (ExampleConnectionWithMessage 5)
              [JsonObject (ExampleChatMessage "m2" 8 "al" "a");
               JsonObject (ExampleChatMessage "m3" 8 "al" "b");
               JsonObject (ExampleChatMessage "m1" 7 "bob" "hi")]
              [] 0%nat
              (default (NewChatMessage 0%N ScenarioUser)
                 (Messages (History (ExampleConnectionWithMessage 5)) !! 0%nat)))
    as (s' & e & newer & d & older & Hrun & _ & _ & _ & _ & _ & Hget & _ & _ & _ & Hmax & _).
  - reflexivity.
  - exact ExampleConnectionWithMessage_chain.
  - by vm_compute.
  - vm_compute. discriminate.
  - reflexivity.
  - intros x id w Hx Hr.
    repeat (apply elem_of_cons in Hx as [->|Hx]; [vm_compute in Hr; congruence|]).
    by apply elem_of_nil in Hx.
  - vm_compute. apply list_elem_of_here.
  - exists s', e, older. split; [done|]. split; [exact Hget|]. by rewrite Hmax.
Defined.

(** Claim C5.  [SendMethodPacket] registers its handler under the current
    [MessageId], which no pending entry uses, and increments [MessageId] by
    one, so that every pending id stays below the next one to assign
    ([PendingBelow]); a reply to a pending id is routed to the handler of
    that id with the entry already removed, so that the handler runs once,
    and a second reply with the same id is reported as unexpected. *)
Theorem SendMethodPacket_correlation_ids FMixerUser_Id :
  (∀ (Payload : FJsonValue) (Handler : option FServerMessageHandler)
     (s : FMixerChatConnection) (ws : IWebSocket),
     PendingBelow s → InInt32 (MessageId s + 1) → WebSocket s = Some ws →
     ∃ s', SendMethodPacket Payload Handler s = Some (tt, s', [WebSocket_Send Payload])
       ∧ ReplyHandlers s !! MessageId s = None
       ∧ ReplyHandlers s' = <[MessageId s := Handler]> (ReplyHandlers s)
       ∧ MessageId s' = MessageId s + 1
       ∧ PendingBelow s')
  ∧ (∀ (FGuid_Parse : string → option FGuid) (JsonObj : FJsonObject)
       (s : FMixerChatConnection) (k : Z) (Handler : option FServerMessageHandler)
       (b : bool) (s' : FMixerChatConnection) (e : list Effect),
       TryGetStringField JsonObj FieldNames.Type_ = Some MessageTypes.Reply →
       TryGetNumberField JsonObj FieldNames.Id = Some k →
       ReplyHandlers s !! k = Some Handler →
       PendingBelow s → InInt32 (MessageId s + 1) →
       OnChatPacketInternal FMixerUser_Id FGuid_Parse JsonObj s = Some (b, s', e) →
       b = true
       ∧ match Handler with
         | Some H =>
             ∃ b', CallHandler FMixerUser_Id FGuid_Parse H JsonObj
                     (set_ReplyHandlers (delete k (ReplyHandlers s)) s) = Some (b', s', e)
         | None => s' = set_ReplyHandlers (delete k (ReplyHandlers s)) s ∧ e = []
         end
       ∧ ReplyHandlers s' !! k = None
       ∧ PendingBelow s'
       ∧ MessageId s <= MessageId s'
       ∧ ∀ JsonObj',
           TryGetStringField JsonObj' FieldNames.Type_ = Some MessageTypes.Reply →
           TryGetNumberField JsonObj' FieldNames.Id = Some k →
           OnChatPacketInternal FMixerUser_Id FGuid_Parse JsonObj' s' =
           Some (false, s', [UE_LOG ELogVerbosity.Error (UnexpectedReply k)])).
Proof.
  split.
  - intros Payload Handler s ws Hp Hr Hws.
    pose proof (PendingBelow_free s Hp) as Hfree.
    eexists. split; [by eapply SendMethodPacket_run|].
    split_and!; try done.
    + simpl. by apply wrap32_id.
    + by apply PendingBelow_send.
  - intros FGuid_Parse JsonObj s k Handler b s' e Ht Hk Hh Hp Hr Hrun.
    rewrite (OnChatPacketInternal_reply FMixerUser_Id _ _ _ k Ht Hk), Hh in Hrun.
    set (s1 := set_ReplyHandlers (delete k (ReplyHandlers s)) s) in *.
    assert (Hk1 : ReplyHandlers s1 !! k = None) by apply lookup_delete_eq.
    assert (Hp1 : PendingBelow s1).
    { intros j Hj. apply Hp. simpl in Hj.
      destruct (decide (j = k)) as [->|]; [by rewrite lookup_delete_eq in Hj|].
      by rewrite lookup_delete_ne in Hj. }
    assert (Hklt : k < MessageId s) by (apply Hp; by rewrite Hh).
    assert (Hgoal : ReplyHandlers s' !! k = None ∧ PendingBelow s'
                    ∧ MessageId s <= MessageId s'
                    ∧ b = true
                    ∧ match Handler with
                      | Some H => ∃ b', CallHandler FMixerUser_Id FGuid_Parse H JsonObj s1
                          = Some (b', s', e)
                      | None => s' = s1 ∧ e = []
                      end).
    { destruct Handler as [H|]; simpl in Hrun.
      - destruct (CallHandler _ _ _ _ _) as [[[b' s2] e2]|] eqn:Hcall; [|done].
        injection Hrun as <- <- <-.
        destruct (CallHandler_pending FMixerUser_Id _ _ _ _ _ _ _ Hcall)
            as [[Hrh Hid]|(Hfree & Hrh & Hid)].
        + split_and!; eauto.
          * by rewrite Hrh.
          * intros j. rewrite Hrh, Hid. apply Hp1.
          * rewrite Hid. done.
        + change (MessageId s1) with (MessageId s) in *.
          rewrite wrap32_id in Hid by done.
          split_and!; eauto.
          * rewrite Hrh. rewrite lookup_insert_ne by lia. done.
          * intros j. rewrite Hrh, Hid.
            destruct (decide (j = MessageId s)) as [->|Hj]; [lia|].
            rewrite lookup_insert_ne by done. intros Hj'.
            specialize (Hp1 j Hj'). simpl in Hp1. lia.
          * lia.
      - injection Hrun as <- <- <-. split_and!; try done. }
    destruct Hgoal as (Hnone & Hp' & Hmono & -> & Hcall).
    split_and!; try done.
    intros JsonObj' Ht' Hk'.
    by rewrite (OnChatPacketInternal_reply FMixerUser_Id _ _ _ k Ht' Hk'), Hnone.
Qed.

(** Claim C5 at a first method call, and at a reply to the pending id 4
    followed by a second reply to it. *)
Lemma SendMethodPacket_correlation_ids_witness :
  (∃ s', SendMethodPacket JsonNull None (ExampleConnection 5)
           = Some (tt, s', [WebSocket_Send JsonNull])
      ∧ MessageId s' = 1)
  ∧ (∃ s' e,
       OnChatPacketInternal ExampleFMixerUserId ExampleGuidParse (ExampleReply 4 [])
         (set_MessageId 5
            (set_ReplyHandlers {[ 4 := Some Ptr_HandleHistoryReply ]} (ExampleConnection 5)))
       = Some (true, s', e)
       ∧ ReplyHandlers s' !! 4 = None
       ∧ OnChatPacketInternal ExampleFMixerUserId ExampleGuidParse (ExampleReply 4 []) s'
         = Some (false, s', [UE_LOG ELogVerbosity.Error (UnexpectedReply 4)])).
Proof.
  destruct (SendMethodPacket_correlation_ids ExampleFMixerUserId) as [Hsend Hreply]. split.
  - destruct (Hsend JsonNull None (ExampleConnection 5) {| IsConnected := true |})
      as (s' & Hrun & _ & _ & Hid & _).
    + intros k [x Hk]. simpl in Hk. by rewrite lookup_empty in Hk.
    + vm_compute. split; discriminate.
    + reflexivity.
    + exists s'. split; [done|]. by rewrite Hid.
  - destruct (OnChatPacketInternal ExampleFMixerUserId ExampleGuidParse (ExampleReply 4 [])
                (set_MessageId 5
                   (set_ReplyHandlers {[ 4 := Some Ptr_HandleHistoryReply ]}
                      (ExampleConnection 5))))
      as [[[b s'] e]|] eqn:Hrun; [|by vm_compute in Hrun].
    destruct (Hreply ExampleGuidParse (ExampleReply 4 [])
                (set_MessageId 5
                   (set_ReplyHandlers {[ 4 := Some Ptr_HandleHistoryReply ]}
                      (ExampleConnection 5)))
                4 (Some Ptr_HandleHistoryReply) b s' e)
      as (-> & _ & Hgone & _ & _ & Hsecond).
    + reflexivity.
    + reflexivity.
    + by vm_compute.
    + intros k [x Hk]. simpl in *. apply lookup_singleton_Some in Hk as [<- _]. lia.
    + vm_compute. split; discriminate.
    + exact Hrun.
    + exists s', e. split; [done|]. split; [exact Hgone|]. apply Hsecond; reflexivity.
Defined.

(** Claim C6.  [SendChatMessage] and [SendWhisper] return false, leave the
    connection as it was and send nothing while [bIsReady] is false or the
    session is anonymous; on a ready session that is not anonymous, with the
    socket connected, [SendChatMessage] returns true and sends one frame of
    the method [msg] with the message body and the current [MessageId]. *)
Theorem SendChatMessage_SendWhisper_capability :
  ∀ (IsAnonymous : FMixerChatConnection → bool) (s : FMixerChatConnection),
    (bIsReady s = false ∨ IsAnonymous s = true →
       ∀ ToUser MessageBody,
         (∃ e, SendChatMessage IsAnonymous MessageBody s = Some (false, s, e)
               ∧ SentOf e = [])
         ∧ (∃ e, SendWhisper IsAnonymous ToUser MessageBody s = Some (false, s, e)
                 ∧ SentOf e = []))
    ∧ (bIsReady s = true → IsAnonymous s = false →
       WebSocket s = Some {| IsConnected := true |} →
       ReplyHandlers s !! MessageId s = None →
       ∀ MessageBody,
         ∃ s' e, SendChatMessage IsAnonymous MessageBody s = Some (true, s', e)
           ∧ SentOf e =
               [JsonObject
                  [(FieldNames.Type_, JsonString MessageTypes.Method);
                   (FieldNames.Method, JsonString MethodNames.Msg);
                   (FieldNames.Arguments, JsonArray [JsonString MessageBody]);
                   (FieldNames.Id, JsonNumber (MessageId s))]]
           ∧ ReplyHandlers s' = <[MessageId s := None]> (ReplyHandlers s)
           ∧ MessageId s' = wrap32 (MessageId s + 1)).
Proof.
  intros IsAnonymous s. split.
  - intros Hrej ToUser MessageBody.
    unfold SendChatMessage, SendWhisper. run_op.
    destruct (bIsReady s); simpl.
    + destruct Hrej as [|Ha]; [done|]. rewrite Ha. run_op. split; by eexists.
    + run_op. split; by eexists.
  - intros Hready Hanon Hws Hfree MessageBody.
    unfold SendChatMessage. run_op. rewrite Hready, Hanon. simpl.
    rewrite Hws. simpl. try rewrite bool_decide_true by eauto. run_op.
    erewrite SendMethodPacket_run by done. run_op.
    eexists _, _. split; [reflexivity|]. done.
Qed.

(** Claim C6 at a connection that is not ready and at a ready one. *)
Lemma SendChatMessage_SendWhisper_capability_witness :
  (∃ e, SendChatMessage ExampleIsAnonymous "hello" (ExampleConnection 5)
          = Some (false, ExampleConnection 5, e) ∧ SentOf e = [])
  ∧ (∃ e, SendWhisper ExampleIsAnonymous "bob" "hello" (ExampleConnection 5)
            = Some (false, ExampleConnection 5, e) ∧ SentOf e = [])
  ∧ ∃ s' e, SendChatMessage ExampleIsAnonymous "hello" (set_bIsReady true (ExampleConnection 5))
              = Some (true, s', e)
       ∧ SentOf e = [WriteRemoteMethodPacket MethodNames.Msg 0 [JsonString "hello"]]
       ∧ MessageId s' = 1.
Proof.
  destruct (SendChatMessage_SendWhisper_capability ExampleIsAnonymous (ExampleConnection 5))
    as [Hno _].
  destruct (SendChatMessage_SendWhisper_capability ExampleIsAnonymous
              (set_bIsReady true (ExampleConnection 5))) as [_ Hyes].
  destruct (Hno (or_introl eq_refl) "bob" "hello") as [H1 H2].
  destruct (Hyes eq_refl eq_refl eq_refl) with (MessageBody := "hello")
    as (s' & e & Hrun & Hsent & _ & Hid).
  { apply lookup_empty. }
  split; [exact H1|]. split; [exact H2|].
  exists s', e. split; [done|]. split; [exact Hsent|]. rewrite Hid. reflexivity.
Defined.

(** Claim C7 as stated fails.  A chat message event whose message object
    lacks the fragments array is logged as a decode failure after its sender
    was added to [CachedUsers] and announced as joining.  A history reply
    without data is logged as a decode failure after its entry was removed
    from [ReplyHandlers].  And two decode failures are logged without the
    frame being dropped: a chat message with a fragment that lacks its text
    is still delivered to the room and pushed into the history with the text
    of the other fragment, and a history reply with an entry that does not
    decode still merges its other entry into the history. *)
Lemma decode_failure_changes_state :
  (∃ s' e,
     OnChatPacket ExampleFMixerUserId ExampleGuidParse
       (Some (ExampleEvent EventTypes.ChatMessage ExampleChatMessageWithoutFragments))
       (ExampleConnection 5) = Some (tt, s', e)
     ∧ ErrorsOf e = [MissingRequiredField FieldNames.Message]
     ∧ CachedUsers (ExampleConnection 5) !! 7 = None
     ∧ CachedUsers s' !! 7 = Some (NewChatUser ExampleFMixerUserId "bob" 7)
     ∧ JoinsOf e = [NetIdOfNewChatUser ExampleFMixerUserId])
  ∧ (∃ s' e,
       OnChatPacket ExampleFMixerUserId ExampleGuidParse (Some (ExampleReply 4 []))
         (set_ReplyHandlers {[ 4 := Some Ptr_HandleHistoryReply ]} (ExampleConnection 5))
       = Some (tt, s', e)
       ∧ ErrorsOf e = [MissingRequiredField FieldNames.Data]
       ∧ ReplyHandlers s' !! 4 = None)
  ∧ (∃ s' e,
       OnChatPacket ExampleFMixerUserId ExampleGuidParse
         (Some (ExampleEvent EventTypes.ChatMessage
                  (ExampleChatMessageWithFragments "m1" 7 "bob"
                     [JsonObject [(FieldNames.Type_, JsonString "text")];
                      JsonObject [(FieldNames.Type_, JsonString "text");
                                  (FieldNames.Text, JsonString "hi")]])))
         (ExampleConnection 5) = Some (tt, s', e)
       ∧ ErrorsOf e = [MissingRequiredField FieldNames.Text]
       ∧ RoomMessagesOf e = [0%nat]
       ∧ GetMessageHistory (-1) [] (History s') = Some [0%nat]
       ∧ GetBody <$> Messages (History s') !! 0%nat = Some "hi"%string)
  ∧ (∃ s' e,
       OnChatPacket ExampleFMixerUserId ExampleGuidParse
         (Some (ExampleReply 4
                  (ExampleHistory [JsonObject [];
                                   JsonObject (ExampleChatMessage "m2" 7 "bob" "yo")])))
         (set_ReplyHandlers {[ 4 := Some Ptr_HandleHistoryReply ]} (ExampleConnection 5))
       = Some (tt, s', e)
       ∧ ErrorsOf e = [MissingRequiredField FieldNames.UserNameWithUnderscore]
       ∧ GetMessageHistory (-1) [] (History s') = Some [0%nat]
       ∧ GetMessageId <$> Messages (History s') !! 0%nat = Some 2%N).
Proof.
  split_and!.
  - eexists _, _. split; [vm_compute; reflexivity|]. by vm_compute.
  - eexists _, _. split; [vm_compute; reflexivity|]. by vm_compute.
  - eexists _, _. split; [vm_compute; reflexivity|]. by vm_compute.
  - eexists _, _. split; [vm_compute; reflexivity|]. by vm_compute.
Qed.

(** Claim C7, amended.  (1, 2) A frame that returns failure from
    [OnChatPacketInternal], and a packet that is no JSON object, is logged
    and dropped with the connection exactly as before.  (3) A handler (other
    than that of the auth reply, which fails on an error from the server and
    not on decoding) that returns failure has logged an error, sent nothing,
    ended no connection and left the history, the reply table, [MessageId],
    [bIsReady] and the socket as they were; it has left [CachedUsers] as it
    was too, unless it is the handler of a chat message whose outer fields
    decode and whose message object lacks the fragments array: then the
    sender has been recorded.  (4, 5) The handler of an event runs on the
    connection as it was; that of a reply runs with the entry of the reply
    already removed.  (6) A fragment without a string [type] or [text] is
    logged as a missing required field and skipped: the loop over the
    fragments goes on with the next one, on the connection as it was.  (7) A
    history entry that does not decode is logged and skipped, with the
    history members and the messages there were as before: the loop over the
    entries goes on with the next one.  (8) No handler other than that of
    the auth reply, whatever it returns, sends anything, ends a connection
    or an attempt to connect, or writes the reply table, [MessageId],
    [bIsReady] or the socket. *)
Theorem decode_failure_is_logged_and_dropped (FMixerUser_Id : Z) :
  ∀ (FGuid_Parse : string → option FGuid) (JsonObj : FJsonObject)
    (s : FMixerChatConnection),
    (∀ s' e, OnChatPacketInternal FMixerUser_Id FGuid_Parse JsonObj s = Some (false, s', e) →
       s' = s ∧ Forall IsLogLine e
       ∧ OnChatPacket FMixerUser_Id FGuid_Parse (Some JsonObj) s =
           Some (tt, s, e ++ [UE_LOG ELogVerbosity.Error FailedToHandleChatPacket]))
    ∧ OnChatPacket FMixerUser_Id FGuid_Parse None s =
        Some (tt, s, [UE_LOG ELogVerbosity.Error FailedToHandleChatPacket])
    ∧ (∀ Handler s' e,
         Handler ≠ Ptr_HandleAuthReply →
         CallHandler FMixerUser_Id FGuid_Parse Handler JsonObj s = Some (false, s', e) →
         ErrorsOf e ≠ [] ∧ Forall IsLogOrNotification e
         ∧ SameRouting s s' ∧ SameHistory s s'
         ∧ (s' = s
            ∨ (Handler = Ptr_HandleChatMessageEvent
               ∧ ∃ name uid msgj mid,
                   ChatMessageFields FGuid_Parse JsonObj = Some (name, uid, msgj, mid)
                   ∧ TryGetArrayField msgj FieldNames.Message = None
                   ∧ CachedUsers s' =
                       UsersAfterSighting FMixerUser_Id (CachedUsers s) name uid
                         (TryGetNumberField JsonObj FieldNames.UserLevel))))
    ∧ (∀ ev d Handler,
         TryGetStringField JsonObj FieldNames.Type_ = Some MessageTypes.Event →
         TryGetStringField JsonObj FieldNames.Event = Some ev →
         TryGetObjectField JsonObj FieldNames.Data = Some d →
         GetEventHandler ev = Some Handler →
         OnChatPacketInternal FMixerUser_Id FGuid_Parse JsonObj s =
           match CallHandler FMixerUser_Id FGuid_Parse Handler d s with
           | Some (_, s', e) => Some (true, s', e)
           | None => None
           end)
    ∧ (∀ k Handler,
         TryGetStringField JsonObj FieldNames.Type_ = Some MessageTypes.Reply →
         TryGetNumberField JsonObj FieldNames.Id = Some k →
         ReplyHandlers s !! k = Some (Some Handler) →
         OnChatPacketInternal FMixerUser_Id FGuid_Parse JsonObj s =
           match CallHandler FMixerUser_Id FGuid_Parse Handler JsonObj
                   (set_ReplyHandlers (delete k (ReplyHandlers s)) s) with
           | Some (_, s', e) => Some (true, s', e)
           | None => None
           end)
    ∧ (∀ (FragmentObj : FJsonObject) (rest : list FJsonValue) (ChatMessage : nat),
         TryGetStringField FragmentObj FieldNames.Type_ = None
         ∨ TryGetStringField FragmentObj FieldNames.Text = None →
         ∃ FieldName,
           HandleChatMessageEventMessageArrayEntry FragmentObj ChatMessage s =
             Some (false, s, [UE_LOG ELogVerbosity.Error (MissingRequiredField FieldName)])
           ∧ HandleChatMessageEventMessageFragments
               (JsonObject FragmentObj :: rest) ChatMessage s =
               match HandleChatMessageEventMessageFragments rest ChatMessage s with
               | Some (_, s', e) =>
                   Some (tt, s',
                         UE_LOG ELogVerbosity.Error (MissingRequiredField FieldName) :: e)
               | None => None
               end)
    ∧ (∀ (HistoryEntry : FJsonValue) (rest : list FJsonValue),
         ReportedMessage FGuid_Parse HistoryEntry = None →
         ∃ s1 e1,
           HandleHistoryEntry FMixerUser_Id FGuid_Parse HistoryEntry s = Some (tt, s1, e1)
           ∧ ErrorsOf e1 ≠ [] ∧ SameRouting s s1 ∧ SameHistory s s1
           ∧ HandleHistoryEntries FMixerUser_Id FGuid_Parse (HistoryEntry :: rest) s =
               match HandleHistoryEntries FMixerUser_Id FGuid_Parse rest s1 with
               | Some (_, s2, e2) => Some (tt, s2, e1 ++ e2)
               | None => None
               end)
    ∧ (∀ Handler b s' e,
         Handler ≠ Ptr_HandleAuthReply →
         CallHandler FMixerUser_Id FGuid_Parse Handler JsonObj s = Some (b, s', e) →
         SameRouting s s' ∧ Forall IsLogOrNotification e).
Proof.
  intros FGuid_Parse JsonObj s. split_and!.
  - intros s' e Hrun. destruct (OnChatPacketInternal_false FMixerUser_Id _ _ _ _ _ Hrun) as [-> He].
    split_and!; try done. unfold OnChatPacket. run_op. rewrite Hrun. by run_op.
  - unfold OnChatPacket. by run_op.
  - intros Handler s' e Hne Hrun.
    destruct (CallHandler_routing FMixerUser_Id FGuid_Parse Handler JsonObj Hne _ _ _ _ Hrun)
        as [Hrt Hq].
    assert (Hcases : ErrorsOf e ≠ [] ∧ SameHistory s s'
              ∧ (s' = s
                 ∨ (Handler = Ptr_HandleChatMessageEvent
                    ∧ ∃ name uid msgj mid,
                        ChatMessageFields FGuid_Parse JsonObj = Some (name, uid, msgj, mid)
                        ∧ TryGetArrayField msgj FieldNames.Message = None
                        ∧ CachedUsers s' =
                            UsersAfterSighting FMixerUser_Id (CachedUsers s) name uid
                              (TryGetNumberField JsonObj FieldNames.UserLevel)))).
    { destruct Handler; simpl in Hrun.
      - done.
      - destruct (HandleChatMessageEvent_false FMixerUser_Id _ _ _ _ _ Hrun) as (? & ? & [->|?]);
          split_and!; try done; [by left|by right].
      - rewrite HandleUserJoinEvent_run in Hrun.
        destruct (TryGetNumberField _ _) as [uid|].
        + destruct (CachedUsers s !! uid); [done|].
          destruct (TryGetStringField _ _); [done|].
          injection Hrun as <- <-. split_and!; [done|apply SameHistory_refl|by left].
        + injection Hrun as <- <-. split_and!; [done|apply SameHistory_refl|by left].
      - rewrite HandleUserLeaveEvent_run in Hrun.
        destruct (TryGetNumberField _ _) as [uid|].
        + by destruct (CachedUsers s !! uid).
        + injection Hrun as <- <-. split_and!; [done|apply SameHistory_refl|by left].
      - destruct (HandleDeleteMessageEvent_false _ _ _ _ _ Hrun) as [-> ?].
        split_and!; [done|apply SameHistory_refl|by left].
      - by apply HandleClearMessagesEvent_true in Hrun.
      - destruct (HandlePurgeMessageEvent_false _ _ _ _ Hrun) as [-> ?].
        split_and!; [done|apply SameHistory_refl|by left].
      - done.
      - destruct (HandleHistoryReply_false FMixerUser_Id _ _ _ _ _ Hrun) as [-> ?].
        split_and!; [done|apply SameHistory_refl|by left]. }
    destruct Hcases as (? & ? & ?). split_and!; done.
  - intros ev d Handler Ht He Hd Hh.
    by rewrite (OnChatPacketInternal_event FMixerUser_Id _ _ _ ev d Ht He Hd), Hh.
  - intros k Handler Ht Hk Hh.
    by rewrite (OnChatPacketInternal_reply FMixerUser_Id _ _ _ k Ht Hk), Hh.
  - intros FragmentObj rest ChatMessage Hmiss.
    destruct (HandleChatMessageEventMessageArrayEntry_failure FragmentObj ChatMessage s Hmiss)
      as [FieldName Hrun].
    exists FieldName. split; [done|]. by apply HandleChatMessageEventMessageFragments_skip.
  - intros HistoryEntry rest Hx. by apply HandleHistoryEntry_skip.
  - intros Handler b s' e Hne Hrun.
    exact (CallHandler_routing FMixerUser_Id FGuid_Parse Handler JsonObj Hne _ _ _ _ Hrun).
Qed.

(** Claim C7, amended, at a frame without fields, at a chat message event
    without the fragments array, at a fragment without text and at a history
    entry without fields. *)
Lemma decode_failure_is_logged_and_dropped_witness :
  (∃ e, OnChatPacket ExampleFMixerUserId ExampleGuidParse (Some [])
          (ExampleConnectionWithMessage 5)
          = Some (tt, ExampleConnectionWithMessage 5,
                  e ++ [UE_LOG ELogVerbosity.Error FailedToHandleChatPacket])
        ∧ Forall IsLogLine e)
  ∧ (∃ s' e, CallHandler ExampleFMixerUserId ExampleGuidParse Ptr_HandleChatMessageEvent
               ExampleChatMessageWithoutFragments (ExampleConnection 5) = Some (false, s', e)
        ∧ ErrorsOf e ≠ [] ∧ SameRouting (ExampleConnection 5) s'
        ∧ SameHistory (ExampleConnection 5) s')
  ∧ (∃ FieldName,
       HandleChatMessageEventMessageArrayEntry [(FieldNames.Type_, JsonString "text")]
         0%nat (ExampleConnectionWithMessage 5)
       = Some (false, ExampleConnectionWithMessage 5,
               [UE_LOG ELogVerbosity.Error (MissingRequiredField FieldName)]))
  ∧ (∃ s1 e1,
       HandleHistoryEntry ExampleFMixerUserId ExampleGuidParse (JsonObject [])
         (ExampleConnectionWithMessage 5) = Some (tt, s1, e1)
       ∧ ErrorsOf e1 ≠ [] ∧ SameHistory (ExampleConnectionWithMessage 5) s1).
Proof.
  split_and!.
  - destruct (OnChatPacketInternal ExampleFMixerUserId ExampleGuidParse []
                (ExampleConnectionWithMessage 5))
      as [[[b s'] e]|] eqn:Hrun; [|by vm_compute in Hrun].
    assert (b = false) as -> by (vm_compute in Hrun; congruence).
    destruct (decode_failure_is_logged_and_dropped ExampleFMixerUserId ExampleGuidParse []
                (ExampleConnectionWithMessage 5)) as [Hdrop _].
    destruct (Hdrop s' e Hrun) as (_ & Hlog & Hpacket).
    by exists e.
  - destruct (CallHandler ExampleFMixerUserId ExampleGuidParse Ptr_HandleChatMessageEvent
                ExampleChatMessageWithoutFragments (ExampleConnection 5))
      as [[[b s'] e]|] eqn:Hrun; [|by vm_compute in Hrun].
    assert (b = false) as -> by (vm_compute in Hrun; congruence).
    destruct (decode_failure_is_logged_and_dropped ExampleFMixerUserId ExampleGuidParse
                ExampleChatMessageWithoutFragments (ExampleConnection 5))
      as (_ & _ & Hhandler & _).
    destruct (Hhandler Ptr_HandleChatMessageEvent s' e) as (Herr & _ & Hroute & Hhist & _);
      [discriminate|exact Hrun|].
    by exists s', e.
  - destruct (decode_failure_is_logged_and_dropped ExampleFMixerUserId ExampleGuidParse []
                (ExampleConnectionWithMessage 5)) as (_ & _ & _ & _ & _ & Hfrag & _).
    destruct (Hfrag [(FieldNames.Type_, JsonString "text")] [] 0%nat) as (f & Hrun & _);
      [by right|].
    by exists f.
  - destruct (decode_failure_is_logged_and_dropped ExampleFMixerUserId ExampleGuidParse []
                (ExampleConnectionWithMessage 5)) as (_ & _ & _ & _ & _ & _ & Hentry & _).
    destruct (Hentry (JsonObject []) []) as (s1 & e1 & Hrun & Herr & _ & Hh & _);
      [reflexivity|].
    by exists s1, e1.
Defined.

(** Claim C8 as stated fails: the failure case of [HandleAuthReply] is taken
    when the reply has an [error] field that holds an object.  A reply whose
    [error] field holds a string, or null as in the replies of the service
    to a call that succeeded, sets [bIsReady] and reports success. *)
Lemma HandleAuthReply_error_field_without_object :
  HandleAuthReply [(FieldNames.Error, JsonString "denied")] (ExampleConnection 0)
    = Some (true, set_bIsReady true (ExampleConnection 0),
            [ConnectAttemptFinished true EmptyString])
  ∧ HandleAuthReply [(FieldNames.Error, JsonNull)] (ExampleConnection 0)
    = Some (true, set_bIsReady true (ExampleConnection 0),
            [ConnectAttemptFinished true EmptyString])
  ∧ bIsReady (ExampleConnection 0) = false.
Proof. split_and!; reflexivity. Qed.

(** Claim C8, amended.  [HandleAuthReply] on a reply whose [error] field
    holds an object reports that the attempt to connect failed and leaves the
    connection, so [bIsReady], as it was; on a reply without an [error] field
    that holds an object it sets [bIsReady], reports success and, when
    [ChatHistoryMax > 0], first requests the history with a count of
    [min ChatHistoryMax 100], never more than 100. *)
Theorem HandleAuthReply_outcomes :
  ∀ (JsonObj : FJsonObject) (s : FMixerChatConnection),
    (∀ ErrorObj, TryGetObjectField JsonObj FieldNames.Error = Some ErrorObj →
       ∃ ErrorMessage,
         HandleAuthReply JsonObj s =
           Some (false, s, [ConnectAttemptFinished false ErrorMessage])
         ∧ (bIsReady s = false → bIsReady (StateAfter (HandleAuthReply JsonObj) s) = false))
    ∧ (TryGetObjectField JsonObj FieldNames.Error = None →
       ChatHistoryMax (History s) <= 0 →
       ∃ s', HandleAuthReply JsonObj s =
               Some (true, s', [ConnectAttemptFinished true EmptyString])
         ∧ bIsReady s' = true)
    ∧ (TryGetObjectField JsonObj FieldNames.Error = None →
       0 < ChatHistoryMax (History s) →
       ReplyHandlers s !! MessageId s = None →
       is_Some (WebSocket s) →
       ∃ s' MessageCount,
         HandleAuthReply JsonObj s =
           Some (true, s',
                 [WebSocket_Send
                    (WriteRemoteMethodPacket MethodNames.History (MessageId s)
                       [JsonNumber MessageCount]);
                  ConnectAttemptFinished true EmptyString])
         ∧ bIsReady s' = true
         ∧ MessageCount = Z.min (ChatHistoryMax (History s)) 100
         ∧ MessageCount <= 100
         ∧ ReplyHandlers s' !! MessageId s = Some (Some Ptr_HandleHistoryReply)).
Proof.
  intros JsonObj s. split_and!.
  - intros ErrorObj He. eexists. unfold StateAfter.
    rewrite (HandleAuthReply_error _ _ _ He). done.
  - intros He Hmax. eexists. by rewrite HandleAuthReply_no_history.
  - intros He Hmax Hfree [ws Hws]. eexists _, _.
    rewrite (HandleAuthReply_history _ _ ws) by done.
    split; [reflexivity|]. split_and!; try done; [lia|].
    simpl. apply lookup_insert_eq.
Qed.

(** Claim C8, amended, at a reply with an error object, and at replies with
    [error] null on connections with no room for history and with room for
    500 messages; the [history] frame is written out. *)
Lemma HandleAuthReply_outcomes_witness :
  (∃ ErrorMessage,
     HandleAuthReply [(FieldNames.Error, JsonObject [(FieldNames.Message, JsonString "denied")])]
       (ExampleConnection 5)
     = Some (false, ExampleConnection 5, [ConnectAttemptFinished false ErrorMessage]))
  ∧ (∃ s', HandleAuthReply [(FieldNames.Error, JsonNull)] (ExampleConnection 0)
             = Some (true, s', [ConnectAttemptFinished true EmptyString])
        ∧ bIsReady s' = true)
  ∧ (∃ s', HandleAuthReply [(FieldNames.Error, JsonNull)] (ExampleConnection 500)
             = Some (true, s',
                     [WebSocket_Send
                        (JsonObject [("type"%string, JsonString "method");
                                     ("method"%string, JsonString "history");
                                     ("arguments"%string, JsonArray [JsonNumber 100]);
                                     ("id"%string, JsonNumber 0)]);
                      ConnectAttemptFinished true EmptyString])
        ∧ bIsReady s' = true).
Proof.
  split; [|split].
  - destruct (HandleAuthReply_outcomes
                [(FieldNames.Error, JsonObject [(FieldNames.Message, JsonString "denied")])]
                (ExampleConnection 5)) as [Herr _].
    destruct (Herr [(FieldNames.Message, JsonString "denied")] eq_refl) as (msg & Hrun & _).
    by exists msg.
  - destruct (HandleAuthReply_outcomes [(FieldNames.Error, JsonNull)] (ExampleConnection 0))
      as (_ & Hquiet & _).
    apply Hquiet; [reflexivity|simpl; lia].
  - destruct (HandleAuthReply_outcomes [(FieldNames.Error, JsonNull)] (ExampleConnection 500))
      as (_ & _ & Hhist).
    destruct Hhist as (s' & n & Hrun & Hready & -> & _); [reflexivity|simpl; lia| |by eexists|].
    { apply lookup_empty. }
    exists s'. split; [exact Hrun|exact Hready].
Defined.

(** Claim C9.  [DeleteFromChatHistoryIf] with the predicate that is always
    true is to leave [ChatHistoryNum] at 0 whatever the history held, and
    [HandleClearMessagesEvent] checks that it did.  It does so on a
    well-formed history ([DeleteFromChatHistoryIf_always_true] above), but
    not on the history that [HandleHistoryReply] leaves behind when it
    forgets to restore [ChatHistoryNum] (claim C1).  A connection with room
    for five messages authenticates and requests the history; a chat message
    arrives; the reply to the request reports no message; a clear messages
    event arrives.  The delete then unlinks the one message, which it was
    called on, and leaves [ChatHistoryNum] at -1, and the check of
    [HandleClearMessagesEvent] fails. *)
Theorem DeleteFromChatHistoryIf_always_true_after_history_reply :
  ∃ s1 s2 s3 s4 e1 e2 e3 e4 h' calls,
    SendAuth 42 None "" (ExampleConnection 5) = Some (tt, s1, e1)
    ∧ OnChatPacket ExampleFMixerUserId ExampleGuidParse
        (Some (ExampleReply 0 [(FieldNames.Error, JsonNull)])) s1 = Some (tt, s2, e2)
    ∧ SentOf e2 = [WriteRemoteMethodPacket MethodNames.History 1 [JsonNumber 5]]
    ∧ OnChatPacket ExampleFMixerUserId ExampleGuidParse
        (Some (ExampleEvent EventTypes.ChatMessage (ExampleChatMessage "m1" 7 "bob" "hi")))
        s2 = Some (tt, s3, e3)
    ∧ HistoryInvariant (History s3)
    ∧ OnChatPacket ExampleFMixerUserId ExampleGuidParse
        (Some (ExampleReply 1 (ExampleHistory []))) s3 = Some (tt, s4, e4)
    ∧ ErrorsOf e4 = []
    ∧ GetMessageHistory (-1) [] (History s4) = Some [0%nat]
    ∧ DeleteFromChatHistoryIf (λ _, true) (History s4) = Some (h', calls)
    ∧ calls = [0%nat]
    ∧ ChatHistoryNum h' = -1
    ∧ ChatHistoryNewest h' = None
    ∧ ChatHistoryOldest h' = None
    ∧ OnChatPacket ExampleFMixerUserId ExampleGuidParse
        (Some (ExampleEvent EventTypes.ClearMessages [])) s4 = None.
Proof.
  eexists _, _, _, _, _, _, _, _, _, _.
  split; [vm_compute; reflexivity|].
  split; [vm_compute; reflexivity|].
  split; [by vm_compute|].
  split; [vm_compute; reflexivity|].
  split.
  { exists [0%nat]. split; [|by vm_compute]. unfold HistoryChain, Linked.
    split_and!; try (by vm_compute).
    - apply NoDup_singleton.
    - eexists. by vm_compute. }
  split; [vm_compute; reflexivity|].
  split; [by vm_compute|].
  split; [by vm_compute|].
  split; [vm_compute; reflexivity|].
  split_and!; by vm_compute.
Qed.



(** * Further properties of the code *)

(** Extra X1.  [GetMessageHistory] appends to [OutMessages] the messages of
    the history from the newest on: all of them when [NumMessages] is -1,
    and otherwise as many as bring [OutMessages] to [NumMessages] entries,
    what it held before the call included; so none when [OutMessages] is
    that long already, or when [NumMessages] is 0 or below -1. *)
Theorem GetMessageHistory_returns_newest :
  ∀ (h : FChatHistory) (l out : list nat) (NumMessages : Z),
    HistoryChain h l →
    GetMessageHistory NumMessages out h =
      Some (out ++ if bool_decide (NumMessages = -1) then l
                   else take (Z.to_nat (NumMessages - Z.of_nat (length out))) l).
Proof.
  intros h l out n Hc. case_bool_decide as Hn.
  - subst n. by apply GetMessageHistory_chain.
  - destruct Hc as (Hl & Hnew & _). unfold GetMessageHistory. rewrite Hnew.
    eapply GetMessageHistoryLoop_take; [done|apply Hl|by apply Linked_length|done].
Qed.

(** Extra X1 at the history holding one message: a request for two messages
    after one that is there already. *)
Lemma GetMessageHistory_returns_newest_witness :
  GetMessageHistory 2 [7%nat] (History (ExampleConnectionWithMessage 5)) = Some [7; 0]%nat.
Proof.
  exact (GetMessageHistory_returns_newest (History (ExampleConnectionWithMessage 5))
           [0%nat] [7%nat] 2 ExampleConnectionWithMessage_chain).
Defined.

(** Extra X2.  [DeleteFromChatHistoryIf], for a predicate that looks at the
    content of a message and not at its links, calls the predicate once on
    each linked message, newest first, and leaves linked the messages it
    rejected, in their order; the history stays well formed, with
    [ChatHistoryMax] as before and [ChatHistoryNum] lowered by the number of
    accepted messages; an accepted message is flagged as deleted and has no
    links left, a rejected one keeps its content, and a message outside the
    chain is not written at all. *)
Theorem DeleteFromChatHistoryIf_removes_matching :
  ∀ (Predicate : FChatMessageMixerImpl → bool) (h : FChatHistory) (l : list nat),
    (∀ m m', Content m = Content m' → Predicate m = Predicate m') →
    HistoryChain h l →
    ChatHistoryNum h <= ChatHistoryMax h →
    ChatHistoryMax h <= 2147483647 →
    ∃ h',
      DeleteFromChatHistoryIf Predicate h = Some (h', l)
      ∧ HistoryChain h'
          (List.filter (λ a, negb (PredicateAt Predicate (Messages h) a)) l)
      ∧ HistoryInvariant h'
      ∧ ChatHistoryMax h' = ChatHistoryMax h
      ∧ ChatHistoryNum h' =
          ChatHistoryNum h
          - Z.of_nat (length (List.filter (PredicateAt Predicate (Messages h)) l))
      ∧ (∀ a m, a ∈ l → Messages h !! a = Some m → Predicate m = true →
                Messages h' !! a = Some (Tombstone m))
      ∧ (∀ a m, a ∈ l → Messages h !! a = Some m → Predicate m = false →
                Content <$> Messages h' !! a = Some (Content m))
      ∧ (∀ b, b ∉ l → Messages h' !! b = Messages h !! b).
Proof.
  intros P h l HP Hc Hle Hmax.
  destruct (DeleteFromChatHistoryIf_chain P h l HP Hc)
      as (h' & Hrun & Hc' & Hmx & Hfr & Htb & Hkeep);
    [lia|].
  pose proof (filter_length_split (PredicateAt P (Messages h)) l) as Hsplit.
  pose proof Hc as (_ & _ & _ & Hn). pose proof Hc' as (_ & _ & _ & Hn').
  exists h'. split; [done|]. split; [done|].
  split. { eexists. split; [exact Hc'|]. lia. }
  split; [done|]. split; [lia|]. split; [done|]. split; [|done].
  intros a m Ha Hm HPm. rewrite Hkeep, Hm; [done|].
  intros _. unfold PredicateAt. by rewrite Hm.
Qed.

(** Extra X2 at the history holding the message [m1], for the predicate that
    accepts the id of [m1]. *)
Lemma DeleteFromChatHistoryIf_removes_matching_witness :
  ∃ h', DeleteFromChatHistoryIf (λ m, bool_decide (GetMessageId m = 1%N))
          (History (ExampleConnectionWithMessage 5)) = Some (h', [0%nat])
    ∧ HistoryChain h' [].
Proof.
  destruct (DeleteFromChatHistoryIf_removes_matching
              (λ m, bool_decide (GetMessageId m = 1%N))
              (History (ExampleConnectionWithMessage 5)) [0%nat])
    as (h' & Hrun & Hc & _).
  - intros m m' Hmm. assert (GetMessageId m = GetMessageId m') as ->; [|done].
    by injection Hmm.
  - exact ExampleConnectionWithMessage_chain.
  - vm_compute. discriminate.
  - vm_compute. discriminate.
  - by exists h'.
Defined.

(** Extra X3.  [HandleDeleteMessageEvent] without a string [id] logs the
    missing field, and with an [id] that is no guid logs that, and in both
    cases returns false with the connection as it was.  With the id of a
    guid it returns true, logs and notifies nothing, and writes the history
    only: the linked messages with this id are flagged as deleted and
    unlinked, the others stay linked in their order with their content, and
    the history stays well formed ([DeletedWhere]). *)
Theorem HandleDeleteMessageEvent_deletes_by_id :
  ∀ (FGuid_Parse : string → option FGuid) (JsonObj : FJsonObject)
    (s : FMixerChatConnection) (l : list nat),
    HistoryChain (History s) l →
    ChatHistoryNum (History s) <= ChatHistoryMax (History s) →
    ChatHistoryMax (History s) <= 2147483647 →
    match TryGetStringField JsonObj FieldNames.Id with
    | None =>
        HandleDeleteMessageEvent FGuid_Parse JsonObj s =
          Some (false, s, [UE_LOG ELogVerbosity.Error (MissingRequiredField FieldNames.Id)])
    | Some IdString =>
        match FGuid_Parse IdString with
        | None =>
            HandleDeleteMessageEvent FGuid_Parse JsonObj s =
              Some (false, s,
                    [UE_LOG ELogVerbosity.Error (IdNotAGuidDeleteMessageEvent IdString)])
        | Some MessageId =>
            ∃ h',
              HandleDeleteMessageEvent FGuid_Parse JsonObj s =
                Some (true, set_History h' s, [])
              ∧ DeletedWhere (λ m, bool_decide (GetMessageId m = MessageId))
                  (History s) l h'
        end
    end.
Proof.
  intros FGuid_Parse JsonObj s l Hc Hle Hmax.
  rewrite HandleDeleteMessageEvent_run.
  destruct (TryGetStringField JsonObj FieldNames.Id) as [IdString|]; [|done].
  destruct (FGuid_Parse IdString) as [MessageId|]; [|done].
  destruct (DeleteFromChatHistoryIf_DeletedWhere
              (λ m, bool_decide (GetMessageId m = MessageId)) (History s) l)
    as (h' & -> & Hd); try done.
  - intros m m'. apply bool_decide_GetMessageId_Content.
  - by exists h'.
Qed.

(** Extra X3 at the connection holding [m1], for the event that deletes
    [m1]. *)
Lemma HandleDeleteMessageEvent_deletes_by_id_witness :
  ∃ h', HandleDeleteMessageEvent ExampleGuidParse [(FieldNames.Id, JsonString "m1")]
          (ExampleConnectionWithMessage 5)
        = Some (true, set_History h' (ExampleConnectionWithMessage 5), [])
    ∧ HistoryChain h' [].
Proof.
  destruct (HandleDeleteMessageEvent_deletes_by_id ExampleGuidParse
              [(FieldNames.Id, JsonString "m1")] (ExampleConnectionWithMessage 5) [0%nat])
    as (h' & Hrun & Hc & _).
  - exact ExampleConnectionWithMessage_chain.
  - vm_compute. discriminate.
  - vm_compute. discriminate.
  - by exists h'.
Defined.

(** Extra X4.  [HandlePurgeMessageEvent] without a number [user_id] logs the
    missing field and returns false with the connection as it was.  With
    one it returns true, logs and notifies nothing, and writes the history
    only, the user cache included in what it leaves alone: the linked
    messages of this sender are flagged as deleted and unlinked, the others
    stay linked in their order with their content, and the history stays
    well formed ([DeletedWhere]). *)
Theorem HandlePurgeMessageEvent_deletes_by_sender :
  ∀ (JsonObj : FJsonObject) (s : FMixerChatConnection) (l : list nat),
    HistoryChain (History s) l →
    ChatHistoryNum (History s) <= ChatHistoryMax (History s) →
    ChatHistoryMax (History s) <= 2147483647 →
    match TryGetNumberField JsonObj FieldNames.UserId with
    | None =>
        HandlePurgeMessageEvent JsonObj s =
          Some (false, s,
                [UE_LOG ELogVerbosity.Error (MissingRequiredField FieldNames.UserId)])
    | Some UserId =>
        ∃ h',
          HandlePurgeMessageEvent JsonObj s = Some (true, set_History h' s, [])
          ∧ DeletedWhere (λ m, bool_decide (GetSenderId m = UserId)) (History s) l h'
    end.
Proof.
  intros JsonObj s l Hc Hle Hmax.
  rewrite HandlePurgeMessageEvent_run.
  destruct (TryGetNumberField JsonObj FieldNames.UserId) as [UserId|]; [|done].
  destruct (DeleteFromChatHistoryIf_DeletedWhere
              (λ m, bool_decide (GetSenderId m = UserId)) (History s) l)
    as (h' & -> & Hd); try done.
  - intros m m'. apply bool_decide_GetSenderId_Content.
  - by exists h'.
Qed.

(** Extra X4 at the connection holding the message [m1] of user 7, for the
    purge of user 7. *)
Lemma HandlePurgeMessageEvent_deletes_by_sender_witness :
  ∃ h', HandlePurgeMessageEvent [(FieldNames.UserId, JsonNumber 7)]
          (ExampleConnectionWithMessage 5)
        = Some (true, set_History h' (ExampleConnectionWithMessage 5), [])
    ∧ HistoryChain h' [].
Proof.
  destruct (HandlePurgeMessageEvent_deletes_by_sender [(FieldNames.UserId, JsonNumber 7)]
              (ExampleConnectionWithMessage 5) [0%nat])
    as (h' & Hrun & Hc & _).
  - exact ExampleConnectionWithMessage_chain.
  - vm_compute. discriminate.
  - vm_compute. discriminate.
  - by exists h'.
Defined.

(** Extra X5.  On a well-formed history [HandleClearMessagesEvent], whatever
    the payload, passes its three checks and returns true: it logs and
    notifies nothing and writes the history only, which ends empty, with
    [ChatHistoryMax] as before and every message that was linked flagged as
    deleted and without links. *)
Theorem HandleClearMessagesEvent_empties_history :
  ∀ (JsonObj : FJsonObject) (s : FMixerChatConnection) (l : list nat),
    HistoryChain (History s) l →
    ChatHistoryNum (History s) <= ChatHistoryMax (History s) →
    ChatHistoryMax (History s) <= 2147483647 →
    ∃ h',
      HandleClearMessagesEvent JsonObj s = Some (true, set_History h' s, [])
      ∧ HistoryChain h' []
      ∧ ChatHistoryNum h' = 0
      ∧ ChatHistoryNewest h' = None
      ∧ ChatHistoryOldest h' = None
      ∧ ChatHistoryMax h' = ChatHistoryMax (History s)
      ∧ (∀ a m, a ∈ l → Messages (History s) !! a = Some m →
                Messages h' !! a = Some (Tombstone m))
      ∧ (∀ b, b ∉ l → Messages h' !! b = Messages (History s) !! b).
Proof.
  intros JsonObj s l Hc Hle Hmax.
  rewrite HandleClearMessagesEvent_run.
  destruct (DeleteFromChatHistoryIf_DeletedWhere (λ _, true) (History s) l)
    as (h' & -> & Hc' & _ & Hmx & Htb & _ & Hfr); try done.
  rewrite filter_all_false in Hc'.
  2:{ intros a Ha. unfold PredicateAt. destruct Hc as ([_ Hs] & _).
      by destruct (Seg_lookup _ _ _ _ _ Hs Ha) as [m ->]. }
  pose proof Hc' as (_ & Hn & Ho & Hnum). simpl in Hn, Ho, Hnum.
  rewrite Hn, Ho, Hnum. simpl.
  exists h'. split_and!; try done. intros a m Ha Hm. by apply Htb.
Qed.

(** Extra X5 at the connection holding one message. *)
Lemma HandleClearMessagesEvent_empties_history_witness :
  ∃ h', HandleClearMessagesEvent [] (ExampleConnectionWithMessage 5)
        = Some (true, set_History h' (ExampleConnectionWithMessage 5), [])
    ∧ ChatHistoryNum h' = 0.
Proof.
  destruct (HandleClearMessagesEvent_empties_history [] (ExampleConnectionWithMessage 5)
              [0%nat]) as (h' & Hrun & _ & Hnum & _).
  - exact ExampleConnectionWithMessage_chain.
  - vm_compute. discriminate.
  - vm_compute. discriminate.
  - by exists h'.
Defined.

(** Extra X6.  [HandleChatMessageEventInternal] on a payload whose sender
    name, sender id, message object and id decode and whose message object
    has the fragments array: it returns true and hands out a new message
    object, the last of the arena, with the id of the payload, the name and
    id of the sender as the user cache has them after the call, no links,
    and not moderated; its body is the texts of the fragments one after the
    other, a fragment that is no object or lacks a string [type] or [text]
    adding nothing, and for an action the name of the sender and a space
    before them.  Its whisper and action flags are the boolean fields
    [whisper] and [me] of the message object itself, beside [meta], and they
    are read only when the message object has a [meta] object; what [meta]
    holds is not read, so a message whose flags are inside [meta] is neither
    a whisper nor an action.  The history members and the messages there
    were are untouched, and so are the reply table, [MessageId], [bIsReady]
    and the socket; nothing is sent. *)
Theorem HandleChatMessageEventInternal_builds_message (FMixerUser_Id : Z) :
  ∀ (FGuid_Parse : string → option FGuid) (JsonObj : FJsonObject)
    (s : FMixerChatConnection) (FromUserName : string) (FromUserIdRaw : Z)
    (MessageJson : FJsonObject) (MessageId : FGuid)
    (MessageFragmentArray : list FJsonValue),
    ChatMessageFields FGuid_Parse JsonObj =
      Some (FromUserName, FromUserIdRaw, MessageJson, MessageId) →
    TryGetArrayField MessageJson FieldNames.Message = Some MessageFragmentArray →
    UsersKeyed s →
    let bIsWhisper :=
      match TryGetObjectField MessageJson FieldNames.Meta with
      | Some Metadata => default false (TryGetBoolField MessageJson FieldNames.Whisper)
      | None => false
      end in
    let bIsAction :=
      match TryGetObjectField MessageJson FieldNames.Meta with
      | Some Metadata => default false (TryGetBoolField MessageJson FieldNames.Me)
      | None => false
      end in
    ∃ s' e (FromUserObject : FMixerChatUser) m,
      HandleChatMessageEventInternal FMixerUser_Id FGuid_Parse JsonObj s =
        Some ((true, Some (length (Messages (History s)))), s', e)
      ∧ History s' = set_Messages (Messages (History s) ++ [m]) (History s)
      ∧ SameRouting s s'
      ∧ SentOf e = []
      ∧ CachedUsers s' !! FromUserIdRaw = Some FromUserObject
      ∧ GetMessageId m = MessageId
      ∧ GetSenderId m = FromUserIdRaw
      ∧ GetNickname m = Name FromUserObject
      ∧ IsWhisper m = bIsWhisper
      ∧ IsAction m = bIsAction
      ∧ IsModerated m = false
      ∧ NextLink m = None ∧ PrevLink m = None
      ∧ GetBody m =
          ((if bIsAction then Name FromUserObject ++ " " else "")
           ++ MessageText MessageFragmentArray)%string.
Proof.
  intros FGuid_Parse JsonObj s name uid msgj mid arr Hf Harr HK bIsWhisper bIsAction.
  destruct (HandleChatMessageEventInternal_run FMixerUser_Id FGuid_Parse JsonObj s name uid msgj mid Hf)
    as (u & e & Hu & Hrun & _ & He & _).
  rewrite Harr in Hrun. rewrite bool_decide_true in Hrun by eauto.
  assert (Hid : Id u = uid) by (eapply UsersAfterSighting_keyed; eauto).
  assert (Hflags : MetaFlags msgj = (bIsWhisper, bIsAction)).
  { unfold MetaFlags, bIsWhisper, bIsAction.
    by destruct (TryGetObjectField msgj FieldNames.Meta). }
  eexists _, e, u, _. split; [exact Hrun|].
  split; [reflexivity|]. split; [done|].
  split.
  { clear -He. induction He as [|x e Hx He IH]; [done|].
    destruct Hx as [Hx| ->]; [|done]. by destruct x. }
  split; [exact Hu|].
  unfold ParsedChatMessage. rewrite Harr. rewrite foldl_AppendFragment_body.
  rewrite Hflags. clear Hflags.
  destruct bIsWhisper, bIsAction; simpl; rewrite ?Hid; split_and!; try done;
    by rewrite String_append_assoc.
Qed.

(** Extra X6 at the example connection and a message of one fragment whose
    [meta] object holds [whisper] and [me]: the message is no whisper and no
    action. *)
Lemma HandleChatMessageEventInternal_builds_message_witness :
  ∃ s' e m,
    HandleChatMessageEventInternal ExampleFMixerUserId ExampleGuidParse
      [(FieldNames.UserNameWithUnderscore, JsonString "bob");
       (FieldNames.UserId, JsonNumber 7);
       (FieldNames.Message,
         JsonObject [(FieldNames.Message,
                       JsonArray [JsonObject [(FieldNames.Type_, JsonString "text");
                                              (FieldNames.Text, JsonString "hi")]]);
                     (FieldNames.Meta,
                       JsonObject [(FieldNames.Whisper, JsonBoolean true);
                                   (FieldNames.Me, JsonBoolean true)])]);
       (FieldNames.Id, JsonString "m1")]
      (ExampleConnection 5) = Some ((true, Some 0%nat), s', e)
    ∧ Messages (History s') = [m]
    ∧ IsWhisper m = false ∧ IsAction m = false
    ∧ GetBody m = "hi".
Proof.
  destruct (HandleChatMessageEventInternal_builds_message ExampleFMixerUserId ExampleGuidParse
              [(FieldNames.UserNameWithUnderscore, JsonString "bob");
               (FieldNames.UserId, JsonNumber 7);
               (FieldNames.Message,
                 JsonObject [(FieldNames.Message,
                               JsonArray [JsonObject [(FieldNames.Type_, JsonString "text");
                                                      (FieldNames.Text, JsonString "hi")]]);
                             (FieldNames.Meta,
                               JsonObject [(FieldNames.Whisper, JsonBoolean true);
                                           (FieldNames.Me, JsonBoolean true)])]);
               (FieldNames.Id, JsonString "m1")]
              (ExampleConnection 5)
              "bob" 7
              [(FieldNames.Message,
                 JsonArray [JsonObject [(FieldNames.Type_, JsonString "text");
                                        (FieldNames.Text, JsonString "hi")]]);
               (FieldNames.Meta,
                 JsonObject [(FieldNames.Whisper, JsonBoolean true);
                             (FieldNames.Me, JsonBoolean true)])]
              1%N
              [JsonObject [(FieldNames.Type_, JsonString "text");
                           (FieldNames.Text, JsonString "hi")]])
    as (s' & e & u & m & Hrun & Hh & _ & _ & _ & _ & _ & _ & Hw & Ha & _ & _ & _ & Hbody).
  - reflexivity.
  - reflexivity.
  - intros k u Hk. simpl in Hk. by rewrite lookup_empty in Hk.
  - exists s', e, m. split; [exact Hrun|]. split; [by rewrite Hh|].
    split; [exact Hw|]. split; [exact Ha|exact Hbody].
Defined.

(** Extra X7.  [HandleChatMessageEvent] on a payload that decodes, fragments
    array included, with the history well formed: it returns true, having
    made one new message object, with the reply table, [MessageId],
    [bIsReady] and the socket as before and nothing sent.  A message that
    the code flags as a whisper (its message object has a [meta] object and,
    beside it, the boolean field [whisper] set) is notified as a private
    message and never enters the history, whose members and chain are as
    before.  Any other message, one whose [whisper] flag is inside [meta]
    included, is notified as a message of the room and pushed as the newest
    of the history, the oldest one leaving when there is no room. *)
Theorem HandleChatMessageEvent_delivers (FMixerUser_Id : Z) :
  ∀ (FGuid_Parse : string → option FGuid) (JsonObj : FJsonObject)
    (s : FMixerChatConnection) (l : list nat)
    (FromUserName : string) (FromUserIdRaw : Z)
    (MessageJson : FJsonObject) (MessageId : FGuid)
    (MessageFragmentArray : list FJsonValue),
    ChatMessageFields FGuid_Parse JsonObj =
      Some (FromUserName, FromUserIdRaw, MessageJson, MessageId) →
    TryGetArrayField MessageJson FieldNames.Message = Some MessageFragmentArray →
    HistoryChain (History s) l →
    ChatHistoryNum (History s) <= ChatHistoryMax (History s) →
    ChatHistoryMax (History s) < 2147483647 →
    let bIsWhisper :=
      match TryGetObjectField MessageJson FieldNames.Meta with
      | Some Metadata => default false (TryGetBoolField MessageJson FieldNames.Whisper)
      | None => false
      end in
    ∃ s' e,
      HandleChatMessageEvent FMixerUser_Id FGuid_Parse JsonObj s = Some (true, s', e)
      ∧ length (Messages (History s')) = S (length (Messages (History s)))
      ∧ SameRouting s s'
      ∧ SentOf e = []
      ∧ ChatHistoryMax (History s') = ChatHistoryMax (History s)
      ∧ if bIsWhisper
        then PrivateMessagesOf e = [length (Messages (History s))]
             ∧ RoomMessagesOf e = []
             ∧ HistoryChain (History s') l
             ∧ SameHistory s s'
        else PrivateMessagesOf e = []
             ∧ RoomMessagesOf e = [length (Messages (History s))]
             ∧ HistoryChain (History s')
                 (take (Z.to_nat (ChatHistoryMax (History s)))
                       (length (Messages (History s)) :: l)).
Proof.
  intros FGuid_Parse JsonObj s l name uid msgj mid arr Hf Harr Hc Hle Hmax bIsWhisper.
  assert (Hflag : (MetaFlags msgj).1 = bIsWhisper).
  { unfold MetaFlags, bIsWhisper. by destruct (TryGetObjectField msgj FieldNames.Meta). }
  clearbody bIsWhisper. subst bIsWhisper.
  unfold HandleChatMessageEvent. rewrite Op_bind_run.
  destruct (HandleChatMessageEventInternal_run FMixerUser_Id _ _ s _ _ _ _ Hf)
    as (u & e1 & Hlk & -> & _ & He1 & _).
  destruct (log_or_join_effects _ _ He1) as (Hp1 & Hr1 & Hs1).
  set (ms := Messages (History s)) in *.
  set (m' := ParsedChatMessage msgj (NewChatMessage mid u)).
  set (s1 := WithLast ms m' _).
  assert (Hc1 : HistoryChain (History s1) l).
  { change (History s1) with (set_Messages (Messages (History s) ++ [m']) (History s)).
    by apply HistoryChain_extend. }
  destruct (ParsedChatMessage_props msgj (NewChatMessage mid u)) as (Hid & Hnx & Hpv & Hwh).
  fold m' in Hid, Hnx, Hpv, Hwh. simpl in Hid, Hnx, Hpv, Hwh.
  specialize (Hwh ltac:(eauto)).
  assert (Hm' : Messages (History s1) !! length ms = Some m').
  { simpl. rewrite lookup_app_r by lia. by rewrite Nat.sub_diag. }
  rewrite Harr. rewrite bool_decide_true by eauto. run_op.
  rewrite (ReadMessage_run _ _ _ Hm'). run_op.
  rewrite Hwh. destruct (MetaFlags msgj).1 eqn:Hw; run_op.
  - (* a whisper *)
    eexists _, _. split; [reflexivity|].
    rewrite !PrivateMessagesOf_app, !RoomMessagesOf_app, !SentOf_app, Hp1, Hr1, Hs1.
    simpl. split_and!; try done.
    + rewrite length_app. simpl. lia.
    + unfold SameHistory. simpl. split_and!; try done. by exists [m'].
  - assert (Hal : length ms ∉ l).
    { intros Hin. apply (HistoryChain_lt _ _ _ Hc) in Hin. fold ms in Hin. lia. }
    assert (Hw' : IsWhisper m' = false) by (by rewrite Hwh).
    destruct (decide (0 < ChatHistoryMax (History s))) as [Hpos|Hnpos].
    + destruct (AddMessageToChatHistory_chain (History s1) l (length ms) m')
        as (h2 & Hadd & Hc2 & Hmx2 & Hsc2 & Hfr2); try done.
      unfold OnHistory_, OnHistory. rewrite Hadd. simpl. run_op.
      eexists _, _. split; [reflexivity|].
      rewrite !PrivateMessagesOf_app, !RoomMessagesOf_app, !SentOf_app, Hp1, Hr1, Hs1.
      pose proof (SameContents_length _ _ Hsc2) as Hlen2. simpl in Hlen2.
      rewrite length_app in Hlen2. simpl in Hlen2.
      simpl. split_and!; try done. fold ms. lia.
    + assert (l = []) as -> by (apply (HistoryChain_nil_inv (History s)); [done|lia]).
      unfold OnHistory_, OnHistory.
      assert (Hnoop : AddMessageToChatHistory (length ms) (History s1) = Some (History s1)).
      { apply (AddMessageToChatHistory_noop _ _ m'); [done|]. left.
        change (ChatHistoryMax (History s) <= 0). lia. }
      rewrite Hnoop. simpl. run_op.
      eexists _, _. split; [reflexivity|].
      rewrite !PrivateMessagesOf_app, !RoomMessagesOf_app, !SentOf_app, Hp1, Hr1, Hs1.
      replace (Z.to_nat (ChatHistoryMax (History s))) with 0%nat by lia.
      rewrite take_0. simpl. split_and!; try done.
      rewrite length_app. simpl. lia.
Qed.

(** Extra X7 at the connection holding [m1], for a second message whose
    [meta] object holds [whisper]: it is delivered to the room and pushed into
    the history. *)
Lemma HandleChatMessageEvent_delivers_witness :
  ∃ s' e,
    HandleChatMessageEvent ExampleFMixerUserId ExampleGuidParse
      [(FieldNames.UserNameWithUnderscore, JsonString "al");
       (FieldNames.UserId, JsonNumber 8);
       (FieldNames.Message,
         JsonObject [(FieldNames.Message,
                       JsonArray [JsonObject [(FieldNames.Type_, JsonString "text");
                                              (FieldNames.Text, JsonString "yo")]]);
                     (FieldNames.Meta, JsonObject [(FieldNames.Whisper, JsonBoolean true)])]);
       (FieldNames.Id, JsonString "m2")]
      (ExampleConnectionWithMessage 5) = Some (true, s', e)
    ∧ PrivateMessagesOf e = []
    ∧ RoomMessagesOf e = [1%nat]
    ∧ HistoryChain (History s') [1; 0]%nat.
Proof.
  destruct (HandleChatMessageEvent_delivers ExampleFMixerUserId ExampleGuidParse
              [(FieldNames.UserNameWithUnderscore, JsonString "al");
               (FieldNames.UserId, JsonNumber 8);
               (FieldNames.Message,
                 JsonObject [(FieldNames.Message,
                               JsonArray [JsonObject [(FieldNames.Type_, JsonString "text");
                                                      (FieldNames.Text, JsonString "yo")]]);
                             (FieldNames.Meta,
                               JsonObject [(FieldNames.Whisper, JsonBoolean true)])]);
               (FieldNames.Id, JsonString "m2")]
              (ExampleConnectionWithMessage 5)
              [0%nat] "al" 8
              [(FieldNames.Message,
                 JsonArray [JsonObject [(FieldNames.Type_, JsonString "text");
                                        (FieldNames.Text, JsonString "yo")]]);
               (FieldNames.Meta, JsonObject [(FieldNames.Whisper, JsonBoolean true)])]
              2%N
              [JsonObject [(FieldNames.Type_, JsonString "text");
                           (FieldNames.Text, JsonString "yo")]])
    as (s' & e & Hrun & _ & _ & _ & _ & Hcase).
  - reflexivity.
  - reflexivity.
  - exact ExampleConnectionWithMessage_chain.
  - vm_compute. discriminate.
  - reflexivity.
  - destruct Hcase as (Hpriv & Hroom & Hc). by exists s', e.
Defined.

(** Extra X8.  Whatever packet arrives, [OnChatPacket] keeps the rule that
    every user of [CachedUsers] is cached under its own id: the handlers of
    user join, user leave and chat message events and of the history reply,
    which write the cache, and those that leave it alone. *)
Theorem OnChatPacket_keeps_users_keyed (FMixerUser_Id : Z) :
  ∀ (FGuid_Parse : string → option FGuid) (JsonObj : option FJsonObject)
    (s s' : FMixerChatConnection) (e : list Effect),
    UsersKeyed s →
    OnChatPacket FMixerUser_Id FGuid_Parse JsonObj s = Some (tt, s', e) →
    UsersKeyed s'.
Proof.
  intros FGuid_Parse JsonObj s s' e HK. unfold OnChatPacket. rewrite Op_bind_run.
  destruct JsonObj as [JsonObj|].
  2:{ run_op. by intros [= <- _]. }
  destruct (OnChatPacketInternal FMixerUser_Id FGuid_Parse JsonObj s)
      as [[[b s1] e1]|] eqn:E; [|done].
  assert (HK1 : UsersKeyed s1).
  { destruct b; [|by apply OnChatPacketInternal_false in E as [-> _]].
    revert E. unfold OnChatPacketInternal, GET_JSON_STRING_RETURN_FAILURE,
      GET_JSON_INT_RETURN_FAILURE, GET_JSON_OBJECT_RETURN_FAILURE,
      GET_JSON_FIELD_RETURN_FAILURE.
    destruct (TryGetStringField JsonObj FieldNames.Type_) as [t|]; [|by run_op].
    destruct (String.eqb t MessageTypes.Reply).
    - destruct (TryGetNumberField JsonObj FieldNames.Id) as [k|]; [|by run_op].
      run_op. destruct (ReplyHandlers s !! k) as [[H|]|]; run_op; [| |done].
      + destruct (CallHandler FMixerUser_Id FGuid_Parse H JsonObj _)
          as [[[b1 s2] e2]|] eqn:E2; [|done].
        run_op. intros [= <- _]. eapply CallHandler_keyed; [|exact E2]. done.
      + by intros [= <- _].
    - destruct (String.eqb t MessageTypes.Event); [|by run_op].
      destruct (TryGetStringField JsonObj FieldNames.Event) as [ev|]; [|by run_op].
      destruct (TryGetObjectField JsonObj FieldNames.Data) as [d|]; [|by run_op].
      destruct (GetEventHandler ev) as [H|]; [|by run_op].
      run_op.
      destruct (CallHandler FMixerUser_Id FGuid_Parse H d s) as [[[b1 s2] e2]|] eqn:E2; [|done].
      intros [= <- _]. eapply CallHandler_keyed; [|exact E2]. done. }
  destruct b; run_op; by intros [= <- _].
Qed.

(** Extra X8 at the packet of a chat message, on a connection whose cache is
    empty. *)
Lemma OnChatPacket_keeps_users_keyed_witness :
  UsersKeyed (ExampleConnectionWithMessage 5).
Proof.
  assert (HK : UsersKeyed (ExampleConnection 5)).
  { intros k u Hk. simpl in Hk. by rewrite lookup_empty in Hk. }
  unfold ExampleConnectionWithMessage, StateAfter.
  destruct (OnChatPacket ExampleFMixerUserId ExampleGuidParse
              (Some (ExampleEvent EventTypes.ChatMessage (ExampleChatMessage "m1" 7 "bob" "hi")))
              (ExampleConnection 5)) as [[[[] s'] e]|] eqn:E; [|exact HK].
  exact (OnChatPacket_keeps_users_keyed ExampleFMixerUserId ExampleGuidParse _ _ _ _ HK E).
Defined.

(** Extra X9.  A user join event for an id that is not cached caches a new
    user object under the id, with the name of the event and level 0, and
    notifies of a member joining; the same event once more changes and
    notifies nothing; the user leave event for the id then notifies of a
    member leaving and puts the connection back exactly as it was before the
    join; and a leave event for an id that is not cached changes and
    notifies nothing.  Both notifications carry [GetUniqueNetId()] of the
    user object, which is the net id its constructor built before it
    assigned [Id] ([NetIdOfNewChatUser]), not the net id of the user's
    id. *)
Theorem HandleUserJoinEvent_HandleUserLeaveEvent_round_trip (FMixerUser_Id : Z) :
  ∀ (JoinObj LeaveObj : FJsonObject) (s : FMixerChatConnection)
    (UserIdRaw : Z) (UserName : string),
    TryGetNumberField JoinObj FieldNames.Id = Some UserIdRaw →
    TryGetStringField JoinObj FieldNames.UserNameNoUnderscore = Some UserName →
    TryGetNumberField LeaveObj FieldNames.Id = Some UserIdRaw →
    CachedUsers s !! UserIdRaw = None →
    let CachedUser := NewChatUser FMixerUser_Id UserName UserIdRaw in
    ∃ s1,
      HandleUserJoinEvent FMixerUser_Id JoinObj s =
        Some (true, s1,
              [UE_LOG ELogVerbosity.Log (IsJoining UserName);
               TriggerOnChatRoomMemberJoinDelegates (NetIdOfNewChatUser FMixerUser_Id)])
      ∧ CachedUsers s1 = <[UserIdRaw := CachedUser]> (CachedUsers s)
      ∧ Name CachedUser = UserName ∧ Id CachedUser = UserIdRaw ∧ Level CachedUser = 0
      ∧ HandleUserJoinEvent FMixerUser_Id JoinObj s1 = Some (true, s1, [])
      ∧ HandleUserLeaveEvent LeaveObj s1 =
          Some (true, s,
                [UE_LOG ELogVerbosity.Log (IsExiting UserName);
                 TriggerOnChatRoomMemberExitDelegates (NetIdOfNewChatUser FMixerUser_Id)])
      ∧ HandleUserLeaveEvent LeaveObj s = Some (true, s, []).
Proof.
  intros JoinObj LeaveObj s uid name Hid Hname Hlid Habs u.
  exists (set_CachedUsers (<[uid := u]> (CachedUsers s)) s).
  rewrite !HandleUserJoinEvent_run, !HandleUserLeaveEvent_run, Hid, Hname, Hlid, Habs.
  simpl. rewrite lookup_insert_eq. split_and!; try done.
  rewrite delete_insert_eq, delete_id by done. by destruct s.
Qed.

(** Extra X9 at the example connection and user 7. *)
Lemma HandleUserJoinEvent_HandleUserLeaveEvent_round_trip_witness :
  ∃ s1,
    HandleUserJoinEvent ExampleFMixerUserId
      [(FieldNames.Id, JsonNumber 7); (FieldNames.UserNameNoUnderscore, JsonString "bob")]
      (ExampleConnection 5)
    = Some (true, s1,
            [UE_LOG ELogVerbosity.Log (IsJoining "bob");
             TriggerOnChatRoomMemberJoinDelegates {| MixerId := ExampleFMixerUserId |}])
    ∧ HandleUserLeaveEvent [(FieldNames.Id, JsonNumber 7)] s1
      = Some (true, ExampleConnection 5,
              [UE_LOG ELogVerbosity.Log (IsExiting "bob");
               TriggerOnChatRoomMemberExitDelegates {| MixerId := ExampleFMixerUserId |}]).
Proof.
  destruct (HandleUserJoinEvent_HandleUserLeaveEvent_round_trip ExampleFMixerUserId
              [(FieldNames.Id, JsonNumber 7);
               (FieldNames.UserNameNoUnderscore, JsonString "bob")]
              [(FieldNames.Id, JsonNumber 7)] (ExampleConnection 5) 7 "bob")
    as (s1 & Hjoin & _ & _ & _ & _ & _ & Hleave & _).
  - reflexivity.
  - reflexivity.
  - reflexivity.
  - apply lookup_empty.
  - exists s1. split; [exact Hjoin|exact Hleave].
Defined.

(** Extra X10.  A frame that is no reply, whatever else it holds, never
    touches the reply table, [MessageId], [bIsReady] or the socket, and has
    nothing sent and no connection or connection attempt ended: all that
    [OnChatPacketInternal] does for it is to log and to notify of members
    and messages. *)
Theorem OnChatPacketInternal_events_leave_routing (FMixerUser_Id : Z) :
  ∀ (FGuid_Parse : string → option FGuid) (JsonObj : FJsonObject)
    (s s' : FMixerChatConnection) (b : bool) (e : list Effect),
    TryGetStringField JsonObj FieldNames.Type_ ≠ Some MessageTypes.Reply →
    OnChatPacketInternal FMixerUser_Id FGuid_Parse JsonObj s = Some (b, s', e) →
    SameRouting s s' ∧ Forall IsLogOrNotification e ∧ SentOf e = [].
Proof.
  intros FGuid_Parse JsonObj s s' b e Hty Hrun.
  assert (H : SameRouting s s' ∧ Forall IsLogOrNotification e).
  2:{ destruct H as [H1 H2]. split_and!; try done. by apply IsLogOrNotification_SentOf. }
  revert Hrun. unfold OnChatPacketInternal, GET_JSON_STRING_RETURN_FAILURE,
    GET_JSON_OBJECT_RETURN_FAILURE, GET_JSON_FIELD_RETURN_FAILURE.
  destruct (TryGetStringField JsonObj FieldNames.Type_) as [t|].
  2:{ run_op. intros [= _ <- <-]. split; [apply SameRouting_refl|by repeat constructor]. }
  destruct (String.eqb_spec t MessageTypes.Reply) as [->|_]; [done|].
  destruct (String.eqb t MessageTypes.Event).
  2:{ run_op. intros [= _ <- <-]. split; [apply SameRouting_refl|constructor]. }
  destruct (TryGetStringField JsonObj FieldNames.Event) as [ev|].
  2:{ run_op. intros [= _ <- <-]. split; [apply SameRouting_refl|by repeat constructor]. }
  destruct (TryGetObjectField JsonObj FieldNames.Data) as [d|].
  2:{ run_op. intros [= _ <- <-]. split; [apply SameRouting_refl|by repeat constructor]. }
  destruct (GetEventHandler ev) as [H|] eqn:EH.
  2:{ run_op. intros [= _ <- <-]. split; [apply SameRouting_refl|by repeat constructor]. }
  run_op.
  destruct (CallHandler FMixerUser_Id FGuid_Parse H d s) as [[[b1 s2] e2]|] eqn:E2; [|done].
  intros [= _ <- <-]. rewrite app_nil_r.
  apply GetEventHandler_not_a_reply_handler in EH as [Hne _].
  exact (CallHandler_routing FMixerUser_Id FGuid_Parse H d Hne _ _ _ _ E2).
Qed.

(** Extra X10 at the frame of a chat message event. *)
Lemma OnChatPacketInternal_events_leave_routing_witness :
  ∃ s' e,
    OnChatPacketInternal ExampleFMixerUserId ExampleGuidParse
      (ExampleEvent EventTypes.ChatMessage (ExampleChatMessage "m1" 7 "bob" "hi"))
      (ExampleConnection 5) = Some (true, s', e)
    ∧ SameRouting (ExampleConnection 5) s' ∧ SentOf e = [].
Proof.
  destruct (OnChatPacketInternal ExampleFMixerUserId ExampleGuidParse
              (ExampleEvent EventTypes.ChatMessage (ExampleChatMessage "m1" 7 "bob" "hi"))
              (ExampleConnection 5)) as [[[b s'] e]|] eqn:E; [|by vm_compute in E].
  assert (b = true) as -> by (vm_compute in E; congruence).
  destruct (OnChatPacketInternal_events_leave_routing ExampleFMixerUserId ExampleGuidParse
              (ExampleEvent EventTypes.ChatMessage (ExampleChatMessage "m1" 7 "bob" "hi"))
              (ExampleConnection 5) s' true e) as (Hr & _ & Hs).
  - discriminate.
  - exact E.
  - by exists s', e.
Defined.

(** Extra X11.  A packet the connection does not understand is dropped with
    the connection exactly as it was: an event whose name is none of those
    [GetEventHandler] knows is logged as not handled, a frame whose type is
    neither reply nor event is not logged by [OnChatPacketInternal] at all,
    and [OnChatPacket] then logs that it failed to handle the packet. *)
Theorem OnChatPacket_drops_unknown_frames (FMixerUser_Id : Z) :
  ∀ (FGuid_Parse : string → option FGuid) (JsonObj : FJsonObject)
    (s : FMixerChatConnection),
    (∀ EventType Data,
       TryGetStringField JsonObj FieldNames.Type_ = Some MessageTypes.Event →
       TryGetStringField JsonObj FieldNames.Event = Some EventType →
       TryGetObjectField JsonObj FieldNames.Data = Some Data →
       EventType ∉ EventHandlers.*1 →
       OnChatPacket FMixerUser_Id FGuid_Parse (Some JsonObj) s =
         Some (tt, s, [UE_LOG ELogVerbosity.Warning (EventTypeNotHandled EventType);
                       UE_LOG ELogVerbosity.Error FailedToHandleChatPacket]))
    ∧ (∀ MessageType,
         TryGetStringField JsonObj FieldNames.Type_ = Some MessageType →
         MessageType ≠ MessageTypes.Reply → MessageType ≠ MessageTypes.Event →
         OnChatPacket FMixerUser_Id FGuid_Parse (Some JsonObj) s =
           Some (tt, s, [UE_LOG ELogVerbosity.Error FailedToHandleChatPacket])).
Proof.
  intros FGuid_Parse JsonObj s. split.
  - intros ev d Ht Hev Hd Hnot.
    pose proof (GetEventHandler_None ev Hnot) as HN.
    unfold OnChatPacket. rewrite Op_bind_run.
    rewrite (OnChatPacketInternal_event FMixerUser_Id _ _ _ _ _ Ht Hev Hd), HN. by run_op.
  - intros t Ht Hr He. unfold OnChatPacket, OnChatPacketInternal,
      GET_JSON_STRING_RETURN_FAILURE, GET_JSON_FIELD_RETURN_FAILURE.
    rewrite Ht.
    destruct (String.eqb_spec t MessageTypes.Reply) as [->|_]; [done|].
    destruct (String.eqb_spec t MessageTypes.Event) as [->|_]; [done|].
    by run_op.
Qed.

(** Extra X11 at an event the connection has no handler for, and at a frame
    of type [method]. *)
Lemma OnChatPacket_drops_unknown_frames_witness :
  OnChatPacket ExampleFMixerUserId ExampleGuidParse (Some (ExampleEvent "PollStart" []))
      (ExampleConnection 5)
  = Some (tt, ExampleConnection 5,
          [UE_LOG ELogVerbosity.Warning (EventTypeNotHandled "PollStart");
           UE_LOG ELogVerbosity.Error FailedToHandleChatPacket])
  ∧ OnChatPacket ExampleFMixerUserId ExampleGuidParse
      (Some [(FieldNames.Type_, JsonString MessageTypes.Method)]) (ExampleConnection 5)
    = Some (tt, ExampleConnection 5, [UE_LOG ELogVerbosity.Error FailedToHandleChatPacket]).
Proof.
  split.
  - apply (proj1 (OnChatPacket_drops_unknown_frames ExampleFMixerUserId ExampleGuidParse
                    (ExampleEvent "PollStart" []) (ExampleConnection 5)) "PollStart" []);
      try reflexivity.
    vm_compute. intros H.
    repeat (apply elem_of_cons in H as [H|H]; [discriminate|]).
    by apply elem_of_nil in H.
  - apply (proj2 (OnChatPacket_drops_unknown_frames ExampleFMixerUserId ExampleGuidParse
                    [(FieldNames.Type_, JsonString MessageTypes.Method)]
                    (ExampleConnection 5)) MessageTypes.Method);
      [reflexivity|discriminate|discriminate].
Defined.

(** Extra X12.  [SendAuth] sends one [auth] frame under the current
    [MessageId]: with the channel, the id of the user and the auth key when
    there is a user and the key is not empty, and with the channel alone
    (an anonymous session) otherwise.  The reply to that id reaches
    [HandleAuthReply] once: with an error object the attempt is reported as
    failed and [bIsReady] is as before; without one the connection is ready
    and success is reported, after a [history] request for
    [min ChatHistoryMax 100] messages under the next id when
    [ChatHistoryMax > 0].  In both cases the reply is handled and the id
    of the [auth] call is pending no more. *)
Theorem SendAuth_then_reply (FMixerUser_Id : Z) :
  ∀ (FGuid_Parse : string → option FGuid) (ChannelId : Z) (User : option FMixerLocalUser)
    (AuthKey : string) (s : FMixerChatConnection) (ws : IWebSocket) (Reply : FJsonObject),
    PendingBelow s →
    InInt32 (MessageId s) → MessageId s + 2 <= 2147483647 →
    WebSocket s = Some ws →
    TryGetStringField Reply FieldNames.Type_ = Some MessageTypes.Reply →
    TryGetNumberField Reply FieldNames.Id = Some (MessageId s) →
    ∃ s1 Line Args,
      SendAuth ChannelId User AuthKey s =
        Some (tt, s1,
              [UE_LOG ELogVerbosity.Log Line;
               WebSocket_Send (WriteRemoteMethodPacket MethodNames.Auth (MessageId s) Args)])
      ∧ Args = match User with
               | Some u =>
                   if negb (String.eqb AuthKey EmptyString)
                   then [JsonNumber ChannelId; JsonNumber (Id u); JsonString AuthKey]
                   else [JsonNumber ChannelId]
               | None => [JsonNumber ChannelId]
               end
      ∧ ReplyHandlers s1 !! MessageId s = Some (Some Ptr_HandleAuthReply)
      ∧ MessageId s1 = MessageId s + 1
      ∧ match TryGetObjectField Reply FieldNames.Error with
        | Some ErrorObj =>
            ∃ s2,
              OnChatPacketInternal FMixerUser_Id FGuid_Parse Reply s1 =
                Some (true, s2,
                      [ConnectAttemptFinished false
                         (default EmptyString
                            (TryGetStringField ErrorObj FieldNames.Message))])
              ∧ bIsReady s2 = bIsReady s
              ∧ ReplyHandlers s2 = ReplyHandlers s
        | None =>
            ∃ s2 e2,
              OnChatPacketInternal FMixerUser_Id FGuid_Parse Reply s1 = Some (true, s2, e2)
              ∧ bIsReady s2 = true
              ∧ ReplyHandlers s2 !! MessageId s = None
              ∧ PendingBelow s2
              ∧ e2 =
                  (if bool_decide (0 < ChatHistoryMax (History s))
                   then [WebSocket_Send
                           (WriteRemoteMethodPacket MethodNames.History (MessageId s + 1)
                              [JsonNumber (Z.min (ChatHistoryMax (History s)) 100)])]
                   else [])
                  ++ [ConnectAttemptFinished true EmptyString]
              ∧ (0 < ChatHistoryMax (History s) →
                 ReplyHandlers s2 !! (MessageId s + 1) = Some (Some Ptr_HandleHistoryReply))
        end.
Proof.
  intros FGuid_Parse ChannelId User AuthKey s ws Reply Hp Hin Hmax Hws Hty Hid.
  pose proof (PendingBelow_free s Hp) as Hfree.
  assert (Hw1 : wrap32 (MessageId s + 1) = MessageId s + 1)
    by (apply wrap32_id; unfold InInt32 in *; lia).
  assert (Hsend := SendAuth_run ChannelId User AuthKey s ws Hfree Hws).
  assert (Hreply := HandleAuthReply_after_SendAuth FMixerUser_Id FGuid_Parse s ws Reply
                      Hp Hin Hmax Hws Hty Hid).
  cbn zeta in Hreply.
  set (s1 := set_MessageId (wrap32 (MessageId s + 1))
               (set_ReplyHandlers
                  (<[MessageId s := Some Ptr_HandleAuthReply]> (ReplyHandlers s)) s)) in *.
  assert (∃ Line Args,
            SendAuth ChannelId User AuthKey s =
              Some (tt, s1,
                    [UE_LOG ELogVerbosity.Log Line;
                     WebSocket_Send
                       (WriteRemoteMethodPacket MethodNames.Auth (MessageId s) Args)])
            ∧ Args = match User with
                     | Some u =>
                         if negb (String.eqb AuthKey EmptyString)
                         then [JsonNumber ChannelId; JsonNumber (Id u); JsonString AuthKey]
                         else [JsonNumber ChannelId]
                     | None => [JsonNumber ChannelId]
                     end) as (Line & Args & Hs & HA).
  { rewrite Hsend.
    destruct User as [u|]; [destruct (negb (String.eqb AuthKey EmptyString))|]; by eexists _, _. }
  exists s1, Line, Args. split; [done|]. split; [done|].
  split; [simpl; apply lookup_insert_eq|]. split; [simpl; lia|].
  destruct (TryGetObjectField Reply FieldNames.Error) as [ErrorObj|]; [done|].
  destruct Hreply as (s2 & e2 & H1 & H2 & H3 & H4 & H5 & H6 & _).
  by exists s2, e2.
Qed.

(** Extra X12 at the example connection, for an anonymous session and a reply
    without error. *)
Lemma SendAuth_then_reply_witness :
  ∃ s1 e1 s2 e2,
    SendAuth 42 None "" (ExampleConnection 5) = Some (tt, s1, e1)
    ∧ SentOf e1 = [JsonObject [("type"%string, JsonString "method");
                    ("method"%string, JsonString "auth");
                    ("arguments"%string, JsonArray [JsonNumber 42]);
                    ("id"%string, JsonNumber 0)]]
    ∧ OnChatPacketInternal ExampleFMixerUserId ExampleGuidParse (ExampleReply 0 []) s1
      = Some (true, s2, e2)
    ∧ bIsReady s2 = true
    ∧ SentOf e2 = [JsonObject [("type"%string, JsonString "method");
                    ("method"%string, JsonString "history");
                    ("arguments"%string, JsonArray [JsonNumber 5]);
                    ("id"%string, JsonNumber 1)]].
Proof.
  destruct (SendAuth_then_reply ExampleFMixerUserId ExampleGuidParse 42 None ""
      (ExampleConnection 5)
              {| IsConnected := true |} (ExampleReply 0 []))
    as (s1 & Line & Args & Hsend & HA & _ & _ & Hreply).
  - intros k [x Hk]. simpl in Hk. by rewrite lookup_empty in Hk.
  - vm_compute. split; discriminate.
  - vm_compute. discriminate.
  - reflexivity.
  - reflexivity.
  - reflexivity.
  - simpl in Hreply. destruct Hreply as (s2 & e2 & Hrun & Hready & _ & _ & -> & _).
    simpl in HA. subst Args.
    eexists s1, _, s2, _. split; [exact Hsend|]. split; [reflexivity|].
    split; [exact Hrun|]. split; [done|]. reflexivity.
Defined.

(** Extra X13.  On a ready session that is not anonymous [SendWhisper] returns
    true and sends one [whisper] frame with the addressee and the message
    body under the current [MessageId], whether the socket reports itself
    connected or not (the checks of [SendChatMessage] are not made); it
    registers the id without a handler, so that the reply to it is accepted
    and only takes the id out of the reply table again, which is then as
    before the call. *)
Theorem SendWhisper_then_reply (FMixerUser_Id : Z) :
  ∀ (FGuid_Parse : string → option FGuid) (IsAnonymous : FMixerChatConnection → bool)
    (s : FMixerChatConnection) (ws : IWebSocket) (ToUser MessageBody : string)
    (Reply : FJsonObject),
    bIsReady s = true → IsAnonymous s = false →
    WebSocket s = Some ws →
    ReplyHandlers s !! MessageId s = None →
    TryGetStringField Reply FieldNames.Type_ = Some MessageTypes.Reply →
    TryGetNumberField Reply FieldNames.Id = Some (MessageId s) →
    ∃ s1,
      SendWhisper IsAnonymous ToUser MessageBody s =
        Some (true, s1,
              [WebSocket_Send
                 (WriteRemoteMethodPacket MethodNames.Whisper (MessageId s)
                    [JsonString ToUser; JsonString MessageBody])])
      ∧ ReplyHandlers s1 = <[MessageId s := None]> (ReplyHandlers s)
      ∧ MessageId s1 = wrap32 (MessageId s + 1)
      ∧ OnChatPacketInternal FMixerUser_Id FGuid_Parse Reply s1 =
          Some (true, set_MessageId (wrap32 (MessageId s + 1)) s, []).
Proof.
  intros FGuid_Parse IsAnonymous s ws ToUser Body Reply Hready Hanon Hws Hfree Hty Hid.
  eexists. split.
  { unfold SendWhisper. run_op. rewrite Hready, Hanon. simpl. run_op.
    erewrite SendMethodPacket_run by done. run_op. reflexivity. }
  split; [done|]. split; [done|].
  rewrite (OnChatPacketInternal_reply FMixerUser_Id _ _ _ _ Hty Hid). simpl.
  rewrite lookup_insert_eq. rewrite delete_insert_eq, delete_id by done.
  by destruct s.
Qed.

(** Extra X13 at the example connection once ready. *)
Lemma SendWhisper_then_reply_witness :
  ∃ s1,
    SendWhisper ExampleIsAnonymous "bob" "psst" (set_bIsReady true (ExampleConnection 5))
    = Some (true, s1,
            [WebSocket_Send
               (JsonObject [("type"%string, JsonString "method");
                    ("method"%string, JsonString "whisper");
                    ("arguments"%string, JsonArray [JsonString "bob"; JsonString "psst"]);
                    ("id"%string, JsonNumber 0)])])
    ∧ OnChatPacketInternal ExampleFMixerUserId ExampleGuidParse (ExampleReply 0 []) s1
      = Some (true, set_MessageId 1 (set_bIsReady true (ExampleConnection 5)), []).
Proof.
  destruct (SendWhisper_then_reply ExampleFMixerUserId ExampleGuidParse ExampleIsAnonymous
              (set_bIsReady true (ExampleConnection 5)) {| IsConnected := true |}
              "bob" "psst" (ExampleReply 0 []))
    as (s1 & Hsend & _ & _ & Hreply); try reflexivity.
  exists s1. split; [exact Hsend|exact Hreply].
Defined.

(** Extra X14.  [HandleHistoryReply] does not return when one of the reported
    entries decodes to a message flagged as a whisper: the loop over the
    entries stops at the check that a message of the history is no whisper,
    for the first such entry at the latest. *)
Theorem HandleHistoryReply_whisper_fails_check (FMixerUser_Id : Z) :
  ∀ (FGuid_Parse : string → option FGuid) (JsonObj : FJsonObject)
    (s : FMixerChatConnection) (Data : list FJsonValue)
    (HistoryEntry : FJsonValue) (MessageId : FGuid),
    TryGetArrayField JsonObj FieldNames.Data = Some Data →
    HistoryEntry ∈ Data →
    ReportedMessage FGuid_Parse HistoryEntry = Some (MessageId, true) →
    HandleHistoryReply FMixerUser_Id FGuid_Parse JsonObj s = None.
Proof.
  intros FGuid_Parse JsonObj s Data x id Hd Hx Hw.
  unfold HandleHistoryReply, GET_JSON_ARRAY_RETURN_FAILURE, GET_JSON_FIELD_RETURN_FAILURE.
  rewrite Hd. run_op. unfold OnHistory_ at 1, OnHistory at 1. simpl. rewrite Op_bind_run.
  by rewrite (HandleHistoryEntries_whisper FMixerUser_Id _ _ _ _ Hx Hw).
Qed.

(** Extra X14 at a reply that reports one whisper. *)
Lemma HandleHistoryReply_whisper_fails_check_witness :
  HandleHistoryReply ExampleFMixerUserId ExampleGuidParse
    (ExampleHistory
       [JsonObject
          [(FieldNames.UserNameWithUnderscore, JsonString "bob");
           (FieldNames.UserId, JsonNumber 7);
           (FieldNames.Message,
             JsonObject [(FieldNames.Message, JsonArray []);
                         (FieldNames.Meta, JsonObject []);
                         (FieldNames.Whisper, JsonBoolean true)]);
           (FieldNames.Id, JsonString "m1")]])
    (ExampleConnection 5) = None.
Proof.
  eapply HandleHistoryReply_whisper_fails_check.
  - reflexivity.
  - apply list_elem_of_here.
  - reflexivity.
Defined.

(** Extra X15.  [HandleClearMessagesEvent] relies on [ChatHistoryNum] being
    the number of linked messages: on a history whose chain is in order but
    whose count is another number (as [HandleHistoryReply] can leave it),
    the event does not return, its check of [ChatHistoryNum == 0] failing
    after the last message is deleted. *)
Theorem HandleClearMessagesEvent_needs_the_count :
  ∀ (JsonObj : FJsonObject) (s : FMixerChatConnection) (l : list nat),
    HistoryChain (set_ChatHistoryNum (Z.of_nat (length l)) (History s)) l →
    Z.of_nat (length l) <= 2147483647 →
    ChatHistoryNum (History s) ≠ Z.of_nat (length l) →
    -2147483648 <= ChatHistoryNum (History s) - Z.of_nat (length l) →
    ChatHistoryNum (History s) <= 2147483647 →
    HandleClearMessagesEvent JsonObj s = None.
Proof.
  intros JsonObj s l Hc Hlen Hne Hlo Hhi.
  rewrite HandleClearMessagesEvent_run.
  set (h0 := set_ChatHistoryNum (Z.of_nat (length l)) (History s)) in *.
  assert (Hh : History s = set_ChatHistoryNum (ChatHistoryNum (History s)) h0)
    by (by destruct (History s)).
  rewrite Hh at 1. unfold DeleteFromChatHistoryIf.
  change (Messages (set_ChatHistoryNum _ h0)) with (Messages h0).
  change (ChatHistoryNewest (set_ChatHistoryNum _ h0)) with (ChatHistoryNewest h0).
  rewrite DeleteLoop_always_set_ChatHistoryNum.
  destruct (DeleteFromChatHistoryIf_chain (λ _, true) h0 l) as (h' & Hrun & Hc' & _);
    [done|done|done|].
  unfold DeleteFromChatHistoryIf in Hrun. rewrite Hrun. simpl.
  rewrite Decrements_in_range by lia.
  rewrite bool_decide_false by lia. done.
Qed.

(** Extra X15 at the connection holding [m1] after a history reply without
    entries. *)
Lemma HandleClearMessagesEvent_needs_the_count_witness :
  HandleClearMessagesEvent []
    (StateAfter (HandleHistoryReply ExampleFMixerUserId ExampleGuidParse (ExampleHistory []))
       (ExampleConnectionWithMessage 5)) = None.
Proof.
  apply (HandleClearMessagesEvent_needs_the_count []
           (StateAfter (HandleHistoryReply ExampleFMixerUserId ExampleGuidParse (ExampleHistory []))
              (ExampleConnectionWithMessage 5)) [0%nat]).
  - unfold HistoryChain, Linked. split_and!; try (by vm_compute).
    + apply NoDup_singleton.
    + eexists. by vm_compute.
  - vm_compute. discriminate.
  - by vm_compute.
  - vm_compute. discriminate.
  - vm_compute. discriminate.
Defined.

(** Extra X16.  [CloseWebSocket] always returns and leaves the connection
    without a socket.  When there was a socket it unhooks the handlers,
    closes the socket if it was connected, and lowers [bIsReady]; when there
    was none it does nothing at all, so that [bIsReady] stays as it was.
    The history, the user cache, the reply table, [MessageId] and the
    members of the life cycle are untouched, the chat interface is not
    called, and a second call does nothing. *)
Theorem CloseWebSocket_resets_the_socket :
  ∀ (S : FMixerChatSession),
    ∃ S' e,
      CloseWebSocket S = Some (tt, S', e)
      ∧ WebSocket (Chat S') = None
      ∧ match WebSocket (Chat S) with
        | Some ws =>
            bIsReady (Chat S') = false
            ∧ e = WebSocket_RemoveAll :: (if IsConnected ws then [WebSocket_Close] else [])
        | None => S' = S ∧ e = []
        end
      ∧ History (Chat S') = History (Chat S)
      ∧ CachedUsers (Chat S') = CachedUsers (Chat S)
      ∧ ReplyHandlers (Chat S') = ReplyHandlers (Chat S)
      ∧ MessageId (Chat S') = MessageId (Chat S)
      ∧ set_Chat (Chat S) S' = S
      ∧ ChatEffectsOf e = []
      ∧ CloseWebSocket S' = Some (tt, S', []).
Proof.
  intros S. rewrite CloseWebSocket_run.
  destruct (WebSocket (Chat S)) as [ws|] eqn:Hws.
  - eexists _, _. split; [reflexivity|]. simpl. split_and!; try done.
    + by destruct S.
    + by destruct (IsConnected ws).
  - exists S, []. rewrite CloseWebSocket_run, Hws. split_and!; try done. by destruct S.
Qed.

(** Extra X17.  Without the rejoin flag [OnChatSocketClosed] tears the socket
    down as [CloseWebSocket] does and tells the chat interface exactly one
    thing: that the room was left, with the reason and the clean flag of the
    close, when the connection was ready, and that the attempt to connect
    failed, with the reason, when it was not.  It uses neither the random
    index nor a new socket.  When there was a socket, the connection is not
    ready afterwards, and [SendChatMessage] and [SendWhisper] return false
    and send nothing. *)
Theorem OnChatSocketClosed_without_rejoin :
  ∀ (WITH_WEBSOCKETS : bool) (StatusCode : Z) (Reason : string) (bWasClean : bool)
    (SelectedIndex : Z) (CreatedSocket : option IWebSocket) (S : FMixerChatSession),
    bRejoinOnDisconnect S = false →
    ∃ S' e0 e,
      CloseWebSocket S = Some (tt, S', e0)
      ∧ OnChatSocketClosed WITH_WEBSOCKETS StatusCode Reason bWasClean SelectedIndex
          CreatedSocket S = Some (tt, S', e)
      ∧ WebSocket (Chat S') = None
      ∧ ChatEffectsOf e =
          [if bIsReady (Chat S)
           then ExitRoomWithReason bWasClean Reason
           else ConnectAttemptFinished false Reason]
      ∧ (is_Some (WebSocket (Chat S)) →
         bIsReady (Chat S') = false
         ∧ ∀ (IsAnonymous : FMixerChatConnection → bool) (ToUser MessageBody : string),
             (∃ e', SendChatMessage IsAnonymous MessageBody (Chat S')
                      = Some (false, Chat S', e') ∧ SentOf e' = [])
             ∧ (∃ e', SendWhisper IsAnonymous ToUser MessageBody (Chat S')
                        = Some (false, Chat S', e') ∧ SentOf e' = [])).
Proof.
  intros W code Reason clean idx created S Hrj.
  rewrite OnChatSocketClosed_run, Hrj, CloseWebSocket_run.
  destruct (WebSocket (Chat S)) as [ws|] eqn:Hs.
  - eexists _, _, _. split; [reflexivity|]. split; [reflexivity|].
    split; [done|]. split.
    { simpl. rewrite ChatEffectsOf_app. by destruct (IsConnected ws). }
    intros _. split; [done|].
    intros IsAnonymous ToUser Body. unfold SendChatMessage, SendWhisper. run_op.
    simpl. run_op. split; by eexists.
  - eexists _, _, _. split; [reflexivity|]. split; [reflexivity|].
    split; [done|]. split; [done|]. by intros [ws Hws].
Qed.

(** Extra X17 at a ready connection with a connected socket. *)
Lemma OnChatSocketClosed_without_rejoin_witness :
  ∃ S' e,
    OnChatSocketClosed true 1006 "gone" false 0 None
      {| Chat := set_bIsReady true (ExampleConnection 5); RoomId := "abc"; ChannelId := 42;
         AuthKey := "K"; Endpoints := ["wss://a"; "wss://b"];
         bRejoinOnDisconnect := false |} = Some (tt, S', e)
    ∧ ChatEffectsOf e = [ExitRoomWithReason false "gone"]
    ∧ bIsReady (Chat S') = false.
Proof.
  destruct (OnChatSocketClosed_without_rejoin true 1006 "gone" false 0 None
              {| Chat := set_bIsReady true (ExampleConnection 5); RoomId := "abc";
                 ChannelId := 42; AuthKey := "K"; Endpoints := ["wss://a"; "wss://b"];
                 bRejoinOnDisconnect := false |} eq_refl)
    as (S' & e0 & e & _ & Hrun & _ & Hce & Hs).
  destruct Hs as [Hr _]; [by eexists|].
  by exists S', e.
Defined.

(** Extra X18.  With the rejoin flag [OnChatSocketClosed] tears the socket
    down and opens a new one to the endpoint at the index picked: the socket
    of the connection is the one [CreateWebSocket] made for that endpoint,
    hooked and told to connect when it is valid; the chat interface is told
    nothing, not even when no socket could be made; the connection is not
    ready; and the history, the user cache, the reply table with the replies
    still pending, [MessageId] and the members of the life cycle are as
    before.  Without any endpoint the method does not return. *)
Theorem OnChatSocketClosed_with_rejoin :
  ∀ (StatusCode : Z) (Reason : string) (bWasClean : bool)
    (SelectedIndex : Z) (CreatedSocket : option IWebSocket) (S : FMixerChatSession)
    (ws : IWebSocket),
    bRejoinOnDisconnect S = true →
    WebSocket (Chat S) = Some ws →
    (∀ SelectedEndpoint,
       0 <= SelectedIndex →
       Endpoints S !! Z.to_nat SelectedIndex = Some SelectedEndpoint →
       ∃ e,
         OnChatSocketClosed true StatusCode Reason bWasClean SelectedIndex CreatedSocket S =
           Some (tt,
                 set_Chat (set_WebSocket CreatedSocket (set_bIsReady false (Chat S))) S,
                 e)
         ∧ ChatEffectsOf e = []
         ∧ CreateWebSocket SelectedEndpoint ["wss"; "ws"] ∈ e
         ∧ (WebSocket_Connect ∈ e ↔ is_Some CreatedSocket)
         ∧ (WebSocket_Close ∈ e ↔ IsConnected ws = true))
    ∧ (Endpoints S = [] →
       OnChatSocketClosed true StatusCode Reason bWasClean SelectedIndex CreatedSocket S
       = None).
Proof.
  intros code Reason clean idx created S ws Hrj Hs.
  rewrite OnChatSocketClosed_run, Hrj, CloseWebSocket_run, Hs. split.
  - intros ep Hi Hep.
    rewrite (OpenWebSocket_run _ idx created ep) by done.
    eexists. split; [by destruct S|]. 
    destruct (IsConnected ws), created as [ws'|]; simpl;
      (split; [done|]); (split; [set_solver|]); split; split; try done;
      try (by eexists); try set_solver; try (by intros []).
  - intros He. by rewrite OpenWebSocket_no_endpoint.
Qed.

(** Extra X18 at a ready connection with two endpoints, the second one
    picked. *)
Lemma OnChatSocketClosed_with_rejoin_witness :
  ∃ S' e,
    OnChatSocketClosed true 1006 "gone" false 1 (Some {| IsConnected := false |})
      {| Chat := set_bIsReady true (ExampleConnection 5); RoomId := "abc"; ChannelId := 42;
         AuthKey := "K"; Endpoints := ["wss://a"; "wss://b"];
         bRejoinOnDisconnect := true |} = Some (tt, S', e)
    ∧ bIsReady (Chat S') = false
    ∧ WebSocket (Chat S') = Some {| IsConnected := false |}
    ∧ CreateWebSocket "wss://b" ["wss"; "ws"] ∈ e.
Proof.
  destruct (OnChatSocketClosed_with_rejoin 1006 "gone" false 1
              (Some {| IsConnected := false |})
              {| Chat := set_bIsReady true (ExampleConnection 5); RoomId := "abc";
                 ChannelId := 42; AuthKey := "K"; Endpoints := ["wss://a"; "wss://b"];
                 bRejoinOnDisconnect := true |} {| IsConnected := true |} eq_refl eq_refl)
    as [Hopen _].
  destruct (Hopen "wss://b") as (e & Hrun & _ & Hcreate & _); [lia|reflexivity|].
  eexists _, e. split; [exact Hrun|]. by split_and!.
Defined.

(** Extra X19.  [OnDiscoverChatServersComplete] reads a response only when
    the request succeeded, the response is valid, its code is ok, its
    content is a JSON object and that has an [endpoints] array.  Otherwise
    the connection is left as it was, and the attempt to connect is reported
    as failed unless there is a socket already.  With such a response the
    endpoints of the array are added, in order, after those known, the auth
    key is the [authkey] of the response when that is a string and the old
    one otherwise, and a socket is opened to the endpoint at the index
    picked: the socket of the connection is the one made for that endpoint,
    told to connect when it is valid, and failure is reported when it is
    not.  When the array is empty and no endpoint was known, the method does
    not return. *)
Theorem OnDiscoverChatServersComplete_outcomes :
  ∀ (WITH_WEBSOCKETS : bool) (IsOk : Z → bool) (AsString : FJsonValue → string)
    (HttpResponse : option FHttpResponse) (bSucceeded : bool)
    (SelectedIndex : Z) (CreatedSocket : option IWebSocket) (S : FMixerChatSession),
    (UsableResponse IsOk HttpResponse bSucceeded
       ≫= (λ ResponseObject, TryGetArrayField ResponseObject FieldNames.Endpoints) = None →
     OnDiscoverChatServersComplete WITH_WEBSOCKETS IsOk AsString HttpResponse bSucceeded
       SelectedIndex CreatedSocket S =
       Some (tt, S,
             match WebSocket (Chat S) with
             | None => [ChatEffect (ConnectAttemptFinished false
                                      "Failed to create web socket")]
             | Some _ => []
             end))
    ∧ (∀ ResponseObject JsonEndpoints SelectedEndpoint,
         WITH_WEBSOCKETS = true →
         UsableResponse IsOk HttpResponse bSucceeded = Some ResponseObject →
         TryGetArrayField ResponseObject FieldNames.Endpoints = Some JsonEndpoints →
         0 <= SelectedIndex →
         (Endpoints S ++ (AsString <$> JsonEndpoints)) !! Z.to_nat SelectedIndex
           = Some SelectedEndpoint →
         ∃ S' e,
           OnDiscoverChatServersComplete WITH_WEBSOCKETS IsOk AsString HttpResponse
             bSucceeded SelectedIndex CreatedSocket S = Some (tt, S', e)
           ∧ Endpoints S' = Endpoints S ++ (AsString <$> JsonEndpoints)
           ∧ AuthKey S' =
               default (AuthKey S) (TryGetStringField ResponseObject FieldNames.AuthKey)
           ∧ Chat S' = set_WebSocket CreatedSocket (Chat S)
           ∧ ChannelId S' = ChannelId S
           ∧ CreateWebSocket SelectedEndpoint ["wss"; "ws"] ∈ e
           ∧ (WebSocket_Connect ∈ e ↔ is_Some CreatedSocket)
           ∧ ChatEffectsOf e =
               match CreatedSocket with
               | Some _ => []
               | None => [ConnectAttemptFinished false "Failed to create web socket"]
               end)
    ∧ (∀ ResponseObject,
         UsableResponse IsOk HttpResponse bSucceeded = Some ResponseObject →
         TryGetArrayField ResponseObject FieldNames.Endpoints = Some [] →
         Endpoints S = [] →
         OnDiscoverChatServersComplete WITH_WEBSOCKETS IsOk AsString HttpResponse
           bSucceeded SelectedIndex CreatedSocket S = None).
Proof.
  intros W IsOk AsString resp bSucc idx created S.
  rewrite OnDiscoverChatServersComplete_run. split_and!.
  - destruct (UsableResponse IsOk resp bSucc) as [o|]; simpl; [|done].
    by intros ->.
  - intros o arr ep -> -> Harr Hi Hep. rewrite Harr. cbn zeta.
    destruct (TryGetStringField o FieldNames.AuthKey) as [k|]; simpl;
      (rewrite (OpenWebSocket_run _ idx created ep) by done);
      eexists _, _; (split; [reflexivity|]);
      destruct created as [ws'|]; simpl;
      split_and!; try done; try set_solver; try (by eexists);
      try (by intros []); try (intros H; exfalso; set_solver).
  - intros o -> Harr He. rewrite Harr. cbn zeta.
    destruct (TryGetStringField o FieldNames.AuthKey) as [k|];
      rewrite OpenWebSocket_no_endpoint; try done; simpl; by rewrite He.
Qed.

(** Extra X19 at the response of the scenario: two endpoints and the auth
    key K, the second endpoint picked. *)
Lemma OnDiscoverChatServersComplete_outcomes_witness :
  ∃ S' e,
    OnDiscoverChatServersComplete true (λ c, bool_decide (c = 200)) (λ v,
        match v with JsonString x => x | _ => EmptyString end)
      (Some {| GetResponseCode := 200;
               GetContentAsJson :=
                 Some [(FieldNames.Endpoints,
                        JsonArray [JsonString "wss://a"; JsonString "wss://b"]);
                       (FieldNames.AuthKey, JsonString "K")] |})
      true 1 (Some {| IsConnected := false |})
      {| Chat := set_WebSocket None (ExampleConnection 5); RoomId := "abc";
         ChannelId := 42; AuthKey := ""; Endpoints := [];
         bRejoinOnDisconnect := false |} = Some (tt, S', e)
    ∧ Endpoints S' = ["wss://a"; "wss://b"]
    ∧ AuthKey S' = "K"
    ∧ CreateWebSocket "wss://b" ["wss"; "ws"] ∈ e
    ∧ ChatEffectsOf e = [].
Proof.
  destruct (OnDiscoverChatServersComplete_outcomes true (λ c, bool_decide (c = 200))
              (λ v, match v with JsonString x => x | _ => EmptyString end)
              (Some {| GetResponseCode := 200;
                       GetContentAsJson :=
                         Some [(FieldNames.Endpoints,
                                JsonArray [JsonString "wss://a"; JsonString "wss://b"]);
                               (FieldNames.AuthKey, JsonString "K")] |})
              true 1 (Some {| IsConnected := false |})
              {| Chat := set_WebSocket None (ExampleConnection 5); RoomId := "abc";
                 ChannelId := 42; AuthKey := ""; Endpoints := [];
                 bRejoinOnDisconnect := false |}) as (_ & Hok & _).
  destruct (Hok [(FieldNames.Endpoints,
                  JsonArray [JsonString "wss://a"; JsonString "wss://b"]);
                 (FieldNames.AuthKey, JsonString "K")]
              [JsonString "wss://a"; JsonString "wss://b"] "wss://b")
    as (S' & e & Hrun & Hep & Hk & _ & _ & Hc & _ & Hce); try reflexivity; [lia|].
  by exists S', e.
Defined.

(** Extra X20.  [OnGetChannelInfoForRoomIdComplete] takes the channel id
    from the [id] of a response that can be read and keeps the one it has
    otherwise.  When the channel id is then 0 it reports that the attempt to
    connect failed and requests nothing.  Otherwise
    [JoinDiscoveredChatChannel] requests the chat servers of that channel,
    with the authorization header when its value is not empty and with a
    warning in the log when it is, and reports failure exactly when the
    request could not be sent.  Nothing but the channel id is written. *)
Theorem OnGetChannelInfoForRoomIdComplete_outcomes :
  ∀ (IsOk : Z → bool) (HttpResponse : option FHttpResponse) (bSucceeded : bool)
    (AuthZHeaderValue : string) (ProcessRequestResult : bool) (S : FMixerChatSession),
    let NewChannelId :=
      default (ChannelId S)
        (UsableResponse IsOk HttpResponse bSucceeded
           ≫= (λ ResponseObject, TryGetNumberField ResponseObject FieldNames.Id)) in
    ∃ e,
      OnGetChannelInfoForRoomIdComplete IsOk HttpResponse bSucceeded AuthZHeaderValue
        ProcessRequestResult S = Some (tt, set_ChannelId NewChannelId S, e)
      ∧ if bool_decide (NewChannelId = 0)
        then e = [ChatEffect (ConnectAttemptFinished false
                                "Could not find Mixer chat channel for room id.")]
        else (∀ Url Authorization,
                ProcessRequest Url Authorization ∈ e ↔
                Url = ChatsUrl NewChannelId
                ∧ Authorization =
                    (if bool_decide (AuthZHeaderValue = EmptyString)
                     then None else Some AuthZHeaderValue))
             ∧ (UE_LOG_Session ELogVerbosity.Warning NoAuthTokenFound ∈ e
                ↔ AuthZHeaderValue = EmptyString)
             ∧ ChatEffectsOf e =
                 if ProcessRequestResult then []
                 else [ConnectAttemptFinished false
                         "Failed to send request for chat web socket connection info."].
Proof.
  intros IsOk resp bSucc AuthZ PR S cid.
  rewrite OnGetChannelInfoForRoomIdComplete_run. cbn zeta.
  set (S1 := match _ with Some n => set_ChannelId n S | None => S end).
  assert (HS1 : S1 = set_ChannelId cid S).
  { unfold S1, cid. destruct (UsableResponse IsOk resp bSucc ≫= _); [done|by destruct S]. }
  rewrite HS1. simpl.
  destruct (decide (cid = 0)) as [H0|Hn0].
  - rewrite bool_decide_false by (by intros []). rewrite (bool_decide_true (cid = 0)) by done.
    by eexists.
  - rewrite bool_decide_true by done. rewrite (bool_decide_false (cid = 0)) by done.
    rewrite JoinDiscoveredChatChannel_run. eexists. split; [reflexivity|]. simpl.
    assert (Hlen : (0 < String.length AuthZ)%nat ↔ AuthZ ≠ EmptyString).
    { destruct AuthZ; simpl; split; try done; try lia. }
    destruct (decide (AuthZ = EmptyString)) as [->|Hne].
    + rewrite bool_decide_false by (simpl; lia). rewrite bool_decide_true by done.
      destruct PR; simpl; split_and!; try done; try set_solver.
      all: intros Url Au; split; [|intros [-> ->]; set_solver].
      all: intros H; repeat (apply elem_of_cons in H as [H|H]; [by inversion H|]);
        by apply elem_of_nil in H.
    + rewrite bool_decide_true by (by apply Hlen). rewrite bool_decide_false by done.
      destruct PR; simpl; split_and!; try done.
      all: try (intros Url Au; split; [|intros [-> ->]; set_solver];
                intros H; repeat (apply elem_of_cons in H as [H|H]; [by inversion H|]);
                by apply elem_of_nil in H).
      all: split; [|done]; intros H;
        repeat (apply elem_of_cons in H as [H|H]; [by inversion H|]);
        by apply elem_of_nil in H.
Qed.

(** Extra X21.  From the socket connecting to its closing: on a connection
    with a socket and the rejoin flag down, [OnChatSocketConnected] sends
    the [auth] frame for the channel id and auth key of the connection under
    the current [MessageId]; the packet of the reply to that id without an
    error makes the connection ready and reports success; and when the
    socket closes after that, the chat interface is told that the room was
    left, the socket is gone and the connection is ready no more. *)
Theorem connected_authenticated_closed (FMixerUser_Id : Z) :
  ∀ (FGuid_Parse : string → option FGuid) (WITH_WEBSOCKETS : bool)
    (CurrentUser : option FMixerLocalUser) (Reply : FJsonObject)
    (StatusCode : Z) (Reason : string) (bWasClean : bool)
    (SelectedIndex : Z) (CreatedSocket : option IWebSocket)
    (S : FMixerChatSession) (ws : IWebSocket),
    PendingBelow (Chat S) →
    InInt32 (MessageId (Chat S)) → MessageId (Chat S) + 2 <= 2147483647 →
    WebSocket (Chat S) = Some ws →
    bRejoinOnDisconnect S = false →
    TryGetStringField Reply FieldNames.Type_ = Some MessageTypes.Reply →
    TryGetNumberField Reply FieldNames.Id = Some (MessageId (Chat S)) →
    TryGetObjectField Reply FieldNames.Error = None →
    ∃ S1 e1 S2 e2 S3 e3 Args,
      OnChatSocketConnected CurrentUser S = Some (tt, S1, e1)
      ∧ SentOf (ChatEffectsOf e1) =
          [WriteRemoteMethodPacket MethodNames.Auth (MessageId (Chat S)) Args]
      ∧ Args = match CurrentUser with
               | Some u =>
                   if negb (String.eqb (AuthKey S) EmptyString)
                   then [JsonNumber (ChannelId S); JsonNumber (Id u); JsonString (AuthKey S)]
                   else [JsonNumber (ChannelId S)]
               | None => [JsonNumber (ChannelId S)]
               end
      ∧ OnMessage FMixerUser_Id FGuid_Parse (Some Reply) S1 = Some (tt, S2, e2)
      ∧ bIsReady (Chat S2) = true
      ∧ last (ChatEffectsOf e2) = Some (ConnectAttemptFinished true EmptyString)
      ∧ OnChatSocketClosed WITH_WEBSOCKETS StatusCode Reason bWasClean SelectedIndex
          CreatedSocket S2 = Some (tt, S3, e3)
      ∧ ChatEffectsOf e3 = [ExitRoomWithReason bWasClean Reason]
      ∧ bIsReady (Chat S3) = false
      ∧ WebSocket (Chat S3) = None.
Proof.
  intros FGuid_Parse W CurrentUser Reply code Reason clean idx created S ws
    Hp Hin Hmax Hws Hrj Hty Hid Herr.
  pose proof (PendingBelow_free (Chat S) Hp) as Hfree.
  assert (Hsend := SendAuth_run (ChannelId S) CurrentUser (AuthKey S) (Chat S) ws Hfree Hws).
  assert (Hreply := HandleAuthReply_after_SendAuth FMixerUser_Id FGuid_Parse (Chat S) ws Reply
                      Hp Hin Hmax Hws Hty Hid).
  cbn zeta in Hreply. rewrite Herr in Hreply.
  destruct Hreply as (s2 & e2 & Hrun & Hready & _ & _ & He2 & _ & Hws2).
  set (s1 := set_MessageId (wrap32 (MessageId (Chat S) + 1))
               (set_ReplyHandlers
                  (<[MessageId (Chat S) := Some Ptr_HandleAuthReply]>
                     (ReplyHandlers (Chat S))) (Chat S))) in *.
  set (Args := match CurrentUser with
               | Some u =>
                   if negb (String.eqb (AuthKey S) EmptyString)
                   then [JsonNumber (ChannelId S); JsonNumber (Id u); JsonString (AuthKey S)]
                   else [JsonNumber (ChannelId S)]
               | None => [JsonNumber (ChannelId S)]
               end).
  assert (Hconn : ∃ Line,
            OnChatSocketConnected CurrentUser S =
              Some (tt, set_Chat s1 S,
                    ChatEffect <$>
                      [UE_LOG ELogVerbosity.Log Line;
                       WebSocket_Send
                         (WriteRemoteMethodPacket MethodNames.Auth (MessageId (Chat S)) Args)])).
  { unfold OnChatSocketConnected. run_session. rewrite OnChat_run, Hsend. subst Args.
    destruct CurrentUser as [u|]; [destruct (negb (String.eqb (AuthKey S) EmptyString))|];
      by eexists. }
  destruct Hconn as (Line & Hconn).
  assert (Hmsg : OnMessage FMixerUser_Id FGuid_Parse (Some Reply) (set_Chat s1 S) =
                 Some (tt, set_Chat s2 S, ChatEffect <$> e2)).
  { unfold OnMessage. rewrite OnChat_run. unfold OnChatPacket. run_op.
    change (Chat (set_Chat s1 S)) with s1. rewrite Hrun.
    cbn [mret Op_ret]. rewrite app_nil_r. by destruct S. }
  assert (Hclose := OnChatSocketClosed_run W code Reason clean idx created (set_Chat s2 S)).
  rewrite CloseWebSocket_run in Hclose.
  change (Chat (set_Chat s2 S)) with s2 in Hclose.
  change (bRejoinOnDisconnect (set_Chat s2 S)) with (bRejoinOnDisconnect S) in Hclose.
  rewrite Hws2, Hrj, Hready in Hclose.
  eexists _, _, _, _, _, _, Args.
  split; [exact Hconn|]. split; [by rewrite ChatEffectsOf_fmap|]. split; [done|].
  split; [exact Hmsg|]. split; [exact Hready|].
  split.
  { rewrite ChatEffectsOf_fmap, He2. by destruct (bool_decide _). }
  split; [exact Hclose|].
  split; [|done].
  rewrite ChatEffectsOf_log_cons.
  change (WebSocket_RemoveAll :: ?l) with ([WebSocket_RemoveAll] ++ l).
  rewrite !ChatEffectsOf_app. simpl. by destruct (IsConnected ws).
Qed.

(** Extra X21 at an anonymous session with a connected socket. *)
Lemma connected_authenticated_closed_witness :
  ∃ S1 e1 S2 e2 S3 e3,
    let S := {| Chat := ExampleConnection 5; RoomId := "abc"; ChannelId := 42;
                AuthKey := ""; Endpoints := ["wss://a"];
                bRejoinOnDisconnect := false |} in
    OnChatSocketConnected None S = Some (tt, S1, e1)
    ∧ SentOf (ChatEffectsOf e1) = [JsonObject [("type"%string, JsonString "method");
                    ("method"%string, JsonString "auth");
                    ("arguments"%string, JsonArray [JsonNumber 42]);
                    ("id"%string, JsonNumber 0)]]
    ∧ OnMessage ExampleFMixerUserId ExampleGuidParse (Some (ExampleReply 0 [])) S1
      = Some (tt, S2, e2)
    ∧ bIsReady (Chat S2) = true
    ∧ OnChatSocketClosed true 1006 "gone" false 0 None S2 = Some (tt, S3, e3)
    ∧ ChatEffectsOf e3 = [ExitRoomWithReason false "gone"]
    ∧ WebSocket (Chat S3) = None.
Proof.
  destruct (connected_authenticated_closed ExampleFMixerUserId ExampleGuidParse true None
      (ExampleReply 0 [])
              1006 "gone" false 0 None
              {| Chat := ExampleConnection 5; RoomId := "abc"; ChannelId := 42;
                 AuthKey := ""; Endpoints := ["wss://a"];
                 bRejoinOnDisconnect := false |} {| IsConnected := true |})
    as (S1 & e1 & S2 & e2 & S3 & e3 & Args & H1 & H2 & HA & H3 & H4 & _ & H5 & H6 & _ & H7).
  - intros k [x Hk]. simpl in Hk. by rewrite lookup_empty in Hk.
  - vm_compute. split; discriminate.
  - vm_compute. discriminate.
  - reflexivity.
  - reflexivity.
  - reflexivity.
  - reflexivity.
  - reflexivity.
  - subst Args. by exists S1, e1, S2, e2, S3, e3.
Defined.
